(** * HyperCast: windowing, standardisation, early stopping and inference

    A shallow embedding of the time-series pipeline of HyperCast:
    - [data/processing/feature_engineering.py] (WeatherFeatureEngineer),
    - [services/ml/train.py] (the epoch loop of [main]),
    - [services/ml/inference.py] (WeatherPredictor),
    - [services/api/app/main.py] (the [/forecast] endpoint).

    Numbers.  A float64 array entry is a real number or NaN ([None]):
    rounding is not modelled, and the two infinities are left out.  A
    table with an infinite entry, which scikit-learn's input validation
    refuses with [ValueError], is therefore outside the model: what is
    stated of [create_sequences] is stated of tables whose entries are
    finite or NaN.  The losses of the training loop and the [--train-split]
    argument are Python floats, and there the two infinities are kept.

    Exceptions.  A Python call that can raise returns [exn + A]; [inl e] is
    the raised exception class, [inr a] the returned value. *)

From Stdlib Require Import String.
From Stdlib Require Import Reals Lra Lia ZArith Bool Arith List.
From Stdlib Require Import Permutation Sorted.
Import ListNotations.

(* ================================================================== *)
(** * Part I: the program *)
(* ================================================================== *)

(** ** Python: exceptions, ranges, indexing and slicing *)

Module Py.

(** The exception classes met on the modelled paths.  [DataError] is the
    class named by the specification's error taxonomy; no statement of the
    sources raises it.  [OverflowError] is what [int] raises on an
    infinite float. *)
Inductive exn : Type :=
| ValueError
| KeyError
| IndexError
| NotFittedError
| RuntimeError
| DataError
| OverflowError.

Definition result (A : Type) : Type := (exn + A)%type.

Definition ret {A : Type} (a : A) : result A := inr a.

Definition raise {A : Type} (e : exn) : result A := inl e.

Definition bind {A B : Type} (m : result A) (f : A -> result B) : result B :=
  match m with
  | inl e => inl e
  | inr a => f a
  end.

Notation "x <- m ;; k" := (bind m (fun x => k))
  (at level 61, m at next level, right associativity).

(** [range(n)]: empty when [n <= 0]. *)
Definition range (n : Z) : list Z := map Z.of_nat (seq 0 (Z.to_nat n)).

(** [l[i]] with Python's negative indices; [IndexError] out of range. *)
Definition index {A : Type} (l : list A) (i : Z) : result A :=
  let n := Z.of_nat (length l) in
  let j := if (i <? 0)%Z then (i + n)%Z else i in
  if ((0 <=? j) && (j <? n))%Z then
    match nth_error l (Z.to_nat j) with
    | Some a => ret a
    | None => raise IndexError
    end
  else raise IndexError.

(** How a slice bound is clamped for a sequence of length [n]. *)
Definition clamp (n i : Z) : Z :=
  if (i <? 0)%Z then Z.max 0 (i + n) else Z.min i n.

(** [l[start:stop]]; never raises. *)
Definition slice {A : Type} (l : list A) (start stop : Z) : list A :=
  let n := Z.of_nat (length l) in
  let a := clamp n start in
  let b := clamp n stop in
  firstn (Z.to_nat (b - a)) (skipn (Z.to_nat a) l).

(** [l[start:]]. *)
Definition slice_from {A : Type} (l : list A) (start : Z) : list A :=
  skipn (Z.to_nat (clamp (Z.of_nat (length l)) start)) l.

End Py.

Import Py.

(** ** numpy: float64 entries and two-dimensional arrays *)

Module Np.

(** A float64 entry: a real, or NaN.  The two infinities are not among
    the entries: arrays are taken without them. *)
Definition float : Type := option R.

Definition nan : float := None.

Definition lift2 (f : R -> R -> R) (a b : float) : float :=
  match a, b with
  | Some x, Some y => Some (f x y)
  | _, _ => None
  end.

Definition fadd : float -> float -> float := lift2 Rplus.
Definition fsub : float -> float -> float := lift2 Rminus.
Definition fmul : float -> float -> float := lift2 Rmult.
Definition fdiv : float -> float -> float := lift2 Rdiv.

Definition lift1 (f : R -> R) (a : float) : float :=
  match a with
  | Some x => Some (f x)
  | None => None
  end.

Definition isnan (a : float) : bool :=
  match a with
  | Some _ => false
  | None => true
  end.

(** A 2-D array as the list of its rows. *)
Definition ndarray2 : Type := list (list float).

Definition shape0 (X : ndarray2) : nat := length X.

Definition shape1 (X : ndarray2) : nat :=
  match X with
  | [] => 0
  | r :: _ => length r
  end.

(** Every row has the width of the array: what the array type of numpy
    guarantees and a list of lists does not. *)
Definition rectangular (X : ndarray2) : Prop :=
  Forall (fun r => length r = shape1 X) X.

Definition column (j : nat) (X : ndarray2) : list float :=
  map (fun r => nth j r nan) X.

(** [X[i, j]]: Python indexing on both axes. *)
Definition index2 (X : ndarray2) (i j : Z) : result float :=
  r <- index X i ;; index r j.

(** [np.zeros((1, n))]. *)
Definition zeros_row (n : nat) : list float := repeat (Some 0%R) n.

(** [row[0] = v]. *)
Definition set_first (row : list float) (v : float) : result (list float) :=
  match row with
  | [] => raise IndexError
  | _ :: t => ret (v :: t)
  end.

End Np.

Import Np.

(** ** scikit-learn: [StandardScaler] with its default settings

    The library is not part of the repository; the model follows its
    documented behaviour, in the versions that have the [n_features_in_]
    attribute [predict] reads.  Input validation ([check_array], with its
    default minimum of one sample and one feature) raises [ValueError] on
    an array without rows or without columns; its third check, which
    raises [ValueError] on an infinite entry, has nothing to refuse here,
    the entries being reals or NaN.  NaN entries are left out
    of the statistics and kept by the transforms.  The variance is the
    population variance, and a feature of zero variance gets scale 1.
    [transform] raises [ValueError] when the width of its input is not
    [n_features_in_]; [inverse_transform] has no such check and multiplies
    and adds with numpy's broadcasting.  A scaler that was never fitted
    raises [NotFittedError]. *)

Module StandardScaler.

(** The fitted state: per feature, [(mean_, scale_)]. *)
Record t : Type := { stats : list (float * float) }.

Definition mean_ (s : t) : list float := map fst (stats s).
Definition scale_ (s : t) : list float := map snd (stats s).
Definition n_features_in_ (s : t) : nat := length (stats s).

Definition check_array (X : ndarray2) : result unit :=
  if Nat.eqb (shape0 X) 0 then raise ValueError
  else if Nat.eqb (shape1 X) 0 then raise ValueError
  else ret tt.

Definition nansum (c : list float) : R :=
  fold_right (fun o acc => match o with
                           | Some x => (x + acc)%R
                           | None => acc
                           end) 0%R c.

Definition count_valid (c : list float) : nat :=
  length (filter (fun o => negb (isnan o)) c).

Definition nanmean (c : list float) : float :=
  if Nat.eqb (count_valid c) 0 then nan
  else Some (nansum c / INR (count_valid c))%R.

Definition nanvar (c : list float) : float :=
  match nanmean c with
  | None => nan
  | Some m =>
      Some (nansum (map (lift1 (fun x => (x - m) * (x - m))%R) c)
            / INR (count_valid c))%R
  end.

Definition scale_of_var (v : float) : float :=
  match v with
  | None => nan
  | Some v => if Req_dec_T v 0 then Some 1%R else Some (sqrt v)
  end.

Definition fit (X : ndarray2) : result t :=
  _ <- check_array X ;;
  ret {| stats := map (fun j => (nanmean (column j X),
                                 scale_of_var (nanvar (column j X))))
                      (seq 0 (shape1 X)) |}.

Definition standardize (x : float) (st : float * float) : float :=
  fdiv (fsub x (fst st)) (snd st).

Definition unstandardize (x : float) (st : float * float) : float :=
  fadd (fmul x (snd st)) (fst st).

Definition map_row (f : float -> float * float -> float)
  (sts : list (float * float)) (r : list float) : list float :=
  map (fun p => f (fst p) (snd p)) (combine r sts).

Definition transform (sc : option t) (X : ndarray2) : result ndarray2 :=
  match sc with
  | None => raise NotFittedError
  | Some s =>
      _ <- check_array X ;;
      if Nat.eqb (shape1 X) (n_features_in_ s)
      then ret (map (map_row standardize (stats s)) X)
      else raise ValueError
  end.

Definition fit_transform (X : ndarray2) : result (t * ndarray2) :=
  s <- fit X ;;
  Xs <- transform (Some s) X ;;
  ret (s, Xs).

(** numpy broadcasting of the per-feature vectors against [k] columns:
    equal length, or length one repeated; otherwise [ValueError]. *)
Definition broadcast (sts : list (float * float)) (k : nat)
  : result (list (float * float)) :=
  if Nat.eqb (length sts) k then ret sts
  else match sts with
       | [st] => ret (repeat st k)
       | _ => raise ValueError
       end.

Definition inverse_transform (sc : option t) (X : ndarray2)
  : result ndarray2 :=
  match sc with
  | None => raise NotFittedError
  | Some s =>
      _ <- check_array X ;;
      sts <- broadcast (stats s) (shape1 X) ;;
      ret (map (map_row unstandardize sts) X)
  end.

End StandardScaler.

(** ** pandas: the table

    The model keeps the ['timestamp'] column, already parsed to datetime64
    (an integer count of nanoseconds since the epoch, so that
    [pd.to_datetime] leaves it as it is), and the numeric columns in their
    order, row by row.  Columns of other dtypes are left out: [prepare_data]
    neither reads nor fills them and [create_sequences] never selects
    them. *)

Module Pd.

Inductive dtype : Type :=
| float64
| float32
| int64
| int32
| number_other.   (* any other numeric dtype: int16, uint8, float16, ... *)

(** [row_time] is the row's ['timestamp'] entry; it is read only when the
    table has that column. *)
Record Row : Type := { row_time : Z; row_cells : list float }.

Record DataFrame : Type := {
  has_timestamp : bool;               (* 'timestamp' in df.columns *)
  columns : list (string * dtype);    (* the numeric columns, in order *)
  rows : list Row
}.

Definition len (df : DataFrame) : nat := length (rows df).

Definition well_formed (df : DataFrame) : Prop :=
  Forall (fun r => length (row_cells r) = length (columns df)) (rows df).

Definition with_cells (r : Row) (cs : list float) : Row :=
  {| row_time := row_time r; row_cells := cs |}.

Definition with_rows (df : DataFrame) (rs : list Row) : DataFrame :=
  {| has_timestamp := has_timestamp df; columns := columns df; rows := rs |}.

Fixpoint position (name : string) (cols : list (string * dtype))
  : option nat :=
  match cols with
  | [] => None
  | c :: t => if String.eqb name (fst c) then Some 0
              else option_map S (position name t)
  end.

Fixpoint set_nth {A : Type} (j : nat) (a : A) (l : list A) : list A :=
  match l, j with
  | [], _ => []
  | _ :: t, 0 => a :: t
  | h :: t, S j' => h :: set_nth j' a t
  end.

(** [df[name] = f(row)]: overwrites the column in place when the name
    exists and appends it otherwise. *)
Definition set_column (name : string) (dt : dtype) (f : Row -> float)
  (df : DataFrame) : DataFrame :=
  match position name (columns df) with
  | Some j =>
      {| has_timestamp := has_timestamp df;
         columns := set_nth j (name, dt) (columns df);
         rows := map (fun r => with_cells r (set_nth j (f r) (row_cells r)))
                     (rows df) |}
  | None =>
      {| has_timestamp := has_timestamp df;
         columns := columns df ++ [(name, dt)];
         rows := map (fun r => with_cells r (row_cells r ++ [f r]))
                     (rows df) |}
  end.

(** [df[name]] for one row; [KeyError] when the column is absent. *)
Definition column_position (name : string) (df : DataFrame) : result nat :=
  match position name (columns df) with
  | Some j => ret j
  | None => raise KeyError
  end.

(** The rows of [df[names]]; [KeyError] when a name is absent. *)
Fixpoint positions (names : list string) (df : DataFrame)
  : result (list nat) :=
  match names with
  | [] => ret []
  | n :: t =>
      j <- column_position n df ;;
      js <- positions t df ;;
      ret (j :: js)
  end.

Definition take_cells (js : list nat) (r : Row) : list float :=
  map (fun j => nth j (row_cells r) nan) js.

(** [df.sort_values('timestamp')]: ascending.  pandas sorts with
    quicksort by default, which does not fix the order of rows of equal
    timestamp; [sort_rows] is the outcome that keeps them in their order
    (the one small tables get), and [FeatureEngineering.prepare_data_from]
    takes any other. *)
Fixpoint insert_row (r : Row) (l : list Row) : list Row :=
  match l with
  | [] => [r]
  | h :: t => if (row_time r <=? row_time h)%Z then r :: l
              else h :: insert_row r t
  end.

Fixpoint sort_rows (l : list Row) : list Row :=
  match l with
  | [] => []
  | r :: t => insert_row r (sort_rows t)
  end.

Definition sort_values_timestamp (df : DataFrame) : DataFrame :=
  with_rows df (sort_rows (rows df)).

(** [keep='first'] over the timestamps: a row stays when no earlier row has
    its timestamp. *)
Fixpoint keep_first (seen : list Z) (l : list Row) : list Row :=
  match l with
  | [] => []
  | r :: t =>
      if existsb (Z.eqb (row_time r)) seen then keep_first seen t
      else r :: keep_first (row_time r :: seen) t
  end.

(** [df.drop_duplicates(subset=['timestamp'], keep='first')]: pandas raises
    [KeyError] when the subset names a column the table does not have. *)
Definition drop_duplicates_timestamp (df : DataFrame) : result DataFrame :=
  if has_timestamp df then ret (with_rows df (keep_first [] (rows df)))
  else raise KeyError.

(** [fillna(method='ffill')] and [fillna(method='bfill')], column by
    column, written over rows: a missing entry takes the entry of the
    neighbouring row already filled. *)
Definition fill_cell (prev cur : float) : float :=
  match cur with
  | None => prev
  | Some _ => cur
  end.

Fixpoint fill_row (prev cur : list float) : list float :=
  match cur with
  | [] => []
  | c :: cs => fill_cell (hd nan prev) c :: fill_row (tl prev) cs
  end.

Fixpoint ffill_from (prev : list float) (l : list Row) : list Row :=
  match l with
  | [] => []
  | r :: t =>
      let r' := with_cells r (fill_row prev (row_cells r)) in
      r' :: ffill_from (row_cells r') t
  end.

Definition ffill (l : list Row) : list Row := ffill_from [] l.

Fixpoint bfill (l : list Row) : list Row :=
  match l with
  | [] => []
  | r :: t =>
      let t' := bfill t in
      let next := match t' with
                  | [] => []
                  | n :: _ => row_cells n
                  end in
      with_cells r (fill_row next (row_cells r)) :: t'
  end.

(** The datetime accessors [.dt.hour] and [.dt.dayofyear] of a datetime64
    value in nanoseconds (proleptic Gregorian calendar). *)
Definition ns_per_hour : Z := 3600000000000.
Definition ns_per_day : Z := 86400000000000.

Definition dt_hour (t : Z) : Z := ((t / ns_per_hour) mod 24)%Z.

Definition days_from_civil (y m d : Z) : Z :=
  let y := if (m <=? 2)%Z then (y - 1)%Z else y in
  let era := (y / 400)%Z in
  let yoe := (y - era * 400)%Z in
  let mp := if (2 <? m)%Z then (m - 3)%Z else (m + 9)%Z in
  let doy := ((153 * mp + 2) / 5 + d - 1)%Z in
  let doe := (yoe * 365 + yoe / 4 - yoe / 100 + doy)%Z in
  (era * 146097 + doe - 719468)%Z.

Definition year_of_days (z : Z) : Z :=
  let z := (z + 719468)%Z in
  let era := (z / 146097)%Z in
  let doe := (z - era * 146097)%Z in
  let yoe := ((doe - doe / 1460 + doe / 36524 - doe / 146096) / 365)%Z in
  let doy := (doe - (365 * yoe + yoe / 4 - yoe / 100))%Z in
  let mp := ((5 * doy + 2) / 153)%Z in
  let m := if (mp <? 10)%Z then (mp + 3)%Z else (mp - 9)%Z in
  (yoe + era * 400 + (if (m <=? 2)%Z then 1 else 0))%Z.

Definition dt_dayofyear (t : Z) : Z :=
  let days := (t / ns_per_day)%Z in
  (days - days_from_civil (year_of_days days) 1 1 + 1)%Z.

End Pd.

Import Pd.

(** ** [feature_engineering.py]: WeatherFeatureEngineer *)

Module FeatureEngineering.

Record WeatherFeatureEngineer : Type := {
  sequence_length : Z;
  forecast_horizon : Z;
  scaler : option StandardScaler.t;     (* [None]: not fitted yet *)
  feature_columns : option (list string)
}.

(** [__init__]. *)
Definition init (sequence_length forecast_horizon : Z)
  : WeatherFeatureEngineer :=
  {| sequence_length := sequence_length;
     forecast_horizon := forecast_horizon;
     scaler := None;
     feature_columns := None |}.

Definition hour_of (r : Row) : R := IZR (dt_hour (row_time r)).
Definition day_of_year_of (r : Row) : R := IZR (dt_dayofyear (row_time r)).

(** The six assignments of the time-based features. *)
Definition add_time_features (df : DataFrame) : DataFrame :=
  let df := set_column "hour" int32 (fun r => Some (hour_of r)) df in
  let df := set_column "day_of_year" int32
              (fun r => Some (day_of_year_of r)) df in
  let df := set_column "hour_sin" float64
              (fun r => Some (sin (2 * PI * hour_of r / 24))%R) df in
  let df := set_column "hour_cos" float64
              (fun r => Some (cos (2 * PI * hour_of r / 24))%R) df in
  let df := set_column "day_sin" float64
              (fun r => Some (sin (2 * PI * day_of_year_of r / 365))%R) df in
  set_column "day_cos" float64
    (fun r => Some (cos (2 * PI * day_of_year_of r / 365))%R) df.

Definition prepare_data (df : DataFrame) : result DataFrame :=
  (* Ensure timestamp is datetime *)
  let df := if has_timestamp df then sort_values_timestamp df else df in
  (* Remove any duplicate timestamps *)
  df <- drop_duplicates_timestamp df ;;
  (* Add time-based features *)
  let df := if has_timestamp df then add_time_features df else df in
  (* Fill missing values with forward fill then backward fill *)
  ret (with_rows df (bfill (ffill (rows df)))).

(** [prepare_data] when [sort_values] leaves the rows in the order
    [sorted]: the same statements, with the sorted rows given.  Every
    arrangement of the rows in ascending order of timestamp is a possible
    [sorted]; [prepare_data] above is the case [sorted = sort_rows]. *)
Definition prepare_data_from (sorted : list Row) (df : DataFrame)
  : result DataFrame :=
  (* Ensure timestamp is datetime *)
  let df := if has_timestamp df then with_rows df sorted else df in
  (* Remove any duplicate timestamps *)
  df <- drop_duplicates_timestamp df ;;
  (* Add time-based features *)
  let df := if has_timestamp df then add_time_features df else df in
  (* Fill missing values with forward fill then backward fill *)
  ret (with_rows df (bfill (ffill (rows df)))).

(** The feature columns: every column whose name is none of ['timestamp'],
    ['hour'], ['day_of_year'] and whose dtype is one of the four listed. *)
Definition is_feature (c : string * dtype) : bool :=
  negb (existsb (String.eqb (fst c)) ["timestamp"; "hour"; "day_of_year"]%string)
  && match snd c with
     | float64 | float32 | int64 | int32 => true
     | number_other => false
     end.

Fixpoint select {A : Type} (mask : list bool) (l : list A) : list A :=
  match mask, l with
  | b :: m, x :: t => if b then x :: select m t else select m t
  | _, _ => []
  end.

Definition feature_mask (df : DataFrame) : list bool :=
  map is_feature (columns df).

Definition feature_cols (df : DataFrame) : list string :=
  map fst (select (feature_mask df) (columns df)).

(** [df[feature_cols].values]. *)
Definition feature_values (df : DataFrame) : ndarray2 :=
  map (fun r => select (feature_mask df) (row_cells r)) (rows df).

(** The three lists the loop appends to. *)
Definition Sequences : Type := (list ndarray2 * list float * list Z)%type.

(** The body of the [for] loop over the window indices and the loop. *)
Definition sequence_step (L H : Z) (df : DataFrame)
  (features_scaled : ndarray2) (i : Z) (acc : Sequences)
  : result Sequences :=
  let X := fst (fst acc) in
  let y := snd (fst acc) in
  let timestamps := snd acc in
  let X := X ++ [slice features_scaled i (i + L)] in
  let target_idx := (i + L + H - 1)%Z in
  v <- index2 features_scaled target_idx 0 ;;
  let y := y ++ [v] in
  if has_timestamp df then
    r <- index (rows df) target_idx ;;
    ret (X, y, timestamps ++ [row_time r])
  else ret (X, y, timestamps).

Fixpoint sequence_loop (L H : Z) (df : DataFrame)
  (features_scaled : ndarray2) (idxs : list Z) (acc : Sequences)
  : result Sequences :=
  match idxs with
  | [] => ret acc
  | i :: rest =>
      acc' <- sequence_step L H df features_scaled i acc ;;
      sequence_loop L H df features_scaled rest acc'
  end.

(** [create_sequences]: returns the engineer as it is left (feature
    columns recorded, scaler fitted when asked) and [(X, y, timestamps)]. *)
Definition create_sequences (self : WeatherFeatureEngineer)
  (df : DataFrame) (fit_scaler : bool)
  : result (WeatherFeatureEngineer * Sequences) :=
  let features := feature_values df in
  scaled <-
    (if fit_scaler then
       p <- StandardScaler.fit_transform features ;;
       ret (Some (fst p), snd p)
     else
       Xs <- StandardScaler.transform (scaler self) features ;;
       ret (scaler self, Xs)) ;;
  let features_scaled := snd scaled in
  let L := sequence_length self in
  let H := forecast_horizon self in
  out <- sequence_loop L H df features_scaled
           (range (Z.of_nat (len df) - L - H + 1)) ([], [], []) ;;
  ret ({| sequence_length := L;
          forecast_horizon := H;
          scaler := fst scaled;
          feature_columns := Some (feature_cols df) |}, out).

End FeatureEngineering.

(** ** [inference.py]: WeatherPredictor *)

Module Inference.

(** [metadata.json], as [feature_engineering.main] writes it and the
    checkpoint carries it. *)
Record Metadata : Type := {
  md_sequence_length : Z;
  md_forecast_horizon : Z;
  md_n_features : Z;
  md_feature_columns : list string;
  md_train_samples : Z;
  md_val_samples : Z
}.

(** The loaded predictor.  [model] is the forward pass of the restored
    network in inference mode on one window, giving the scalar it outputs
    or the error torch raises on a shape it cannot take. *)
Record WeatherPredictor : Type := {
  metadata : Metadata;
  model : ndarray2 -> result float;
  scaler : option StandardScaler.t
}.

Record Prediction : Type := {
  temperature_celsius : float;
  temperature_fahrenheit : float;
  forecast_hours : Z;
  confidence : R
}.

Definition to_fahrenheit (c : float) : float :=
  fadd (fdiv (fmul c (Some 9%R)) (Some 5%R)) (Some 32%R).

Definition n_features_of (sc : option StandardScaler.t) : result nat :=
  match sc with
  | Some s => ret (StandardScaler.n_features_in_ s)
  | None => raise NotFittedError
  end.

Definition predict (self : WeatherPredictor) (recent_data : ndarray2)
  : result Prediction :=
  (* Scale the input *)
  scaled_data <- StandardScaler.transform (scaler self) recent_data ;;
  (* Make prediction *)
  scaled_pred <- model self scaled_data ;;
  (* Create a full feature vector for inverse transform *)
  n <- n_features_of (scaler self) ;;
  dummy_row <- set_first (zeros_row n) scaled_pred ;;
  (* Inverse transform *)
  unscaled <- StandardScaler.inverse_transform (scaler self) [dummy_row] ;;
  temperature_celsius <- index2 unscaled 0 0 ;;
  (* Convert to Fahrenheit *)
  let temperature_fahrenheit := to_fahrenheit temperature_celsius in
  ret {| temperature_celsius := temperature_celsius;
         temperature_fahrenheit := temperature_fahrenheit;
         forecast_hours := (md_forecast_horizon (metadata self) * 3)%Z;
         confidence := (85 / 100)%R |}.

Definition predict_from_sequence (self : WeatherPredictor)
  (sequence : ndarray2) : result Prediction :=
  predict self sequence.

End Inference.

(** ** [train.py]: the epoch loop of [main] *)

Module Train.

(** A Python float as the loop compares it: a real, an infinity or NaN. *)
Inductive pyfloat : Type :=
| Finite (x : R)
| PosInf
| NegInf
| NaN.

(** [a < b] on Python floats: false as soon as one side is NaN. *)
Definition float_lt (a b : pyfloat) : bool :=
  match a, b with
  | NaN, _ => false
  | _, NaN => false
  | NegInf, NegInf => false
  | NegInf, _ => true
  | _, NegInf => false
  | PosInf, _ => false
  | Finite _, PosInf => true
  | Finite x, Finite y => if Rlt_dec x y then true else false
  end.

Record Args : Type := {
  hidden_size : Z;
  num_layers : Z;
  dropout : R;
  batch_size : Z;
  epochs : Z;
  lr : R;
  patience : Z
}.

Record ModelConfig : Type := {
  cfg_input_size : Z;
  cfg_hidden_size : Z;
  cfg_num_layers : Z;
  cfg_dropout : R
}.

(** The specification's words on early stopping, over a sequence [v] of
    validation losses: the best loss before an epoch, whether an epoch
    improves on it strictly, and the count of consecutive non-improving
    epochs since the most recent improvement. *)
Fixpoint spec_best_before (v : nat -> pyfloat) (e : nat) : pyfloat :=
  match e with
  | O => PosInf
  | S k => if float_lt (v k) (spec_best_before v k) then v k
           else spec_best_before v k
  end.

Definition spec_improves (v : nat -> pyfloat) (e : nat) : bool :=
  float_lt (v e) (spec_best_before v e).

Fixpoint spec_stale (v : nat -> pyfloat) (e : nat) : nat :=
  match e with
  | O => if spec_improves v O then 0 else 1
  | S k => if spec_improves v (S k) then 0 else S (spec_stale v k)
  end.

(** The count as an epoch finds it: that of the epoch before. *)
Definition spec_stale_before (v : nat -> pyfloat) (e : nat) : nat :=
  match e with
  | O => 0
  | S k => spec_stale v k
  end.

Section Loop.

(** What [model.state_dict()] and [optimizer.state_dict()] hold.  One
    training epoch updates both and returns the mean training loss;
    validation reads the weights and returns the mean validation loss.
    Both are total here: this is the loop as long as neither call
    raises.  [TrainRun] has the loop with calls that may raise. *)
Variables Weights OptState : Type.
Variable train_epoch : Weights * OptState -> (Weights * OptState) * pyfloat.
Variable validate : Weights -> pyfloat.

Record Checkpoint : Type := {
  epoch : Z;
  model_state_dict : Weights;
  optimizer_state_dict : OptState;
  train_loss : pyfloat;
  val_loss : pyfloat;
  ck_metadata : Inference.Metadata;
  model_config : ModelConfig
}.

(** The variables the loop updates.  [written] lists the checkpoints that
    [torch.save] wrote to [best_model.pth], the latest first: its head is
    the file's content. *)
Record LoopState : Type := {
  net : Weights * OptState;
  best_val_loss : pyfloat;
  patience_counter : Z;
  written : list Checkpoint
}.

Definition initial (net0 : Weights * OptState) : LoopState :=
  {| net := net0;
     best_val_loss := PosInf;
     patience_counter := 0;
     written := [] |}.

(** One pass through the loop body; the boolean tells whether [break]
    was reached. *)
Definition epoch_body (args : Args) (metadata : Inference.Metadata)
  (e : Z) (st : LoopState) : LoopState * bool :=
  let trained := train_epoch (net st) in
  let net' := fst trained in
  let tl := snd trained in
  let vl := validate (fst net') in
  if float_lt vl (best_val_loss st) then
    let checkpoint :=
      {| epoch := e;
         model_state_dict := fst net';
         optimizer_state_dict := snd net';
         train_loss := tl;
         val_loss := vl;
         ck_metadata := metadata;
         model_config :=
           {| cfg_input_size := Inference.md_n_features metadata;
              cfg_hidden_size := hidden_size args;
              cfg_num_layers := num_layers args;
              cfg_dropout := dropout args |} |} in
    ({| net := net';
        best_val_loss := vl;
        patience_counter := 0;
        written := checkpoint :: written st |}, false)
  else
    let pc := (patience_counter st + 1)%Z in
    ({| net := net';
        best_val_loss := best_val_loss st;
        patience_counter := pc;
        written := written st |}, (patience args <=? pc)%Z).

(** [for epoch in range(args.epochs)]: the final state and, when the loop
    left through [break], the epoch at which it did. *)
Fixpoint epoch_loop (args : Args) (metadata : Inference.Metadata)
  (es : list Z) (st : LoopState) : LoopState * option Z :=
  match es with
  | [] => (st, None)
  | e :: rest =>
      let r := epoch_body args metadata e st in
      if snd r then (fst r, Some e)
      else epoch_loop args metadata rest (fst r)
  end.

Definition training_loop (args : Args) (metadata : Inference.Metadata)
  (net0 : Weights * OptState) : LoopState * option Z :=
  epoch_loop args metadata (range (epochs args)) (initial net0).

(** The states the loop passes through: the state after each epoch that
    ran, in order. *)
Fixpoint epoch_trace (args : Args) (metadata : Inference.Metadata)
  (es : list Z) (st : LoopState) : list LoopState :=
  match es with
  | [] => []
  | e :: rest =>
      let r := epoch_body args metadata e st in
      fst r :: (if snd r then []
                else epoch_trace args metadata rest (fst r))
  end.

(** The network and the validation loss at each epoch of a run that is
    never stopped: training does not read the early-stopping variables. *)
Fixpoint net_after (n : nat) (net0 : Weights * OptState)
  : Weights * OptState :=
  match n with
  | O => net0
  | S k => fst (train_epoch (net_after k net0))
  end.

Definition val_loss_at (net0 : Weights * OptState) (e : nat) : pyfloat :=
  validate (fst (net_after (S e) net0)).

(** What the loop variables hold when epoch [a] starts, in a run from
    [net0]. *)
Definition at_epoch (net0 : Weights * OptState) (a : nat) (st : LoopState)
  : Prop :=
  net st = net_after a net0 /\
  best_val_loss st = spec_best_before (val_loss_at net0) a /\
  patience_counter st
  = Z.of_nat (spec_stale_before (val_loss_at net0) a).

End Loop.

Arguments at_epoch {Weights OptState} _ _ _ _ _.
Arguments epoch {Weights OptState} _.
Arguments model_state_dict {Weights OptState} _.
Arguments optimizer_state_dict {Weights OptState} _.
Arguments train_loss {Weights OptState} _.
Arguments val_loss {Weights OptState} _.
Arguments ck_metadata {Weights OptState} _.
Arguments model_config {Weights OptState} _.
Arguments net {Weights OptState} _.
Arguments best_val_loss {Weights OptState} _.
Arguments patience_counter {Weights OptState} _.
Arguments written {Weights OptState} _.
Arguments initial {Weights OptState} _.
Arguments epoch_body {Weights OptState} _ _ _ _ _ _.
Arguments epoch_loop {Weights OptState} _ _ _ _ _ _.
Arguments epoch_trace {Weights OptState} _ _ _ _ _ _.
Arguments training_loop {Weights OptState} _ _ _ _ _.
Arguments net_after {Weights OptState} _ _ _.
Arguments val_loss_at {Weights OptState} _ _ _ _.

(** [a] is not above [b]: equal to it or strictly less. *)
Definition not_above (a b : pyfloat) : Prop :=
  a = b \/ float_lt a b = true.

(** The counter reaches the patience at an epoch: the epoch does not
    improve and the count it brings is at least the patience. *)
Definition spec_exhausted (v : nat -> pyfloat) (patience : Z) (e : nat)
  : bool :=
  negb (spec_improves v e) && (patience <=? Z.of_nat (spec_stale v e))%Z.

(** The first such epoch below the cap, if any. *)
Definition spec_stop (v : nat -> pyfloat) (patience : Z) (cap : Z)
  : option Z :=
  option_map Z.of_nat
    (find (spec_exhausted v patience) (seq 0 (Z.to_nat cap))).

End Train.

(** ** [api/app/main.py]: the [/forecast] endpoint *)

Module Api.

Inductive Response : Type :=
| LocationNotSupported
| ModelNotLoaded
| PredictionFailed (e : exn)
| Forecast (lat lon : R)
    (current_temperature current_humidity : float) (current_timestamp : Z)
    (forecast_temperature : float) (forecast_hours : Z)
    (forecast_timestamp : Z) (confidence : R).

Definition in_supported_area (lat lon : R) : bool :=
  (if Rlt_dec 33 lat then true else false)
  && (if Rlt_dec lat (345 / 10) then true else false)
  && (if Rlt_dec (-85) lon then true else false)
  && (if Rlt_dec lon (-835 / 10) then true else false).

Definition features : list string :=
  ["temperature"; "humidity"; "hour_sin"; "hour_cos";
   "day_sin"; "day_cos"]%string.

(** The six feature assignments of the endpoint: the same as those of
    [prepare_data], but reading [df['timestamp']] without a guard. *)
Definition prepare_features (df : DataFrame) : result DataFrame :=
  if has_timestamp df then ret (FeatureEngineering.add_time_features df)
  else raise KeyError.

(** [df[features].iloc[-4:].values]. *)
Definition recent_data (df : DataFrame) : result ndarray2 :=
  js <- positions features df ;;
  ret (map (take_cells js) (slice_from (rows df) (-4))).

Definition ns_per_hour : Z := 3600000000000.

(** The [try] block. *)
Definition forecast_body (lat lon : R)
  (predictor : Inference.WeatherPredictor) (df : DataFrame)
  : result Response :=
  df <- prepare_features df ;;
  window <- recent_data df ;;
  result <- Inference.predict predictor window ;;
  current <- index (rows df) (-1) ;;
  jt <- column_position "temperature" df ;;
  jh <- column_position "humidity" df ;;
  let current_temp_f :=
    Inference.to_fahrenheit (nth jt (row_cells current) nan) in
  ret (Forecast lat lon
         current_temp_f
         (nth jh (row_cells current) nan)
         (row_time current)
         (Inference.temperature_fahrenheit result)
         (Inference.forecast_hours result)
         (row_time current
          + Inference.forecast_hours result * ns_per_hour)%Z
         (Inference.confidence result)).

Definition get_forecast (lat lon : R) (hours : Z)
  (predictor : option Inference.WeatherPredictor) (df : DataFrame)
  : Response :=
  if negb (in_supported_area lat lon) then LocationNotSupported
  else match predictor with
       | None => ModelNotLoaded
       | Some p =>
           match forecast_body lat lon p df with
           | inr response => response
           | inl e => PredictionFailed e
           end
       end.

End Api.

(** ** Notions used to state the properties *)

Module Notions.

Import StandardScaler.

(** When an entry can be standardised and recovered: it is NaN, or the
    statistics of its feature are numbers with a scale that is not 0. *)
Definition recoverable (x : float) (st : float * float) : Prop :=
  x = None \/ exists m s, st = (Some m, Some s) /\ s <> 0%R.

(** The statistics [fit] computes, feature by feature. *)
Definition fitted_stats (X : ndarray2) : list (float * float) :=
  map (fun j => (nanmean (column j X), scale_of_var (nanvar (column j X))))
      (seq 0 (shape1 X)).

(** The position a Python index [t] denotes in a sequence of length [n]:
    a negative index counts from the end. *)
Definition position_of (n : nat) (t : Z) : nat :=
  Z.to_nat (if (t <? 0)%Z then t + Z.of_nat n else t).

(** Entry 0 of the row a Python index denotes. *)
Definition target_value (fs : ndarray2) (t : Z) : float :=
  nth 0 (nth (position_of (length fs) t) fs []) nan.

(** The timestamp of the row a Python index denotes. *)
Definition target_time (df : DataFrame) (t : Z) : Z :=
  nth (position_of (len df) t) (map row_time (rows df)) 0%Z.

(** The index of the target of window [i]. *)
Definition target_index (L H i : Z) : Z := (i + L + H - 1)%Z.

(** The scaler [create_sequences] standardises with: the one it fits, or
    the one the engineer already holds. *)
Definition scaler_used (self : FeatureEngineering.WeatherFeatureEngineer)
  (df : DataFrame) (fit_scaler : bool) : option StandardScaler.t :=
  if fit_scaler
  then Some {| stats := fitted_stats (FeatureEngineering.feature_values df) |}
  else FeatureEngineering.scaler self.

(** The standardised feature matrix of a table. *)
Definition scaled_features (s : StandardScaler.t) (df : DataFrame)
  : ndarray2 :=
  map (map_row standardize (stats s)) (FeatureEngineering.feature_values df).

(** The window indices of a table of [n] rows. *)
Definition window_indices (L H : Z) (n : nat) : list Z :=
  range (Z.of_nat n - L - H + 1).

(** Filling one column in the specification's words: the last known
    value is carried forward; leading entries still missing take the first
    known value from below. *)
Fixpoint ffill_column (known : float) (c : list float) : list float :=
  match c with
  | [] => []
  | x :: t => fill_cell known x :: ffill_column (fill_cell known x) t
  end.

Fixpoint bfill_column (c : list float) : list float :=
  match c with
  | [] => []
  | x :: t => fill_cell (hd nan (bfill_column t)) x :: bfill_column t
  end.

Definition cells (l : list Row) : ndarray2 := map row_cells l.

Definition times (l : list Row) : list Z := map row_time l.

(** Rows in ascending order of timestamp. *)
Definition time_le (a b : Row) : Prop := (row_time a <= row_time b)%Z.

(** The table [prepare_data] has before it fills the missing values:
    sorted, duplicates dropped, time features added. *)
Definition deduplicated (df : DataFrame) : list Row :=
  keep_first [] (sort_rows (rows df)).

Definition before_fill (df : DataFrame) : DataFrame :=
  FeatureEngineering.add_time_features (with_rows df (deduplicated df)).

(** What [sort_values('timestamp')] may return on the rows [l]: the same
    rows in ascending order of timestamp, those of equal timestamp in any
    order. *)
Definition sort_outcome (l sorted : list Row) : Prop :=
  Permutation l sorted /\ StronglySorted time_le sorted.

(** The table before the fill when the sort has left [sorted]. *)
Definition before_fill_from (sorted : list Row) (df : DataFrame)
  : DataFrame :=
  FeatureEngineering.add_time_features
    (with_rows df (keep_first [] sorted)).

End Notions.

Import Notions.

(** ** Concrete inputs *)

Module Samples.

Import StandardScaler.

(** Twenty rows three hours apart with one temperature column. *)
Definition table20 : DataFrame :=
  {| has_timestamp := true;
     columns := [("temperature"%string, float64)];
     rows := map (fun k => {| row_time := (Z.of_nat k * 3 * ns_per_hour)%Z;
                              row_cells := [Some (INR k)] |})
                 (seq 0 20) |}.

(** A table with its columns and no row, as an empty parquet file gives. *)
Definition empty_table : DataFrame :=
  {| has_timestamp := true;
     columns := [("temperature"%string, float64)];
     rows := [] |}.

Definition engineer88 : FeatureEngineering.WeatherFeatureEngineer :=
  FeatureEngineering.init 8 8.

(** The same twenty rows without the timestamp column. *)
Definition untimed20 : DataFrame :=
  {| has_timestamp := false;
     columns := columns table20;
     rows := rows table20 |}.

(** Four rows out of order, one timestamp twice, two readings missing. *)
Definition ragged_table : DataFrame :=
  {| has_timestamp := true;
     columns := [("temperature"%string, float64)];
     rows := [ {| row_time := 2; row_cells := [None] |};
               {| row_time := 1; row_cells := [None] |};
               {| row_time := 2; row_cells := [Some 7%R] |};
               {| row_time := 3; row_cells := [Some 5%R] |} ] |}.

(** Twenty rows three hours apart with temperature and humidity, as the
    endpoint reads them. *)
Definition served_table : DataFrame :=
  {| has_timestamp := true;
     columns := [("temperature"%string, float64);
                 ("humidity"%string, float64)];
     rows := map (fun k => {| row_time := (Z.of_nat k * 3 * ns_per_hour)%Z;
                              row_cells := [Some (INR k); Some 50%R] |})
                 (seq 0 20) |}.

(** A scaler fitted on three features and a row of two. *)
Definition scaler3 : StandardScaler.t :=
  {| stats := [(Some 0%R, Some 1%R); (Some 0%R, Some 1%R);
               (Some 0%R, Some 1%R)] |}.

Definition two_columns : ndarray2 := [[Some 1%R; Some 2%R]].

Definition metadata88 : Inference.Metadata :=
  {| Inference.md_sequence_length := 8;
     Inference.md_forecast_horizon := 8;
     Inference.md_n_features := 1;
     Inference.md_feature_columns := ["temperature"%string];
     Inference.md_train_samples := 4;
     Inference.md_val_samples := 1 |}.

(** A network that answers with entry 0 of the last row it is given. *)
Definition last_first (X : ndarray2) : result float :=
  ret (nth 0 (last X []) nan).

Definition predictor3 : Inference.WeatherPredictor :=
  {| Inference.metadata := metadata88;
     Inference.model := last_first;
     Inference.scaler := Some scaler3 |}.

(** One feature of mean 20 and scale 5. *)
Definition predictor1 : Inference.WeatherPredictor :=
  {| Inference.metadata := metadata88;
     Inference.model := last_first;
     Inference.scaler := Some {| stats := [(Some 20%R, Some 5%R)] |} |}.

Definition one_reading : ndarray2 := [[Some 25%R]].

Definition two_readings : ndarray2 := [[Some 1%R]; [Some 3%R]].

(** A run whose network is the count of epochs trained and whose
    validation losses are 1, NaN, infinity, NaN, ... *)
Definition counting_train (n : nat * unit)
  : (nat * unit) * Train.pyfloat :=
  ((S (fst n), tt), Train.Finite 0%R).

Definition listed_validate (w : nat) : Train.pyfloat :=
  nth (w - 1) [Train.Finite 1%R; Train.NaN; Train.PosInf] Train.NaN.

Definition args_patience2 : Train.Args :=
  {| Train.hidden_size := 64;
     Train.num_layers := 2;
     Train.dropout := (2 / 10)%R;
     Train.batch_size := 2;
     Train.epochs := 100;
     Train.lr := (1 / 1000)%R;
     Train.patience := 2 |}.

(** A predictor for the six features of the endpoint, trained on
    windows of eight rows. *)
Definition predictor6 : Inference.WeatherPredictor :=
  {| Inference.metadata := metadata88;
     Inference.model := last_first;
     Inference.scaler :=
       Some {| stats := repeat (Some 0%R, Some 1%R) 6 |} |}.

Definition atlanta_lat : R := (33749 / 1000)%R.
Definition atlanta_lon : R := (-84388 / 1000)%R.

End Samples.

(** ** Notions on the checkpoint file *)

Module TrainNotions.

Import Train.

(** The validation loss the file [best_model.pth] holds: that of the
    checkpoint written last, or nothing better than infinity when none
    was written. *)
Definition loss_on_disk {Weights OptState : Type}
  (log : list (Checkpoint Weights OptState)) : pyfloat :=
  match log with
  | [] => PosInf
  | ck :: _ => val_loss ck
  end.

(** A later checkpoint against an earlier one: strictly smaller loss,
    strictly later epoch. *)
Definition supersedes {Weights OptState : Type}
  (newer older : Checkpoint Weights OptState) : Prop :=
  float_lt (val_loss newer) (val_loss older) = true /\
  (epoch older < epoch newer)%Z.

End TrainNotions.

(** ** [train.py]: [train_epoch] and [validate]

    One pass over the batches a loader yields.  The loss of a batch is
    what [criterion(model(X_batch), y_batch).item()] gives for the current
    weights, in training mode or in inference mode; an optimizer step is
    [zero_grad], [backward] and [step] on that batch.  Both are taken as
    they come from torch. *)

Module TrainEpoch.

(** What the division by [len(loader)] raises on an empty loader. *)
Inductive error : Type := ZeroDivisionError.

Section Batches.

Variables Weights OptState Batch : Type.
Variable train_loss_of : Weights -> Batch -> float.
Variable eval_loss_of : Weights -> Batch -> float.
Variable optimizer_step : Weights * OptState -> Batch -> Weights * OptState.

(** The [for] loop of [train_epoch]: the loss of a batch is taken before
    the step on that batch. *)
Fixpoint train_batches (net : Weights * OptState) (total_loss : float)
  (loader : list Batch) : (Weights * OptState) * float :=
  match loader with
  | [] => (net, total_loss)
  | batch :: rest =>
      let loss := train_loss_of (fst net) batch in
      train_batches (optimizer_step net batch) (fadd total_loss loss) rest
  end.

(** [total_loss / len(loader)]. *)
Definition mean_loss (total_loss : float) (n : nat) : error + float :=
  if Nat.eqb n 0 then inl ZeroDivisionError
  else inr (fdiv total_loss (Some (INR n))).

Definition train_epoch (net : Weights * OptState) (train_loader : list Batch)
  : error + ((Weights * OptState) * float) :=
  let r := train_batches net (Some 0%R) train_loader in
  match mean_loss (snd r) (length train_loader) with
  | inl e => inl e
  | inr m => inr (fst r, m)
  end.

(** The [for] loop of [validate]: no step is taken. *)
Fixpoint validate_batches (w : Weights) (total_loss : float)
  (loader : list Batch) : float :=
  match loader with
  | [] => total_loss
  | batch :: rest =>
      validate_batches w (fadd total_loss (eval_loss_of w batch)) rest
  end.

Definition validate (w : Weights) (val_loader : list Batch)
  : error + float :=
  mean_loss (validate_batches w (Some 0%R) val_loader) (length val_loader).

End Batches.

Arguments train_batches {Weights OptState Batch} _ _ _ _ _.
Arguments train_epoch {Weights OptState Batch} _ _ _ _.
Arguments validate_batches {Weights Batch} _ _ _ _.
Arguments validate {Weights Batch} _ _ _.

End TrainEpoch.

(** ** Notions on the cleaned table *)

Module PrepareNotions.

(** The names [prepare_data] assigns. *)
Definition time_feature_names : list string :=
  ["hour"; "day_of_year"; "hour_sin"; "hour_cos"; "day_sin";
   "day_cos"]%string.

(** None of these names is a column of the table yet. *)
Definition time_features_fresh (df : DataFrame) : Prop :=
  Forall (fun n => position n (columns df) = None) time_feature_names.

(** A column all of whose entries are missing, and one without a missing
    entry. *)
Definition all_missing (c : list float) : Prop :=
  Forall (fun x => x = None) c.

Definition none_missing (c : list float) : Prop :=
  Forall (fun x => x <> None) c.

(** No entry of the table is missing. *)
Definition complete (df : DataFrame) : Prop :=
  Forall (fun r => none_missing (row_cells r)) (rows df).

(** What [prepare_data] returns on a table with timestamps. *)
Definition cleaned (df : DataFrame) : DataFrame :=
  with_rows (before_fill df) (bfill (ffill (rows (before_fill df)))).

End PrepareNotions.

(** ** More concrete inputs *)

Module MoreSamples.

(** Three complete rows in ascending order. *)
Definition clean_table : DataFrame :=
  {| has_timestamp := true;
     columns := [("temperature"%string, float64);
                 ("humidity"%string, float64)];
     rows := [ {| row_time := 0; row_cells := [Some 20%R; Some 50%R] |};
               {| row_time := 10800000000000;
                  row_cells := [Some 21%R; Some 55%R] |};
               {| row_time := 21600000000000;
                  row_cells := [Some 19%R; Some 60%R] |} ] |}.

End MoreSamples.

(** ** Notions on the sequences *)

Module SequenceNotions.

(** Entry 0 of every row: the target column of a feature matrix. *)
Definition first_column (X : ndarray2) : list float :=
  map (fun r => nth 0 r nan) X.

(** The four features of a cleaned table that come from the timestamp. *)
Definition cyclical_names : list string :=
  ["hour_sin"; "hour_cos"; "day_sin"; "day_cos"]%string.

End SequenceNotions.

(** ** feature_engineering.py: the command line entry point *)

Module FeatureMain.

Import StandardScaler FeatureEngineering.

(** The parsed arguments [main] reads.  [--train-split] is parsed by
    [float], which also accepts [nan] and [inf]. *)
Module Args.
Record t : Type := {
  sequence_length : Z;
  forecast_horizon : Z;
  train_split : Train.pyfloat
}.
End Args.

(** The dictionary dumped to [metadata.json]. *)
Module Metadata.
Record t : Type := {
  sequence_length : Z;
  forecast_horizon : Z;
  n_features : nat;
  feature_columns : option (list string);
  train_samples : nat;
  val_samples : nat
}.
End Metadata.

(** The files [main] leaves in the output directory. *)
Record Saved : Type := {
  X_train_npy : list ndarray2;
  y_train_npy : list float;
  X_val_npy : list ndarray2;
  y_val_npy : list float;
  scaler_pkl : option StandardScaler.t;
  metadata_json : Metadata.t
}.

(** [n * x] for an int [n] and a float [x]. *)
Definition int_times (n : nat) (x : Train.pyfloat) : Train.pyfloat :=
  match x with
  | Train.Finite r => Train.Finite (INR n * r)
  | Train.PosInf => if Nat.eqb n 0 then Train.NaN else Train.PosInf
  | Train.NegInf => if Nat.eqb n 0 then Train.NaN else Train.NegInf
  | Train.NaN => Train.NaN
  end.

(** [int(x)] on a float: truncation towards zero, [ValueError] on NaN,
    [OverflowError] on an infinity. *)
Definition trunc (r : R) : Z :=
  if Rle_dec 0 r then Int_part r else (- Int_part (- r))%Z.

Definition py_int (x : Train.pyfloat) : result Z :=
  match x with
  | Train.Finite r => ret (trunc r)
  | Train.NaN => raise ValueError
  | Train.PosInf | Train.NegInf => raise OverflowError
  end.

(** [X.shape[2]] of the array of the windows: the width of a row of a
    window.  (numpy keeps that width also when the windows have no row,
    which a list of lists does not record: the properties of
    [n_features] below take [0 < sequence_length].) *)
Definition shape2 (X : list ndarray2) : nat :=
  match X with
  | [] => 0
  | w :: _ => shape1 w
  end.

(** [main]: the input is the table read from [input_file], [None] when the
    file does not exist; the result is the exit code and what has been
    written to the output directory. *)
Definition main (input_file : option DataFrame) (args : Args.t)
  : result (Z * option Saved) :=
  match input_file with
  | None => ret (1%Z, None)
  | Some df =>
      let engineer :=
        init (Args.sequence_length args) (Args.forecast_horizon args) in
      df_prepared <- prepare_data df ;;
      p <- create_sequences engineer df_prepared true ;;
      let engineer := fst p in
      let X := fst (fst (snd p)) in
      let y := snd (fst (snd p)) in
      if Nat.eqb (length X) 0 then ret (1%Z, None)
      else
        (* Split into train/val *)
        split_idx <-
          py_int (int_times (length X) (Args.train_split args)) ;;
        let X_train := slice X 0 split_idx in
        let X_val := slice_from X split_idx in
        let y_train := slice y 0 split_idx in
        let y_val := slice_from y split_idx in
        ret (0%Z,
             Some {| X_train_npy := X_train;
                     y_train_npy := y_train;
                     X_val_npy := X_val;
                     y_val_npy := y_val;
                     scaler_pkl := scaler engineer;
                     metadata_json :=
                       {| Metadata.sequence_length :=
                            Args.sequence_length args;
                          Metadata.forecast_horizon :=
                            Args.forecast_horizon args;
                          Metadata.n_features := shape2 X;
                          Metadata.feature_columns :=
                            feature_columns engineer;
                          Metadata.train_samples := length X_train;
                          Metadata.val_samples := length X_val |} |})
  end.

(** The distinct timestamps of a table. *)
Definition timesteps (df : DataFrame) : nat := length (deduplicated df).

(** The default arguments of the command line. *)
Definition default_args : Args.t :=
  {| Args.sequence_length := 8;
     Args.forecast_horizon := 8;
     Args.train_split := Train.Finite (8 / 10)%R |}.

End FeatureMain.

(** ** Notions on the endpoint *)

Module ApiNotions.

(** The area the endpoint serves: all four bounds excluded. *)
Definition inside_area (lat lon : R) : Prop :=
  (33 < lat < 345 / 10 /\ -85 < lon < -835 / 10)%R.


(** The names [add_time_features] assigns. *)
Definition assigned_names : list string :=
  ["hour"; "day_of_year"; "hour_sin"; "hour_cos"; "day_sin";
   "day_cos"]%string.

End ApiNotions.

(** ** [train.py]: the loop of [main] with calls that may raise

    [train_epoch] and [validate] divide by the number of batches and
    raise [ZeroDivisionError] on an empty loader; the loop has no [try],
    so an exception of either call leaves the loop and the program.
    Writing the checkpoint is taken to succeed. *)

Module TrainRun.

Import Train.

(** How the loop ends: through [break] at an epoch, by running out of
    [range(args.epochs)], or by an exception raised in an epoch. *)
Inductive Ending (E : Type) : Type :=
| Break (e : Z)
| Cap
| Raise (e : Z) (x : E).

Arguments Break {E} _.
Arguments Cap {E}.
Arguments Raise {E} _ _.

Section Run.

Variables Weights OptState E : Type.
Variable train_epoch
  : Weights * OptState -> E + ((Weights * OptState) * pyfloat).
Variable validate : Weights -> E + pyfloat.

(** One pass through the loop body: the exception of a call, or the new
    loop variables and whether [break] was reached. *)
Definition epoch_body (args : Args) (metadata : Inference.Metadata)
  (e : Z) (st : LoopState Weights OptState)
  : E + (LoopState Weights OptState * bool) :=
  match train_epoch (net st) with
  | inl x => inl x
  | inr trained =>
      let net' := fst trained in
      let tl := snd trained in
      match validate (fst net') with
      | inl x => inl x
      | inr vl =>
          inr
            (if float_lt vl (best_val_loss st) then
               let checkpoint :=
                 {| epoch := e;
                    model_state_dict := fst net';
                    optimizer_state_dict := snd net';
                    train_loss := tl;
                    val_loss := vl;
                    ck_metadata := metadata;
                    model_config :=
                      {| cfg_input_size := Inference.md_n_features metadata;
                         cfg_hidden_size := hidden_size args;
                         cfg_num_layers := num_layers args;
                         cfg_dropout := dropout args |} |} in
               ({| net := net';
                   best_val_loss := vl;
                   patience_counter := 0;
                   written := checkpoint :: written st |}, false)
             else
               let pc := (patience_counter st + 1)%Z in
               ({| net := net';
                   best_val_loss := best_val_loss st;
                   patience_counter := pc;
                   written := written st |}, (patience args <=? pc)%Z))
      end
  end.

(** [for epoch in range(args.epochs)]: the loop variables as the last
    completed epoch left them (the checkpoints written stay on disk) and
    the way the loop ended. *)
Fixpoint epoch_loop (args : Args) (metadata : Inference.Metadata)
  (es : list Z) (st : LoopState Weights OptState)
  : LoopState Weights OptState * Ending E :=
  match es with
  | [] => (st, Cap)
  | e :: rest =>
      match epoch_body args metadata e st with
      | inl x => (st, Raise e x)
      | inr r =>
          if snd r then (fst r, Break e)
          else epoch_loop args metadata rest (fst r)
      end
  end.

Definition training_loop (args : Args) (metadata : Inference.Metadata)
  (net0 : Weights * OptState) : LoopState Weights OptState * Ending E :=
  epoch_loop args metadata (range (epochs args)) (initial net0).

(** The network after [n] epochs of a run that is never stopped, and what
    epoch [e] of such a run computes: its validation loss, or the
    exception of the first call that raises. *)
Fixpoint net_after (n : nat) (net0 : Weights * OptState)
  : E + (Weights * OptState) :=
  match n with
  | O => inr net0
  | S k =>
      match net_after k net0 with
      | inl x => inl x
      | inr nets =>
          match train_epoch nets with
          | inl x => inl x
          | inr trained => inr (fst trained)
          end
      end
  end.

Definition epoch_outcome (net0 : Weights * OptState) (e : nat)
  : E + pyfloat :=
  match net_after e net0 with
  | inl x => inl x
  | inr nets =>
      match train_epoch nets with
      | inl x => inl x
      | inr trained => validate (fst (fst trained))
      end
  end.

(** What the loop variables hold when epoch [a] starts. *)
Definition at_epoch (v : nat -> pyfloat) (net0 : Weights * OptState)
  (a : nat) (st : LoopState Weights OptState) : Prop :=
  net_after a net0 = inr (net st) /\
  best_val_loss st = spec_best_before v a /\
  patience_counter st = Z.of_nat (spec_stale_before v a).

End Run.

Arguments epoch_body {Weights OptState E} _ _ _ _ _ _.
Arguments epoch_loop {Weights OptState E} _ _ _ _ _ _.
Arguments training_loop {Weights OptState E} _ _ _ _ _.
Arguments net_after {Weights OptState E} _ _ _.
Arguments epoch_outcome {Weights OptState E} _ _ _ _.
Arguments at_epoch {Weights OptState E} _ _ _ _ _.

(** The validation loss of an outcome (a raising epoch has none) and
    whether the outcome is an exception. *)
Definition loss_of {E : Type} (o : E + pyfloat) : pyfloat :=
  match o with
  | inr l => l
  | inl _ => NaN
  end.

Definition raises {E : Type} (o : E + pyfloat) : bool :=
  match o with
  | inr _ => false
  | inl _ => true
  end.

(** The ending in the specification's terms: going through the epochs in
    order, the first one that raises, or that exhausts the patience,
    decides; when there is none the cap is reached. *)
Fixpoint spec_ending {E : Type} (o : nat -> E + pyfloat) (patience : Z)
  (es : list nat) : Ending E :=
  match es with
  | [] => Cap
  | e :: rest =>
      match o e with
      | inl x => Raise (Z.of_nat e) x
      | inr _ =>
          if spec_exhausted (fun k => loss_of (o k)) patience e
          then Break (Z.of_nat e)
          else spec_ending o patience rest
      end
  end.

(** An epoch that neither raises nor exhausts the patience. *)
Definition quiet {E : Type} (o : nat -> E + pyfloat) (patience : Z)
  (e : nat) : Prop :=
  raises (o e) = false /\
  spec_exhausted (fun k => loss_of (o k)) patience e = false.

(** Exhaustion as the specification words it: the count of consecutive
    non-improving epochs has reached the patience, whether the epoch
    itself improves or not; and the first such epoch below the cap. *)
Definition worded_exhausted (v : nat -> pyfloat) (patience : Z) (e : nat)
  : bool :=
  (patience <=? Z.of_nat (spec_stale v e))%Z.

Definition worded_stop (v : nat -> pyfloat) (patience : Z) (cap : Z)
  : option Z :=
  option_map Z.of_nat
    (find (worded_exhausted v patience) (seq 0 (Z.to_nat cap))).

(** The two calls of the loop on its loaders: [train_epoch] and
    [validate] of [TrainEpoch], their mean loss read as a Python float. *)
Definition of_float (x : float) : pyfloat :=
  match x with
  | Some r => Finite r
  | None => NaN
  end.

Section Loaders.

Variables Weights OptState Batch : Type.
Variable train_loss_of : Weights -> Batch -> float.
Variable eval_loss_of : Weights -> Batch -> float.
Variable optimizer_step : Weights * OptState -> Batch -> Weights * OptState.
Variables train_loader val_loader : list Batch.

Definition train_epoch_on (net : Weights * OptState)
  : TrainEpoch.error + ((Weights * OptState) * pyfloat) :=
  match TrainEpoch.train_epoch train_loss_of optimizer_step net
          train_loader with
  | inl x => inl x
  | inr r => inr (fst r, of_float (snd r))
  end.

Definition validate_on (w : Weights) : TrainEpoch.error + pyfloat :=
  match TrainEpoch.validate eval_loss_of w val_loader with
  | inl x => inl x
  | inr m => inr (of_float m)
  end.

(** The loop of [main] on its two loaders. *)
Definition main_loop (args : Args) (metadata : Inference.Metadata)
  (net0 : Weights * OptState)
  : LoopState Weights OptState * Ending TrainEpoch.error :=
  training_loop train_epoch_on validate_on args metadata net0.

End Loaders.

Arguments train_epoch_on {Weights OptState Batch} _ _ _ _.
Arguments validate_on {Weights Batch} _ _ _.
Arguments main_loop {Weights OptState Batch} _ _ _ _ _ _ _ _.

End TrainRun.

(** ** Concrete runs of the loop *)

Module RunSamples.

Import Train.

(** Patience 0, otherwise the arguments of [Samples.args_patience2]. *)
Definition args_patience0 : Args :=
  {| hidden_size := 64;
     num_layers := 2;
     dropout := (2 / 10)%R;
     batch_size := 2;
     epochs := 100;
     lr := (1 / 1000)%R;
     patience := 0 |}.

(** A network that is a number, a batch that is a number, the loss of a
    batch their product, and a step that adds the batch to the network. *)
Definition product_loss (w : R) (b : R) : float := Some (w * b)%R.

Definition adding_step (net : R * unit) (b : R) : R * unit :=
  ((fst net + b)%R, tt).

End RunSamples.

(* ================================================================== *)
(** * Part II: properties *)
(* ================================================================== *)

(** ** The result monad *)

Lemma bind_inr {A B : Type} (m : result A) (f : A -> result B) (b : B) :
  bind m f = inr b -> exists a, m = inr a /\ f a = inr b.
Proof.
  destruct m as [e | a]; simpl; intros H.
  - discriminate.
  - exists a. split; [reflexivity | exact H].
Qed.

Lemma bind_ret {A B : Type} (a : A) (f : A -> result B) :
  bind (ret a) f = f a.
Proof. reflexivity. Qed.

(** ** Lists *)

Lemma Forall2_of_nth {A B : Type} (P : A -> B -> Prop) (da : A) (db : B) :
  forall (l : list A) (l' : list B),
    length l = length l' ->
    (forall j, j < length l -> P (nth j l da) (nth j l' db)) ->
    Forall2 P l l'.
Proof.
  induction l as [| a l IH]; intros [| b l'] Hlen Hnth; simpl in Hlen;
    try discriminate.
  - constructor.
  - constructor.
    + apply (Hnth 0). simpl. lia.
    + apply IH; [lia |].
      intros j Hj. apply (Hnth (S j)). simpl. lia.
Qed.

Lemma nth_map_seq {A : Type} (f : nat -> A) (d : A) (n j : nat) :
  j < n -> nth j (map f (seq 0 n)) d = f j.
Proof.
  intros Hj.
  rewrite (nth_indep _ d (f 0)) by (rewrite length_map, length_seq; lia).
  rewrite map_nth, seq_nth by lia. reflexivity.
Qed.

Lemma last_default {A : Type} (l : list A) (d d' : A) :
  l <> [] -> last l d = last l d'.
Proof.
  induction l as [| a l IH]; intros Hne; [contradiction |].
  destruct l as [| b l]; [reflexivity |].
  change (last (b :: l) d = last (b :: l) d'). apply IH. discriminate.
Qed.

(** ** StandardScaler *)

Module ScalerFacts.

Import StandardScaler.

Lemma nansum_squares_nonneg (m : R) (c : list float) :
  (0 <= nansum (map (lift1 (fun x => (x - m) * (x - m))%R) c))%R.
Proof.
  induction c as [| [x |] c IH]; simpl.
  - lra.
  - pose proof (Rle_0_sqr (x - m)) as Hsq. unfold Rsqr in Hsq. lra.
  - exact IH.
Qed.

Lemma count_valid_pos (c : list float) (x : R) :
  In (Some x) c -> 0 < count_valid c.
Proof.
  unfold count_valid. induction c as [| o c IH]; simpl; intros Hin.
  - contradiction.
  - destruct Hin as [-> | Hin].
    + simpl. lia.
    + destruct o; simpl; [lia | auto].
Qed.

Lemma nanmean_some (c : list float) :
  0 < count_valid c -> exists m, nanmean c = Some m.
Proof.
  intros H. unfold nanmean.
  destruct (Nat.eqb_spec (count_valid c) 0) as [E | _]; [lia |].
  eexists. reflexivity.
Qed.

Lemma nanvar_nonneg (c : list float) (v : R) :
  nanvar c = Some v -> (0 <= v)%R.
Proof.
  unfold nanvar, nanmean.
  destruct (Nat.eqb_spec (count_valid c) 0) as [E | NE]; [discriminate |].
  intros H. injection H as <-.
  apply Rmult_le_pos.
  - apply nansum_squares_nonneg.
  - left. apply Rinv_0_lt_compat. apply lt_0_INR. lia.
Qed.

(** The scale of a fitted feature is NaN or a positive real: a column of
    zero variance is given scale 1. *)
Lemma scale_of_var_positive (c : list float) (s : R) :
  scale_of_var (nanvar c) = Some s -> (0 < s)%R.
Proof.
  destruct (nanvar c) as [v |] eqn:Ev; simpl; [| discriminate].
  pose proof (nanvar_nonneg c v Ev) as Hv.
  destruct (Req_dec_T v 0) as [-> | Hne]; intros H; injection H as <-.
  - lra.
  - apply sqrt_lt_R0. lra.
Qed.

Lemma scale_of_var_some (c : list float) :
  0 < count_valid c -> exists s, scale_of_var (nanvar c) = Some s.
Proof.
  intros H. unfold nanvar.
  destruct (nanmean_some c H) as [m ->]. simpl.
  destruct (Req_dec_T _ 0); eexists; reflexivity.
Qed.

Lemma unstandardize_standardize (x : float) (st : float * float) :
  recoverable x st -> unstandardize (standardize x st) st = x.
Proof.
  intros [-> | (m & s & -> & Hs)].
  - reflexivity.
  - destruct x as [x |]; [| reflexivity].
    unfold unstandardize, standardize. simpl. f_equal. field. exact Hs.
Qed.

Lemma map_row_roundtrip (sts : list (float * float)) (r : list float) :
  Forall2 recoverable r sts ->
  map_row unstandardize sts (map_row standardize sts r) = r.
Proof.
  unfold map_row. induction 1 as [| x st r sts Hx _ IH]; simpl.
  - reflexivity.
  - rewrite unstandardize_standardize by exact Hx. f_equal. exact IH.
Qed.

Lemma map_row_length (f : float -> float * float -> float)
  (sts : list (float * float)) (r : list float) :
  length r = length sts -> length (map_row f sts r) = length r.
Proof.
  intros H. unfold map_row. rewrite length_map, length_combine. lia.
Qed.

Lemma check_array_ok (X : ndarray2) :
  shape0 X <> 0 -> shape1 X <> 0 -> check_array X = inr tt.
Proof.
  intros H0 H1. unfold check_array.
  destruct (Nat.eqb_spec (shape0 X) 0); [contradiction |].
  destruct (Nat.eqb_spec (shape1 X) 0); [contradiction |].
  reflexivity.
Qed.

Lemma check_array_inr (X : ndarray2) (u : unit) :
  check_array X = inr u -> shape0 X <> 0 /\ shape1 X <> 0.
Proof.
  unfold check_array.
  destruct (Nat.eqb_spec (shape0 X) 0); [discriminate |].
  destruct (Nat.eqb_spec (shape1 X) 0); [discriminate |].
  auto.
Qed.

Lemma fit_ok (X : ndarray2) :
  shape0 X <> 0 -> shape1 X <> 0 ->
  fit X = inr {| stats := fitted_stats X |}.
Proof.
  intros H0 H1. unfold fit. rewrite check_array_ok by assumption.
  reflexivity.
Qed.

Lemma fitted_stats_length (X : ndarray2) :
  length (fitted_stats X) = shape1 X.
Proof. unfold fitted_stats. rewrite length_map, length_seq. reflexivity. Qed.

Lemma fitted_recoverable (X : ndarray2) (r : list float) :
  In r X -> length r = shape1 X ->
  Forall2 recoverable r (fitted_stats X).
Proof.
  intros Hin Hlen.
  apply (Forall2_of_nth recoverable nan (nan, nan)).
  - rewrite fitted_stats_length. exact Hlen.
  - intros j Hj. unfold fitted_stats.
    rewrite nth_map_seq by lia.
    destruct (nth j r nan) as [x |] eqn:Ex; [right | left; reflexivity].
    assert (Hc : 0 < count_valid (column j X)).
    { apply (count_valid_pos _ x). unfold column.
      apply in_map_iff. exists r. split; [exact Ex | exact Hin]. }
    destruct (nanmean_some _ Hc) as [m Hm].
    destruct (scale_of_var_some _ Hc) as [s Hs].
    exists m, s. rewrite Hm, Hs. split; [reflexivity |].
    pose proof (scale_of_var_positive _ _ Hs). lra.
Qed.

Lemma shape1_map_row (f : float -> float * float -> float)
  (sts : list (float * float)) (X : ndarray2) :
  shape1 X = length sts ->
  shape1 (map (map_row f sts) X) = shape1 X.
Proof.
  destruct X as [| r X]; simpl; intros H; [reflexivity |].
  apply map_row_length. exact H.
Qed.

Lemma transform_ok (s : t) (X : ndarray2) :
  shape0 X <> 0 -> shape1 X <> 0 -> shape1 X = n_features_in_ s ->
  transform (Some s) X = inr (map (map_row standardize (stats s)) X).
Proof.
  intros H0 H1 Hk. unfold transform.
  rewrite check_array_ok by assumption. simpl.
  rewrite Hk, Nat.eqb_refl. reflexivity.
Qed.

Lemma fit_transform_ok (X : ndarray2) :
  shape0 X <> 0 -> shape1 X <> 0 ->
  fit_transform X =
  inr ({| stats := fitted_stats X |},
       map (map_row standardize (fitted_stats X)) X).
Proof.
  intros H0 H1. unfold fit_transform. rewrite fit_ok by assumption.
  cbn [bind]. rewrite transform_ok; try assumption.
  - reflexivity.
  - unfold n_features_in_. simpl. symmetry. apply fitted_stats_length.
Qed.

(** Fitting, standardising and inverting gives the matrix back; a column
    of zero variance is no exception, since its scale is 1. *)
Lemma inverse_transform_fit_transform (X : ndarray2) :
  rectangular X -> shape0 X <> 0 -> shape1 X <> 0 ->
  exists s Xs,
    fit_transform X = inr (s, Xs) /\
    inverse_transform (Some s) Xs = inr X.
Proof.
  intros Hrect H0 H1.
  eexists. eexists. split; [apply fit_transform_ok; assumption |].
  unfold inverse_transform. simpl stats.
  assert (Hs1 : shape1 (map (map_row standardize (fitted_stats X)) X)
                = shape1 X).
  { apply shape1_map_row. symmetry. apply fitted_stats_length. }
  rewrite check_array_ok.
  - simpl. unfold broadcast. rewrite Hs1, fitted_stats_length.
    rewrite Nat.eqb_refl. simpl. unfold ret. f_equal.
    rewrite map_map. rewrite <- (map_id X) at 2.
    apply map_ext_in. intros r Hr.
    apply map_row_roundtrip. apply fitted_recoverable; [exact Hr |].
    unfold rectangular in Hrect. rewrite Forall_forall in Hrect.
    apply Hrect. exact Hr.
  - unfold shape0 in *. rewrite length_map. exact H0.
  - rewrite Hs1. exact H1.
Qed.

End ScalerFacts.

(** ** WeatherPredictor *)

Module InferenceFacts.

Import StandardScaler ScalerFacts Inference.

Lemma transform_inr (sc : option t) (X Xs : ndarray2) :
  transform sc X = inr Xs ->
  exists s, sc = Some s /\ shape0 X <> 0 /\ shape1 X <> 0 /\
            shape1 X = n_features_in_ s /\
            Xs = map (map_row standardize (stats s)) X.
Proof.
  unfold transform. destruct sc as [s |]; [| discriminate].
  intros H. apply bind_inr in H. destruct H as (u & Hc & H).
  apply check_array_inr in Hc. destruct Hc as [H0 H1].
  destruct (Nat.eqb_spec (shape1 X) (n_features_in_ s)) as [E | NE];
    [| discriminate].
  injection H as <-. exists s. auto.
Qed.

(** A width other than the fitted one makes [transform] raise
    [ValueError], whatever else holds of the input. *)
Lemma transform_width_mismatch (s : t) (X : ndarray2) :
  shape1 X <> n_features_in_ s -> transform (Some s) X = inl ValueError.
Proof.
  intros NE. unfold transform, check_array.
  destruct (Nat.eqb (shape0 X) 0); [reflexivity |].
  destruct (Nat.eqb (shape1 X) 0); [reflexivity |]. simpl.
  destruct (Nat.eqb_spec (shape1 X) (n_features_in_ s)); [contradiction |].
  reflexivity.
Qed.

Lemma transform_empty (s : t) : transform (Some s) [] = inl ValueError.
Proof. reflexivity. Qed.

Lemma fadd_comm (a b : float) : fadd a b = fadd b a.
Proof.
  destruct a, b; simpl; try reflexivity. f_equal. apply Rplus_comm.
Qed.

Lemma fmul_comm (a b : float) : fmul a b = fmul b a.
Proof.
  destruct a, b; simpl; try reflexivity. f_equal. apply Rmult_comm.
Qed.

(** [predict] once the input has been standardised and the network has
    answered: the answer goes to position 0 of a row of zeros, the row
    through [inverse_transform], and position 0 of the outcome is the
    Celsius value. *)
Lemma predict_unfolded (self : WeatherPredictor) (X scaled : ndarray2)
  (v : float) :
  transform (scaler self) X = inr scaled ->
  model self scaled = inr v ->
  exists s st rest,
    scaler self = Some s /\ stats s = st :: rest /\
    inverse_transform (scaler self)
      [v :: repeat (Some 0%R) (n_features_in_ s - 1)]
    = inr [unstandardize v st
           :: map_row unstandardize rest
                (repeat (Some 0%R) (n_features_in_ s - 1))] /\
    predict self X =
    inr {| temperature_celsius := unstandardize v st;
           temperature_fahrenheit := to_fahrenheit (unstandardize v st);
           forecast_hours := (md_forecast_horizon (metadata self) * 3)%Z;
           confidence := (85 / 100)%R |}.
Proof.
  intros Ht Hm.
  destruct (transform_inr _ _ _ Ht) as (s & Hs & H0 & H1 & Hk & _).
  destruct (stats s) as [| st rest] eqn:Est;
    [unfold n_features_in_ in Hk; rewrite Est in Hk; simpl in Hk; lia |].
  exists s, st, rest. split; [exact Hs |]. split; [exact Est |].
  unfold n_features_in_. rewrite Est.
  assert (Hinv : inverse_transform (scaler self)
             [v :: repeat (Some 0%R) (length (st :: rest) - 1)]
           = inr [unstandardize v st
                  :: map_row unstandardize rest
                       (repeat (Some 0%R) (length (st :: rest) - 1))]).
  { rewrite Hs. unfold inverse_transform, check_array, broadcast.
    rewrite Est. simpl. rewrite Nat.sub_0_r, repeat_length.
    rewrite Nat.eqb_refl. reflexivity. }
  split; [exact Hinv |].
  unfold predict. rewrite Ht. cbn [bind]. rewrite Hm. cbn [bind].
  rewrite Hs. unfold n_features_of, n_features_in_. rewrite Est.
  cbn [bind ret length zeros_row repeat set_first].
  rewrite <- Hs.
  replace (repeat (Some 0%R) (length rest))
    with (repeat (Some 0%R) (length (st :: rest) - 1))
    by (simpl; rewrite Nat.sub_0_r; reflexivity).
  rewrite Hinv. reflexivity.
Qed.

End InferenceFacts.

(** ** WeatherFeatureEngineer: the windows *)

Module SequenceFacts.

Import StandardScaler ScalerFacts FeatureEngineering.

Lemma index_in_range {A : Type} (l : list A) (i : Z) (d : A) :
  (- Z.of_nat (length l) <= i < Z.of_nat (length l))%Z ->
  index l i = inr (nth (position_of (length l) i) l d).
Proof.
  intros Hi. unfold index, position_of.
  set (j := if (i <? 0)%Z then (i + Z.of_nat (length l))%Z else i).
  assert (Hj : (0 <= j < Z.of_nat (length l))%Z).
  { unfold j. destruct (Z.ltb_spec i 0); lia. }
  destruct (Z.leb_spec 0 j); [| lia].
  destruct (Z.ltb_spec j (Z.of_nat (length l))); [| lia]. simpl.
  destruct (nth_error l (Z.to_nat j)) as [a |] eqn:E.
  - rewrite (nth_error_nth _ _ d E). reflexivity.
  - apply nth_error_None in E. lia.
Qed.

Lemma index_out_of_range {A : Type} (l : list A) (i : Z) :
  (i < - Z.of_nat (length l) \/ Z.of_nat (length l) <= i)%Z ->
  index l i = inl IndexError.
Proof.
  intros Hi. unfold index.
  set (j := if (i <? 0)%Z then (i + Z.of_nat (length l))%Z else i).
  assert (Hj : (j < 0 \/ Z.of_nat (length l) <= j)%Z).
  { unfold j. destruct (Z.ltb_spec i 0); lia. }
  destruct (Z.leb_spec 0 j); destruct (Z.ltb_spec j (Z.of_nat (length l)));
    simpl; try reflexivity; lia.
Qed.

Lemma index2_first (fs : ndarray2) (t : Z) :
  (- Z.of_nat (length fs) <= t < Z.of_nat (length fs))%Z ->
  Forall (fun r => r <> []) fs ->
  index2 fs t 0 = inr (target_value fs t).
Proof.
  intros Ht Hne. unfold index2, target_value.
  rewrite (index_in_range fs t []) by exact Ht. cbn [bind].
  set (r := nth (position_of (length fs) t) fs []).
  assert (Hr : r <> []).
  { rewrite Forall_forall in Hne. apply Hne. apply nth_In.
    unfold position_of. destruct (Z.ltb_spec t 0); lia. }
  destruct r as [| x r']; [contradiction |]. reflexivity.
Qed.

Lemma index_row_time (df : DataFrame) (t : Z) :
  (- Z.of_nat (len df) <= t < Z.of_nat (len df))%Z ->
  exists r, index (rows df) t = inr r /\ row_time r = target_time df t.
Proof.
  intros Ht. unfold len in Ht.
  set (d := {| row_time := 0%Z; row_cells := [] |}).
  exists (nth (position_of (length (rows df)) t) (rows df) d).
  split; [apply index_in_range; exact Ht |].
  unfold target_time, len.
  change 0%Z with (row_time d). rewrite map_nth. reflexivity.
Qed.

(** The loop in closed form: as long as every target index is one Python
    accepts, the loop appends one window, one target and (when the table
    has timestamps) one timestamp per index, in order. *)
Lemma sequence_loop_closed (L H : Z) (df : DataFrame) (fs : ndarray2) :
  length fs = len df ->
  Forall (fun r => r <> []) fs ->
  forall (idxs : list Z) (acc : Sequences),
    (forall i, In i idxs ->
       (- Z.of_nat (length fs) <= target_index L H i
        < Z.of_nat (length fs))%Z) ->
    sequence_loop L H df fs idxs acc =
    inr (fst (fst acc) ++ map (fun i => slice fs i (i + L)) idxs,
         snd (fst acc)
           ++ map (fun i => target_value fs (target_index L H i)) idxs,
         snd acc
           ++ (if has_timestamp df
               then map (fun i => target_time df (target_index L H i)) idxs
               else [])).
Proof.
  intros Hlen Hne. induction idxs as [| i rest IH]; intros acc Hin.
  - simpl. destruct acc as [[X y] T]. simpl.
    rewrite !app_nil_r. destruct (has_timestamp df); rewrite ?app_nil_r;
      reflexivity.
  - cbn [sequence_loop]. unfold sequence_step.
    assert (Hi := Hin i (or_introl eq_refl)).
    fold (target_index L H i).
    rewrite index2_first by assumption. cbn [bind].
    destruct (has_timestamp df) eqn:Ets.
    + destruct (index_row_time df (target_index L H i)) as (r & Hr & Htime).
      { rewrite <- Hlen. exact Hi. }
      rewrite Hr. cbn [bind ret].
      rewrite IH by (intros j Hj; apply Hin; right; exact Hj).
      cbn [fst snd map]. rewrite Htime, <- !app_assoc. reflexivity.
    + cbn [bind ret].
      rewrite IH by (intros j Hj; apply Hin; right; exact Hj).
      cbn [fst snd map]. rewrite <- !app_assoc, app_nil_r. reflexivity.
Qed.

Lemma range_length (n : Z) : length (range n) = Z.to_nat n.
Proof. unfold range. rewrite length_map, length_seq. reflexivity. Qed.

Lemma range_In (n i : Z) : In i (range n) -> (0 <= i < n)%Z.
Proof.
  unfold range. rewrite in_map_iff. intros (k & <- & Hk).
  apply in_seq in Hk. lia.
Qed.


(** The width of [df[feature_cols].values]. *)
Lemma select_length {A B : Type} (mask : list bool) :
  forall (l : list A) (l' : list B),
    length l = length mask -> length l' = length mask ->
    length (select mask l) = length (select mask l').
Proof.
  induction mask as [| b mask IH]; intros [| x l] [| x' l'] Hl Hl';
    simpl in *; try discriminate; try reflexivity.
  destruct b; simpl; [f_equal |]; apply IH; lia.
Qed.

Lemma feature_values_width (df : DataFrame) :
  well_formed df ->
  Forall (fun r => length r = length (feature_cols df)) (feature_values df).
Proof.
  unfold well_formed, feature_values, feature_cols, feature_mask.
  intros Hwf. rewrite Forall_map. rewrite Forall_forall in *.
  intros r Hr. rewrite length_map.
  apply select_length; rewrite length_map; auto.
Qed.

Lemma feature_values_length (df : DataFrame) :
  length (feature_values df) = len df.
Proof. unfold feature_values, len. apply length_map. Qed.

Lemma shape1_of_width (X : ndarray2) (k : nat) :
  X <> [] -> Forall (fun r => length r = k) X -> shape1 X = k.
Proof.
  destruct X as [| r X]; [contradiction |]. intros _ H.
  inversion H; subst. reflexivity.
Qed.


Lemma scaled_rows_nonempty (f : float -> float * float -> float)
  (sts : list (float * float)) (X : ndarray2) (k : nat) :
  k <> 0 -> length sts = k -> Forall (fun r => length r = k) X ->
  Forall (fun r => r <> []) (map (map_row f sts) X).
Proof.
  intros Hk Hs HX. rewrite Forall_map. rewrite Forall_forall in *.
  intros r Hr. specialize (HX r Hr).
  destruct r as [| x r]; [simpl in HX; lia |].
  destruct sts as [| st rest]; [simpl in Hs; lia |]. discriminate.
Qed.

Lemma scaler_used_width (self : WeatherFeatureEngineer) (df : DataFrame)
  (s : t) :
  well_formed df -> len df <> 0 ->
  scaler_used self df true = Some s ->
  n_features_in_ s = length (feature_cols df).
Proof.
  intros Hwf Hn [= <-]. unfold n_features_in_. simpl.
  rewrite fitted_stats_length. apply shape1_of_width.
  - intros E. apply (f_equal (@length _)) in E.
    rewrite feature_values_length in E. simpl in E. contradiction.
  - apply feature_values_width. exact Hwf.
Qed.

(** [create_sequences] in closed form, on a table with at least one row
    and one feature column, for lengths that are not negative. *)
Lemma create_sequences_closed (self : WeatherFeatureEngineer)
  (df : DataFrame) (fit_scaler : bool) (s : t) :
  well_formed df -> len df <> 0 -> feature_cols df <> [] ->
  (0 <= sequence_length self)%Z -> (0 <= forecast_horizon self)%Z ->
  scaler_used self df fit_scaler = Some s ->
  n_features_in_ s = length (feature_cols df) ->
  let L := sequence_length self in
  let H := forecast_horizon self in
  let fs := scaled_features s df in
  let idxs := window_indices L H (len df) in
  create_sequences self df fit_scaler =
  inr ({| sequence_length := L;
          forecast_horizon := H;
          scaler := Some s;
          feature_columns := Some (feature_cols df) |},
       (map (fun i => slice fs i (i + L)) idxs,
        map (fun i => target_value fs (target_index L H i)) idxs,
        if has_timestamp df
        then map (fun i => target_time df (target_index L H i)) idxs
        else [])).
Proof.
  intros Hwf Hn Hk HL HH Hs Hw L H fs idxs.
  set (X := feature_values df).
  assert (HX : Forall (fun r => length r = length (feature_cols df)) X)
    by (apply feature_values_width; exact Hwf).
  assert (Hk' : length (feature_cols df) <> 0)
    by (destruct (feature_cols df); [contradiction | discriminate]).
  assert (HXne : X <> []).
  { intros E. apply (f_equal (@length _)) in E. unfold X in E.
    rewrite feature_values_length in E. simpl in E. contradiction. }
  assert (H1 : shape1 X = length (feature_cols df))
    by (apply shape1_of_width; assumption).
  assert (H0 : shape0 X <> 0).
  { unfold shape0, X. rewrite feature_values_length. exact Hn. }
  assert (Hscaled :
    (if fit_scaler then
       p <- fit_transform X ;; ret (Some (fst p), snd p)
     else
       Xs <- transform (scaler self) X ;; ret (scaler self, Xs))
    = inr (Some s, fs)).
  { destruct fit_scaler; simpl in Hs.
    - injection Hs as <-. rewrite fit_transform_ok by lia. reflexivity.
    - rewrite Hs. rewrite transform_ok by lia. reflexivity. }
  unfold create_sequences. fold X. rewrite Hscaled. cbn [bind fst snd].
  fold L H.
  rewrite sequence_loop_closed.
  - reflexivity.
  - unfold fs, scaled_features. rewrite length_map.
    apply feature_values_length.
  - unfold fs, scaled_features.
    apply (scaled_rows_nonempty _ _ _ (length (feature_cols df)));
      assumption.
  - intros i Hi. apply range_In in Hi.
    unfold fs, scaled_features, target_index.
    rewrite length_map, feature_values_length. unfold L, H in *. lia.
Qed.

End SequenceFacts.

(** ** The claims on the scaler and the predictor *)

Module ScalerClaims.

Import StandardScaler ScalerFacts InferenceFacts SequenceFacts.
Import FeatureEngineering Samples.

(** C6.  For every feature matrix (at least one column, every row of the
    matrix's width) all of whose columns have a variance that is not zero,
    fitting the scaler on it and applying [inverse_transform] to the
    standardised matrix gives the matrix back: [inverse_transform] is a
    left inverse of [transform] after [fit].  Entries are real numbers or
    NaN, so the reconstruction is exact. *)
Theorem inverse_transform_left_inverse (X : ndarray2) :
  rectangular X -> shape1 X <> 0 ->
  (forall j, j < shape1 X ->
     exists v, nanvar (column j X) = Some v /\ v <> 0%R) ->
  exists s Xs,
    fit_transform X = inr (s, Xs) /\
    inverse_transform (Some s) Xs = inr X.
Proof.
  intros Hrect H1 _.
  apply inverse_transform_fit_transform; try assumption.
  destruct X; [simpl in H1; contradiction | discriminate].
Qed.

Lemma inverse_transform_left_inverse_witness :
  rectangular two_readings /\ shape1 two_readings <> 0 /\
  (forall j, j < shape1 two_readings ->
     exists v, nanvar (column j two_readings) = Some v /\ v <> 0%R) /\
  exists s Xs,
    fit_transform two_readings = inr (s, Xs) /\
    inverse_transform (Some s) Xs = inr two_readings.
Proof.
  assert (Hrect : rectangular two_readings)
    by (repeat constructor).
  assert (H1 : shape1 two_readings <> 0) by (simpl; lia).
  assert (Hvar : forall j, j < shape1 two_readings ->
            exists v, nanvar (column j two_readings) = Some v /\ v <> 0%R).
  { intros j Hj. simpl in Hj. assert (j = 0) as -> by lia.
    eexists. split; [reflexivity |]. simpl. lra. }
  split; [exact Hrect |]. split; [exact H1 |]. split; [exact Hvar |].
  exact (inverse_transform_left_inverse two_readings Hrect H1 Hvar).
Defined.

(** C3 (as amended).  For every input matrix whose column count differs
    from the column count the scaler was fitted on, applying the restored
    scaler fails with the [ValueError] of the scaler's input validation
    and never proceeds: [transform] raises it, and so do
    [WeatherPredictor.predict] and [create_sequences] with [fit_scaler]
    false on such an input. *)
Theorem width_mismatch_raises_ValueError (s : t) (X : ndarray2) :
  shape1 X <> n_features_in_ s ->
  transform (Some s) X = inl ValueError /\
  (forall p, Inference.scaler p = Some s ->
             Inference.predict p X = inl ValueError) /\
  (forall self df, scaler self = Some s -> feature_values df = X ->
                   create_sequences self df false = inl ValueError).
Proof.
  intros NE. pose proof (transform_width_mismatch s X NE) as Ht.
  split; [exact Ht |]. split.
  - intros p Hp. unfold Inference.predict. rewrite Hp, Ht. reflexivity.
  - intros self df Hs HX. unfold create_sequences.
    rewrite Hs, HX, Ht. reflexivity.
Qed.

Lemma width_mismatch_raises_ValueError_witness :
  shape1 two_columns <> n_features_in_ scaler3 /\
  Inference.predict predictor3 two_columns = inl ValueError.
Proof.
  assert (NE : shape1 two_columns <> n_features_in_ scaler3)
    by (vm_compute; lia).
  split; [exact NE |].
  apply (width_mismatch_raises_ValueError scaler3 two_columns NE).
  reflexivity.
Defined.

(** C3 as stated fails: two columns given to a predictor whose scaler was
    fitted on three raise [ValueError], which is not [DataError]. *)
Lemma width_mismatch_is_not_DataError :
  shape1 two_columns <> n_features_in_ scaler3 /\
  Inference.predict predictor3 two_columns = inl ValueError /\
  Inference.predict predictor3 two_columns <> inl DataError.
Proof.
  split; [vm_compute; lia |]. split; [reflexivity | discriminate].
Qed.

(** C7.  For every input window that the scaler accepts and the network
    answers with a scalar [v], [predict] recovers the Celsius value by
    placing [v] at index 0 of a zero vector of length [n_features_in_]
    and running the scaler's [inverse_transform] on it, so that
    celsius = mean_0 + scale_0 * v; it returns
    fahrenheit = celsius * 9 / 5 + 32 and
    forecast_hours = forecast_horizon * 3. *)
Theorem predict_recovers_celsius (self : Inference.WeatherPredictor)
  (X scaled : ndarray2) (v : float) :
  transform (Inference.scaler self) X = inr scaled ->
  Inference.model self scaled = inr v ->
  exists s m sd rest dummy others,
    Inference.scaler self = Some s /\
    stats s = (m, sd) :: rest /\
    set_first (zeros_row (n_features_in_ s)) v = inr dummy /\
    dummy = v :: repeat (Some 0%R) (n_features_in_ s - 1) /\
    inverse_transform (Inference.scaler self) [dummy]
    = inr [fadd m (fmul sd v) :: others] /\
    Inference.predict self X =
    inr {| Inference.temperature_celsius := fadd m (fmul sd v);
           Inference.temperature_fahrenheit :=
             fadd (fdiv (fmul (fadd m (fmul sd v)) (Some 9%R)) (Some 5%R))
                  (Some 32%R);
           Inference.forecast_hours :=
             (Inference.md_forecast_horizon (Inference.metadata self) * 3)%Z;
           Inference.confidence := (85 / 100)%R |}.
Proof.
  intros Ht Hm.
  destruct (predict_unfolded self X scaled v Ht Hm)
    as (s & [m sd] & rest & Hs & Est & Hinv & Hp).
  assert (Hc : unstandardize v (m, sd) = fadd m (fmul sd v)).
  { unfold unstandardize. simpl fst. simpl snd.
    rewrite fadd_comm, (fmul_comm v sd). reflexivity. }
  rewrite Hc in Hinv, Hp.
  exists s, m, sd, rest. eexists. eexists.
  split; [exact Hs |]. split; [exact Est |].
  split; [| split; [reflexivity | split; [exact Hinv | exact Hp]]].
  unfold n_features_in_. rewrite Est. simpl.
  rewrite Nat.sub_0_r. reflexivity.
Qed.

Lemma predict_recovers_celsius_witness :
  transform (Inference.scaler predictor1) one_reading
  = inr [[Some ((25 - 20) / 5)%R]] /\
  Inference.model predictor1 [[Some ((25 - 20) / 5)%R]]
  = inr (Some ((25 - 20) / 5)%R) /\
  exists c f,
    Inference.predict predictor1 one_reading =
    inr {| Inference.temperature_celsius := c;
           Inference.temperature_fahrenheit := f;
           Inference.forecast_hours := 24;
           Inference.confidence := (85 / 100)%R |}.
Proof.
  assert (Ht : transform (Inference.scaler predictor1) one_reading
               = inr [[Some ((25 - 20) / 5)%R]]) by reflexivity.
  assert (Hm : Inference.model predictor1 [[Some ((25 - 20) / 5)%R]]
               = inr (Some ((25 - 20) / 5)%R)) by reflexivity.
  split; [exact Ht |]. split; [exact Hm |].
  destruct (predict_recovers_celsius predictor1 one_reading _ _ Ht Hm)
    as (s & m & sd & rest & dummy & others & _ & _ & _ & _ & _ & Hp).
  eexists. eexists. exact Hp.
Defined.

(** C10.  For every input matrix, [predict_from_sequence] returns exactly
    what [predict] returns: its input is standardised with the loaded
    scaler again, the network runs on the standardised matrix, and a
    failure of the scaler or of the network is the result. *)
Theorem predict_from_sequence_is_predict
  (self : Inference.WeatherPredictor) (x : ndarray2) :
  Inference.predict_from_sequence self x = Inference.predict self x /\
  (forall e, transform (Inference.scaler self) x = inl e ->
             Inference.predict_from_sequence self x = inl e) /\
  (forall scaled, transform (Inference.scaler self) x = inr scaled ->
     (forall e, Inference.model self scaled = inl e ->
                Inference.predict_from_sequence self x = inl e) /\
     (forall v, Inference.model self scaled = inr v ->
        exists s st rest,
          Inference.scaler self = Some s /\ stats s = st :: rest /\
          Inference.predict_from_sequence self x =
          inr {| Inference.temperature_celsius := unstandardize v st;
                 Inference.temperature_fahrenheit :=
                   Inference.to_fahrenheit (unstandardize v st);
                 Inference.forecast_hours :=
                   (Inference.md_forecast_horizon (Inference.metadata self)
                    * 3)%Z;
                 Inference.confidence := (85 / 100)%R |})).
Proof.
  split; [reflexivity |]. split.
  - intros e He. unfold Inference.predict_from_sequence, Inference.predict.
    rewrite He. reflexivity.
  - intros scaled Ht. split.
    + intros e He.
      unfold Inference.predict_from_sequence, Inference.predict.
      rewrite Ht. cbn [bind]. rewrite He. reflexivity.
    + intros v Hv.
      destruct (predict_unfolded self x scaled v Ht Hv)
        as (s & st & rest & Hs & Est & _ & Hp).
      exists s, st, rest. auto.
Qed.

Lemma predict_from_sequence_is_predict_witness :
  transform (Inference.scaler predictor1) one_reading
  = inr [[Some ((25 - 20) / 5)%R]] /\
  Inference.model predictor1 [[Some ((25 - 20) / 5)%R]]
  = inr (Some ((25 - 20) / 5)%R) /\
  exists c f,
    Inference.predict_from_sequence predictor1 one_reading =
    inr {| Inference.temperature_celsius := c;
           Inference.temperature_fahrenheit := f;
           Inference.forecast_hours := 24;
           Inference.confidence := (85 / 100)%R |}.
Proof.
  assert (Ht : transform (Inference.scaler predictor1) one_reading
               = inr [[Some ((25 - 20) / 5)%R]]) by reflexivity.
  assert (Hm : Inference.model predictor1 [[Some ((25 - 20) / 5)%R]]
               = inr (Some ((25 - 20) / 5)%R)) by reflexivity.
  split; [exact Ht |]. split; [exact Hm |].
  destruct (predict_from_sequence_is_predict predictor1 one_reading)
    as (_ & _ & H).
  destruct (H _ Ht) as (_ & Hv).
  destruct (Hv _ Hm) as (s & st & rest & _ & _ & Hp).
  eexists. eexists. exact Hp.
Defined.

End ScalerClaims.

(** ** The claims on the windows *)

Module SequenceClaims.

Import StandardScaler ScalerFacts SequenceFacts.
Import FeatureEngineering Samples.

Lemma scaler_available (self : WeatherFeatureEngineer) (df : DataFrame)
  (fit_scaler : bool) :
  well_formed df -> len df <> 0 ->
  (fit_scaler = true \/
   exists s, scaler self = Some s /\
             n_features_in_ s = length (feature_cols df)) ->
  exists s, scaler_used self df fit_scaler = Some s /\
            n_features_in_ s = length (feature_cols df).
Proof.
  intros Hwf Hn [-> | (s & Hs & Hw)].
  - eexists. split; [reflexivity |].
    apply (scaler_used_width self df); auto.
  - destruct fit_scaler.
    + eexists. split; [reflexivity |].
      apply (scaler_used_width self df); auto.
    + exists s. auto.
Qed.

Lemma table20_well_formed : well_formed table20.
Proof.
  unfold well_formed, table20. simpl. repeat constructor.
Qed.

Lemma table20_features : feature_cols table20 <> [].
Proof. vm_compute. discriminate. Qed.

(** The number of windows, targets and timestamps. *)
Lemma window_count (self : WeatherFeatureEngineer)
  (df : DataFrame) (fit_scaler : bool) :
  well_formed df -> len df <> 0 -> feature_cols df <> [] ->
  (0 <= sequence_length self)%Z -> (0 <= forecast_horizon self)%Z ->
  (fit_scaler = true \/
   exists s, scaler self = Some s /\
             n_features_in_ s = length (feature_cols df)) ->
  exists self' X y T,
    create_sequences self df fit_scaler = inr (self', (X, y, T)) /\
    Z.of_nat (length X)
    = Z.max 0 (Z.of_nat (len df) - sequence_length self
               - forecast_horizon self + 1) /\
    length y = length X /\
    (has_timestamp df = true -> length T = length X) /\
    ((Z.of_nat (len df) - sequence_length self
      - forecast_horizon self + 1 <= 0)%Z ->
     X = [] /\ y = [] /\ T = []).
Proof.
  intros Hwf Hn Hk HL HH Hsc.
  destruct (scaler_available self df fit_scaler Hwf Hn Hsc) as (s & Hs & Hw).
  pose proof (create_sequences_closed self df fit_scaler s
                Hwf Hn Hk HL HH Hs Hw) as Hc.
  cbv zeta in Hc.
  eexists. eexists. eexists. eexists.
  split; [exact Hc |].
  unfold window_indices.
  split; [rewrite length_map, range_length; lia |].
  split; [rewrite !length_map; reflexivity |].
  split.
  - intros ->. rewrite !length_map. reflexivity.
  - intros Hle.
    assert (E : range (Z.of_nat (len df) - sequence_length self
                       - forecast_horizon self + 1) = []).
    { unfold range.
      replace (Z.to_nat _) with 0 by lia. reflexivity. }
    rewrite E. simpl. destruct (has_timestamp df); auto.
Qed.

(** C1 (as amended).  For every cleaned table of [N >= 1] rows with at
    least one feature column, whose entries are finite or NaN, and
    lengths that are not negative, [create_sequences] returns, and
    produces exactly
    [max(0, N - sequence_length - forecast_horizon + 1)] windows with as
    many targets and timestamps (20 rows with [sequence_length = 8] and
    [forecast_horizon = 8] give exactly 5); when no valid window exists it
    returns empty arrays rather than raising an error.  The scaler is the
    one it fits, or one restored with the table's feature count. *)
Theorem create_sequences_window_count (self : WeatherFeatureEngineer)
  (df : DataFrame) (fit_scaler : bool) :
  well_formed df -> len df <> 0 -> feature_cols df <> [] ->
  (0 <= sequence_length self)%Z -> (0 <= forecast_horizon self)%Z ->
  (fit_scaler = true \/
   exists s, scaler self = Some s /\
             n_features_in_ s = length (feature_cols df)) ->
  exists self' X y T,
    create_sequences self df fit_scaler = inr (self', (X, y, T)) /\
    Z.of_nat (length X)
    = Z.max 0 (Z.of_nat (len df) - sequence_length self
               - forecast_horizon self + 1) /\
    length y = length X /\
    (has_timestamp df = true -> length T = length X) /\
    ((Z.of_nat (len df) - sequence_length self
      - forecast_horizon self + 1 <= 0)%Z ->
     X = [] /\ y = [] /\ T = []).
Proof. exact (window_count self df fit_scaler). Qed.

Lemma create_sequences_window_count_witness :
  well_formed table20 /\ len table20 <> 0 /\ feature_cols table20 <> [] /\
  (0 <= sequence_length engineer88)%Z /\
  (0 <= forecast_horizon engineer88)%Z /\
  exists self' X y T,
    create_sequences engineer88 table20 true = inr (self', (X, y, T)) /\
    Z.of_nat (length X) = 5%Z /\ length y = length X.
Proof.
  assert (Hn : len table20 <> 0) by (vm_compute; lia).
  assert (HL : (0 <= sequence_length engineer88)%Z) by (vm_compute; discriminate).
  assert (HH : (0 <= forecast_horizon engineer88)%Z) by (vm_compute; discriminate).
  split; [exact table20_well_formed |]. split; [exact Hn |].
  split; [exact table20_features |]. split; [exact HL |].
  split; [exact HH |].
  destruct (create_sequences_window_count engineer88 table20 true
              table20_well_formed Hn table20_features HL HH
              (or_introl eq_refl))
    as (self' & X & y & T & Hc & HX & Hy & _).
  exists self', X, y, T. split; [exact Hc |]. split; [exact HX | exact Hy].
Defined.

(** C1 as stated fails on the empty table: cleaning it succeeds, no valid
    window exists, and [create_sequences] raises the [ValueError] of the
    scaler's input validation instead of returning empty arrays. *)
Lemma create_sequences_empty_table_raises :
  exists cleaned,
    prepare_data empty_table = inr cleaned /\
    well_formed cleaned /\ len cleaned = 0 /\
    (Z.of_nat (len cleaned) - sequence_length engineer88
     - forecast_horizon engineer88 + 1 <= 0)%Z /\
    create_sequences engineer88 cleaned true = inl ValueError.
Proof.
  eexists. split; [reflexivity |].
  split; [constructor |]. split; [reflexivity |].
  split; [vm_compute; discriminate | reflexivity].
Qed.



End SequenceClaims.

(** ** The epoch loop *)

Module TrainFacts.

Import Train.

Lemma float_lt_irrefl (a : pyfloat) : float_lt a a = false.
Proof.
  destruct a; simpl; try reflexivity.
  destruct (Rlt_dec x x) as [H | H]; [lra | reflexivity].
Qed.

Lemma float_lt_trans (a b c : pyfloat) :
  float_lt a b = true -> float_lt b c = true -> float_lt a c = true.
Proof.
  destruct a as [x | | |], b as [y | | |], c as [z | | |]; simpl;
    try discriminate; try reflexivity.
  destruct (Rlt_dec x y), (Rlt_dec y z), (Rlt_dec x z);
    try discriminate; try reflexivity; lra.
Qed.

Lemma not_above_refl (a : pyfloat) : not_above a a.
Proof. left. reflexivity. Qed.

Lemma not_above_trans (a b c : pyfloat) :
  not_above a b -> not_above b c -> not_above a c.
Proof.
  intros [-> | Hab] [-> | Hbc].
  - left. reflexivity.
  - right. exact Hbc.
  - right. exact Hab.
  - right. apply (float_lt_trans a b c); assumption.
Qed.

Section LoopFacts.

Variables Weights OptState : Type.
Variable train_epoch : Weights * OptState -> (Weights * OptState) * pyfloat.
Variable validate : Weights -> pyfloat.
Variable args : Args.
Variable metadata : Inference.Metadata.

Local Abbreviation body := (epoch_body train_epoch validate args metadata).
Local Abbreviation loop := (epoch_loop train_epoch validate args metadata).
Local Abbreviation trace := (epoch_trace train_epoch validate args metadata).
Local Abbreviation State := (LoopState Weights OptState).

(** The validation loss the body computes from a state. *)
Local Abbreviation val_of st := (validate (fst (fst (train_epoch (net st))))).

Lemma body_improving (e : Z) (st : State) :
  float_lt (val_of st) (best_val_loss st) = true ->
  body e st =
  ({| net := fst (train_epoch (net st));
      best_val_loss := val_of st;
      patience_counter := 0;
      written :=
        {| epoch := e;
           model_state_dict := fst (fst (train_epoch (net st)));
           optimizer_state_dict := snd (fst (train_epoch (net st)));
           train_loss := snd (train_epoch (net st));
           val_loss := val_of st;
           ck_metadata := metadata;
           model_config :=
             {| cfg_input_size := Inference.md_n_features metadata;
                cfg_hidden_size := hidden_size args;
                cfg_num_layers := num_layers args;
                cfg_dropout := dropout args |} |} :: written st |},
   false).
Proof. intros H. unfold epoch_body. rewrite H. reflexivity. Qed.

Lemma body_stale (e : Z) (st : State) :
  float_lt (val_of st) (best_val_loss st) = false ->
  body e st =
  ({| net := fst (train_epoch (net st));
      best_val_loss := best_val_loss st;
      patience_counter := patience_counter st + 1;
      written := written st |},
   (patience args <=? patience_counter st + 1)%Z).
Proof. intros H. unfold epoch_body. rewrite H. reflexivity. Qed.

Lemma body_not_above (e : Z) (st : State) :
  not_above (best_val_loss (fst (body e st))) (best_val_loss st).
Proof.
  destruct (float_lt (val_of st) (best_val_loss st)) eqn:E.
  - rewrite body_improving by exact E. right. exact E.
  - rewrite body_stale by exact E. left. reflexivity.
Qed.

Lemma body_net (e : Z) (st : State) :
  net (fst (body e st)) = fst (train_epoch (net st)).
Proof.
  destruct (float_lt (val_of st) (best_val_loss st)) eqn:E.
  - rewrite body_improving by exact E. reflexivity.
  - rewrite body_stale by exact E. reflexivity.
Qed.

(** The best loss never rises along the states of a run. *)
Lemma trace_not_above (es : list Z) (st : State) :
  Sorted (fun a b => not_above (best_val_loss b) (best_val_loss a))
         (st :: trace es st).
Proof.
  revert st. induction es as [| e rest IH]; intros st; simpl.
  - repeat constructor.
  - constructor.
    + destruct (snd (body e st)).
      * repeat constructor.
      * apply IH.
    + constructor. apply body_not_above.
Qed.

(** The final state of the loop is the last state of its trace. *)
Lemma loop_last (es : list Z) (st : State) :
  fst (loop es st) = last (trace es st) st.
Proof.
  revert st. induction es as [| e rest IH]; intros st; simpl.
  - reflexivity.
  - destruct (snd (body e st)) eqn:E; simpl.
    + reflexivity.
    + rewrite IH.
      destruct (trace rest (fst (body e st))) eqn:Et; [reflexivity |].
      apply last_default. discriminate.
Qed.

(** *** Early stopping against the counter of the specification *)

Variable net0 : Weights * OptState.

Local Abbreviation v := (val_loss_at train_epoch validate net0).

Local Abbreviation at_epoch := (Train.at_epoch train_epoch validate net0).

Lemma at_epoch_initial : at_epoch 0 (initial net0).
Proof. repeat split. Qed.

Lemma spec_stale_step (a : nat) :
  spec_stale v a
  = if spec_improves v a then 0 else S (spec_stale_before v a).
Proof. destruct a; reflexivity. Qed.

Lemma at_epoch_val (a : nat) (st : State) :
  at_epoch a st ->
  val_of st = v a /\
  float_lt (val_of st) (best_val_loss st) = spec_improves v a.
Proof.
  intros (Hn & Hb & _).
  assert (E : val_of st = v a).
  { unfold val_loss_at. simpl. rewrite Hn. reflexivity. }
  split; [exact E |]. rewrite E, Hb. reflexivity.
Qed.

Lemma at_epoch_body (a : nat) (st : State) :
  at_epoch a st ->
  at_epoch (S a) (fst (body (Z.of_nat a) st)) /\
  snd (body (Z.of_nat a) st) = spec_exhausted v (patience args) a.
Proof.
  intros Hat. destruct (at_epoch_val a st Hat) as [Ev Ei].
  destruct Hat as (Hn & Hb & Hc).
  unfold spec_exhausted. rewrite spec_stale_step.
  destruct (spec_improves v a) eqn:Eimp.
  - rewrite body_improving by exact Ei. simpl. split; [| reflexivity].
    repeat split.
    + rewrite Hn. reflexivity.
    + simpl. fold (spec_improves v a). rewrite Eimp. exact Ev.
    + simpl. rewrite spec_stale_step, Eimp. reflexivity.
  - rewrite body_stale by exact Ei. simpl. split.
    + repeat split.
      * rewrite Hn. reflexivity.
      * simpl. fold (spec_improves v a). rewrite Eimp. exact Hb.
      * simpl. rewrite spec_stale_step, Eimp, Hc. lia.
    + rewrite Hc. f_equal. lia.
Qed.

Lemma loop_from (c a : nat) (st : State) :
  at_epoch a st ->
  snd (loop (map Z.of_nat (seq a c)) st)
  = option_map Z.of_nat (find (spec_exhausted v (patience args)) (seq a c))
  /\
  length (trace (map Z.of_nat (seq a c)) st)
  = match find (spec_exhausted v (patience args)) (seq a c) with
    | Some e => S (e - a)
    | None => c
    end.
Proof.
  revert a st. induction c as [| c IH]; intros a st Hat; simpl.
  - auto.
  - destruct (at_epoch_body a st Hat) as [Hnext Hbrk].
    rewrite Hbrk.
    destruct (spec_exhausted v (patience args) a) eqn:E; simpl.
    + split; [reflexivity | f_equal; lia].
    + destruct (IH (S a) _ Hnext) as [IH1 IH2].
      split; [exact IH1 |]. rewrite IH2.
      destruct (find (spec_exhausted v (patience args)) (seq (S a) c))
        as [e |] eqn:Ef; [| reflexivity].
      apply find_some in Ef. destruct Ef as [Hin _].
      apply in_seq in Hin. lia.
Qed.

Lemma exhausted_positive_patience (a : nat) :
  (1 <= patience args)%Z ->
  spec_exhausted v (patience args) a
  = (patience args <=? Z.of_nat (spec_stale v a))%Z.
Proof.
  intros Hp. unfold spec_exhausted. rewrite spec_stale_step.
  destruct (spec_improves v a); simpl; [| reflexivity].
  symmetry. apply Z.leb_gt. lia.
Qed.

End LoopFacts.

End TrainFacts.

(** ** The claims on the training loop *)

Module TrainClaims.

Import Train TrainFacts Samples.

(** C4.  In every epoch the best validation loss does not rise; the
    checkpoint file is written exactly when the epoch's validation loss is
    strictly less than the current best, and then the best loss becomes
    that loss, the patience counter is reset to 0 and the checkpoint
    written holds the weights, the optimizer state, the configuration,
    the metadata, the epoch and both losses; otherwise nothing is written,
    the best loss stays and the counter grows by one.  Along the states of
    every training run the best loss is non-increasing, and the loop ends
    in the last of these states. *)
Theorem best_loss_and_checkpoint (Weights OptState : Type)
  (train_epoch : Weights * OptState -> (Weights * OptState) * pyfloat)
  (validate : Weights -> pyfloat) (args : Args)
  (metadata : Inference.Metadata) :
  (forall (e : Z) (st : LoopState Weights OptState),
     let trained := train_epoch (net st) in
     let vl := validate (fst (fst trained)) in
     let st' := fst (epoch_body train_epoch validate args metadata e st) in
     not_above (best_val_loss st') (best_val_loss st) /\
     if float_lt vl (best_val_loss st)
     then best_val_loss st' = vl /\
          patience_counter st' = 0%Z /\
          written st' =
          {| epoch := e;
             model_state_dict := fst (fst trained);
             optimizer_state_dict := snd (fst trained);
             train_loss := snd trained;
             val_loss := vl;
             ck_metadata := metadata;
             model_config :=
               {| cfg_input_size := Inference.md_n_features metadata;
                  cfg_hidden_size := hidden_size args;
                  cfg_num_layers := num_layers args;
                  cfg_dropout := dropout args |} |} :: written st
     else best_val_loss st' = best_val_loss st /\
          patience_counter st' = (patience_counter st + 1)%Z /\
          written st' = written st) /\
  (forall net0 : Weights * OptState,
     let states := epoch_trace train_epoch validate args metadata
                     (range (epochs args)) (initial net0) in
     Sorted (fun a b => not_above (best_val_loss b) (best_val_loss a))
            (initial net0 :: states) /\
     fst (training_loop train_epoch validate args metadata net0)
     = last states (initial net0)).
Proof.
  split.
  - intros e st. cbv zeta. split; [apply body_not_above |].
    destruct (float_lt (validate (fst (fst (train_epoch (net st)))))
                (best_val_loss st)) eqn:E.
    + rewrite body_improving by exact E. simpl. auto.
    + rewrite body_stale by exact E. simpl. auto.
  - intros net0. cbv zeta. split.
    + apply trace_not_above.
    + apply loop_last.
Qed.

(** As long as no call raises, the loop leaves through [break] exactly
    at the first epoch below the cap that does not improve and brings the
    count of consecutive non-improving epochs to the patience or beyond;
    when there is no such epoch it runs all [epochs] epochs. *)
Lemma break_at_first_exhaustion (Weights OptState : Type)
  (train_epoch : Weights * OptState -> (Weights * OptState) * pyfloat)
  (validate : Weights -> pyfloat) (args : Args)
  (metadata : Inference.Metadata) (net0 : Weights * OptState) :
  let v := val_loss_at train_epoch validate net0 in
  snd (training_loop train_epoch validate args metadata net0)
  = spec_stop v (patience args) (epochs args) /\
  length (epoch_trace train_epoch validate args metadata
            (range (epochs args)) (initial net0))
  = match spec_stop v (patience args) (epochs args) with
    | Some e => S (Z.to_nat e)
    | None => Z.to_nat (epochs args)
    end.
Proof.
  cbv zeta. unfold training_loop, spec_stop, range.
  destruct (loop_from Weights OptState train_epoch validate args metadata
              net0 (Z.to_nat (epochs args)) 0 (initial net0)
              (at_epoch_initial _ _ train_epoch validate net0))
    as [H1 H2].
  split; [exact H1 |]. rewrite H2.
  destruct (find _ (seq 0 (Z.to_nat (epochs args)))) as [e |]; simpl.
  - f_equal. lia.
  - reflexivity.
Qed.

(** A run on concrete losses: 1 improves on infinity, NaN and infinity do
    not, and with patience 2 the loop leaves at epoch 2 with one
    checkpoint written, that of epoch 0. *)
Example run_stops_at_epoch_2 :
  let r := training_loop counting_train listed_validate args_patience2
             metadata88 (0, tt) in
  snd r = Some 2%Z /\
  best_val_loss (fst r) = Finite 1%R /\
  map epoch (written (fst r)) = [0%Z] /\
  patience_counter (fst r) = 2%Z.
Proof. vm_compute. repeat split. Qed.

End TrainClaims.

(** ** [prepare_data] *)

Module PrepareFacts.

Import FeatureEngineering.

(** *** Sorting *)

Lemma insert_row_perm (r : Row) (l : list Row) :
  Permutation (r :: l) (insert_row r l).
Proof.
  induction l as [| h t IH]; simpl.
  - apply Permutation_refl.
  - destruct (row_time r <=? row_time h)%Z.
    + apply Permutation_refl.
    + apply perm_trans with (h :: r :: t).
      * apply perm_swap.
      * apply perm_skip. exact IH.
Qed.

Lemma sort_rows_perm (l : list Row) : Permutation l (sort_rows l).
Proof.
  induction l as [| r t IH]; simpl.
  - apply perm_nil.
  - apply perm_trans with (r :: sort_rows t).
    + apply perm_skip. exact IH.
    + apply insert_row_perm.
Qed.

Lemma insert_row_sorted (r : Row) (l : list Row) :
  Sorted time_le l -> Sorted time_le (insert_row r l).
Proof.
  induction 1 as [| h t Ht IH Hhd]; simpl.
  - repeat constructor.
  - destruct (Z.leb_spec (row_time r) (row_time h)) as [Hle | Hgt].
    + constructor; [constructor; assumption |].
      constructor. exact Hle.
    + constructor; [exact IH |].
      destruct t as [| h' t']; simpl.
      * constructor. unfold time_le. lia.
      * inversion Hhd; subst.
        destruct (row_time r <=? row_time h')%Z;
          constructor; unfold time_le in *; lia.
Qed.

Lemma sort_rows_sorted (l : list Row) : Sorted time_le (sort_rows l).
Proof.
  induction l as [| r t IH]; simpl.
  - constructor.
  - apply insert_row_sorted. exact IH.
Qed.

Lemma sort_rows_strongly_sorted (l : list Row) :
  StronglySorted time_le (sort_rows l).
Proof.
  apply Sorted_StronglySorted.
  - intros a b c Hab Hbc. unfold time_le in *. lia.
  - apply sort_rows_sorted.
Qed.

(** *** Dropping duplicates *)

Lemma seen_spec (t : Z) (seen : list Z) :
  existsb (Z.eqb t) seen = true <-> In t seen.
Proof.
  rewrite existsb_exists. split.
  - intros (x & Hin & Heq). apply Z.eqb_eq in Heq. subst. exact Hin.
  - intros Hin. exists t. split; [exact Hin | apply Z.eqb_refl].
Qed.

Lemma keep_first_times (l : list Row) :
  forall (seen : list Z) (t : Z),
    In t (times (keep_first seen l)) <->
    In t (times l) /\ ~ In t seen.
Proof.
  induction l as [| r l IH]; intros seen t; simpl.
  - tauto.
  - destruct (existsb (Z.eqb (row_time r)) seen) eqn:E.
    + apply seen_spec in E. rewrite IH. split.
      * intros [H1 H2]. auto.
      * intros [[Heq | H1] H2]; [| auto].
        rewrite Heq in E. contradiction.
    + assert (Hn : ~ In (row_time r) seen).
      { intros H. apply seen_spec in H. congruence. }
      simpl. rewrite IH. simpl. split.
      * intros [Heq | [H1 H2]].
        -- split; [left; exact Heq |]. rewrite <- Heq. exact Hn.
        -- split; [right; exact H1 | tauto].
      * intros [[Heq | H1] H2]; [left; exact Heq |].
        destruct (Z.eq_dec (row_time r) t) as [Heq | NE];
          [left; exact Heq |].
        right. split; [exact H1 |]. intros [H | H]; auto.
Qed.

Lemma keep_first_increasing (l : list Row) :
  StronglySorted time_le l ->
  forall seen, StronglySorted Z.lt (times (keep_first seen l)).
Proof.
  induction 1 as [| r l Hl IH Hall]; intros seen; simpl.
  - constructor.
  - destruct (existsb (Z.eqb (row_time r)) seen) eqn:E.
    + apply IH.
    + simpl. constructor; [apply IH |].
      rewrite Forall_forall. intros t Ht.
      apply keep_first_times in Ht. destruct Ht as [Hin Hnot].
      unfold times in Hin. apply in_map_iff in Hin.
      destruct Hin as (r' & <- & Hr').
      rewrite Forall_forall in Hall. specialize (Hall r' Hr').
      unfold time_le in Hall.
      assert (row_time r <> row_time r').
      { intros Heq. apply Hnot. left. exact Heq. }
      lia.
Qed.

(** A row that is kept is the first of its timestamp. *)
Lemma keep_first_first (l : list Row) :
  forall (seen : list Z) (r : Row),
    In r (keep_first seen l) ->
    ~ In (row_time r) seen /\
    exists pre post,
      l = pre ++ r :: post /\
      forall r', In r' pre -> row_time r' <> row_time r.
Proof.
  induction l as [| a l IH]; intros seen r; simpl.
  - contradiction.
  - destruct (existsb (Z.eqb (row_time a)) seen) eqn:E.
    + intros Hin. destruct (IH seen r Hin) as (Hn & pre & post & -> & Hpre).
      split; [exact Hn |].
      exists (a :: pre), post. split; [reflexivity |].
      intros r' [<- | Hr']; [| auto].
      apply seen_spec in E. intros Heq. apply Hn. rewrite <- Heq. exact E.
    + assert (Hna : ~ In (row_time a) seen).
      { intros H. apply seen_spec in H. congruence. }
      intros [<- | Hin].
      * split; [exact Hna |]. exists [], l. split; [reflexivity |].
        intros r' [].
      * destruct (IH _ r Hin) as (Hn & pre & post & -> & Hpre).
        split; [intros H; apply Hn; right; exact H |].
        exists (a :: pre), post. split; [reflexivity |].
        intros r' [<- | Hr']; [| auto].
        intros Heq. apply Hn. left. exact Heq.
Qed.

(** *** Filling *)

Lemma fill_row_length (prev cur : list float) :
  length (fill_row prev cur) = length cur.
Proof.
  revert prev. induction cur as [| c cs IH]; intros prev; simpl.
  - reflexivity.
  - f_equal. apply IH.
Qed.

Lemma nth_tl {A : Type} (l : list A) (j : nat) (d : A) :
  nth j (tl l) d = nth (S j) l d.
Proof. destruct l; [destruct j |]; reflexivity. Qed.

Lemma nth_0_hd {A : Type} (l : list A) (d : A) : nth 0 l d = hd d l.
Proof. destruct l; reflexivity. Qed.

Lemma fill_row_nth (cur : list float) :
  forall (prev : list float) (j : nat),
    j < length cur ->
    nth j (fill_row prev cur) nan
    = fill_cell (nth j prev nan) (nth j cur nan).
Proof.
  induction cur as [| c cs IH]; intros prev j Hj; simpl in Hj; [lia |].
  destruct j as [| j]; simpl.
  - rewrite nth_0_hd. reflexivity.
  - rewrite IH by lia. rewrite nth_tl. reflexivity.
Qed.

Lemma ffill_from_times (l : list Row) :
  forall prev, times (ffill_from prev l) = times l.
Proof.
  induction l as [| r l IH]; intros prev; simpl.
  - reflexivity.
  - f_equal. apply IH.
Qed.

Lemma bfill_times (l : list Row) : times (bfill l) = times l.
Proof.
  induction l as [| r l IH]; simpl.
  - reflexivity.
  - f_equal. exact IH.
Qed.

Lemma ffill_from_width (P : nat -> Prop) (l : list Row) :
  forall prev,
    Forall (fun r => P (length (row_cells r))) l ->
    Forall (fun r => P (length (row_cells r))) (ffill_from prev l).
Proof.
  induction l as [| r l IH]; intros prev H; simpl.
  - constructor.
  - inversion H; subst. constructor.
    + simpl. rewrite fill_row_length. assumption.
    + apply IH. assumption.
Qed.

Lemma bfill_width (P : nat -> Prop) (l : list Row) :
  Forall (fun r => P (length (row_cells r))) l ->
  Forall (fun r => P (length (row_cells r))) (bfill l).
Proof.
  induction l as [| r l IH]; intros H; simpl.
  - constructor.
  - inversion H; subst. constructor.
    + simpl. rewrite fill_row_length. assumption.
    + apply IH. assumption.
Qed.

Lemma ffill_from_column (j : nat) (l : list Row) :
  forall prev,
    Forall (fun r => j < length (row_cells r)) l ->
    column j (cells (ffill_from prev l))
    = ffill_column (nth j prev nan) (column j (cells l)).
Proof.
  induction l as [| r l IH]; intros prev H; simpl.
  - reflexivity.
  - inversion H; subst.
    rewrite fill_row_nth by assumption. f_equal.
    rewrite <- (fill_row_nth (row_cells r) prev j) by assumption.
    apply IH. assumption.
Qed.

Lemma bfill_column_rows (j : nat) (l : list Row) :
  Forall (fun r => j < length (row_cells r)) l ->
  column j (cells (bfill l)) = bfill_column (column j (cells l)).
Proof.
  induction l as [| r l IH]; intros H; simpl.
  - reflexivity.
  - inversion H as [| r0 l0 Hr Hl]; subst.
    specialize (IH Hl).
    rewrite fill_row_nth by assumption.
    unfold column, cells in IH. unfold column, cells.
    rewrite <- IH. f_equal.
    destruct (bfill l) as [| n t]; simpl.
    + destruct j; reflexivity.
    + reflexivity.
Qed.

(** Filling forward and then backward, column by column. *)
Lemma fill_columns (j : nat) (l : list Row) :
  Forall (fun r => j < length (row_cells r)) l ->
  column j (cells (bfill (ffill l)))
  = bfill_column (ffill_column nan (column j (cells l))).
Proof.
  intros H. rewrite bfill_column_rows.
  - unfold ffill. rewrite ffill_from_column by exact H.
    destruct j; reflexivity.
  - unfold ffill. apply (ffill_from_width (fun n => j < n)). exact H.
Qed.

(** *** Column assignment *)

Lemma set_nth_length {A : Type} (j : nat) (a : A) (l : list A) :
  length (set_nth j a l) = length l.
Proof.
  revert j. induction l as [| h t IH]; intros j; destruct j; simpl;
    try reflexivity.
  f_equal. apply IH.
Qed.

Lemma set_column_times (name : string) (dt : dtype) (f : Row -> float)
  (df : DataFrame) :
  times (rows (set_column name dt f df)) = times (rows df).
Proof.
  unfold set_column, times.
  destruct (position name (columns df)); simpl; rewrite map_map;
    reflexivity.
Qed.

Lemma set_column_well_formed (name : string) (dt : dtype)
  (f : Row -> float) (df : DataFrame) :
  well_formed df -> well_formed (set_column name dt f df).
Proof.
  unfold well_formed, set_column. intros H.
  destruct (position name (columns df)); simpl; rewrite Forall_map;
    rewrite Forall_forall in *; intros r Hr; simpl.
  - rewrite !set_nth_length. auto.
  - rewrite !length_app. simpl. rewrite (H r Hr). reflexivity.
Qed.

Lemma set_column_has_timestamp (name : string) (dt : dtype)
  (f : Row -> float) (df : DataFrame) :
  has_timestamp (set_column name dt f df) = has_timestamp df.
Proof.
  unfold set_column. destruct (position name (columns df)); reflexivity.
Qed.

Lemma set_column_len (name : string) (dt : dtype) (f : Row -> float)
  (df : DataFrame) :
  len (set_column name dt f df) = len df.
Proof.
  unfold set_column, len.
  destruct (position name (columns df)); simpl; apply length_map.
Qed.

Lemma add_time_features_times (df : DataFrame) :
  times (rows (add_time_features df)) = times (rows df).
Proof.
  unfold add_time_features. rewrite !set_column_times. reflexivity.
Qed.

Lemma add_time_features_well_formed (df : DataFrame) :
  well_formed df -> well_formed (add_time_features df).
Proof.
  intros H. unfold add_time_features.
  repeat apply set_column_well_formed. exact H.
Qed.

Lemma add_time_features_has_timestamp (df : DataFrame) :
  has_timestamp (add_time_features df) = has_timestamp df.
Proof.
  unfold add_time_features. rewrite !set_column_has_timestamp.
  reflexivity.
Qed.

Lemma add_time_features_len (df : DataFrame) :
  len (add_time_features df) = len df.
Proof.
  unfold add_time_features. rewrite !set_column_len. reflexivity.
Qed.

(** *** The whole of [prepare_data] *)

Lemma prepare_data_timestamp (df : DataFrame) :
  has_timestamp df = true ->
  prepare_data df
  = inr (with_rows (before_fill df)
           (bfill (ffill (rows (before_fill df))))).
Proof.
  intros Hts.
  unfold prepare_data, drop_duplicates_timestamp, sort_values_timestamp.
  rewrite Hts. cbn [with_rows has_timestamp]. rewrite Hts.
  cbn [bind ret with_rows has_timestamp]. rewrite Hts. reflexivity.
Qed.

Lemma prepare_data_no_timestamp (df : DataFrame) :
  has_timestamp df = false -> prepare_data df = inl KeyError.
Proof.
  intros Hts. unfold prepare_data, drop_duplicates_timestamp.
  rewrite Hts. cbv iota. rewrite Hts. reflexivity.
Qed.

Lemma deduplicated_well_formed (df : DataFrame) :
  well_formed df -> well_formed (with_rows df (deduplicated df)).
Proof.
  unfold well_formed, deduplicated. simpl. intros H.
  rewrite Forall_forall in *. intros r Hr.
  destruct (keep_first_first _ _ _ Hr) as (_ & pre & post & E & _).
  apply H. apply (Permutation_in r (Permutation_sym (sort_rows_perm _))).
  rewrite E. apply in_elt.
Qed.

(** *** Any outcome of the sort *)

Lemma prepare_data_from_timestamp (sorted : list Row) (df : DataFrame) :
  has_timestamp df = true ->
  prepare_data_from sorted df
  = inr (with_rows (before_fill_from sorted df)
           (bfill (ffill (rows (before_fill_from sorted df))))).
Proof.
  intros Hts.
  unfold prepare_data_from, drop_duplicates_timestamp.
  rewrite Hts. cbn [with_rows has_timestamp]. rewrite Hts.
  cbn [bind ret with_rows has_timestamp]. rewrite Hts. reflexivity.
Qed.

Lemma prepare_data_from_sort_rows (df : DataFrame) :
  prepare_data df = prepare_data_from (sort_rows (rows df)) df.
Proof. reflexivity. Qed.

Lemma sort_rows_outcome (l : list Row) : sort_outcome l (sort_rows l).
Proof.
  split; [apply sort_rows_perm | apply sort_rows_strongly_sorted].
Qed.

Lemma kept_well_formed (sorted : list Row) (df : DataFrame) :
  well_formed df -> Permutation (rows df) sorted ->
  well_formed (with_rows df (keep_first [] sorted)).
Proof.
  unfold well_formed. simpl. intros H Hp.
  rewrite Forall_forall in *. intros r Hr.
  destruct (keep_first_first _ _ _ Hr) as (_ & pre & post & E & _).
  apply H. apply (Permutation_in r (Permutation_sym Hp)).
  rewrite E. apply in_elt.
Qed.

(** A strictly ascending list is determined by its elements: the
    timestamps kept do not depend on the order the sort leaves among
    equal timestamps. *)
Lemma increasing_unique (l1 : list Z) :
  forall l2,
    StronglySorted Z.lt l1 -> StronglySorted Z.lt l2 ->
    (forall t, In t l1 <-> In t l2) -> l1 = l2.
Proof.
  induction l1 as [| a t1 IH]; intros l2 H1 H2 Hin.
  - destruct l2 as [| b t2]; [reflexivity |].
    exfalso. apply (proj2 (Hin b)). left. reflexivity.
  - destruct l2 as [| b t2].
    + exfalso. apply (proj1 (Hin a)). left. reflexivity.
    + inversion H1 as [| a' t1' Ht1 Ha]; subst.
      inversion H2 as [| b' t2' Ht2 Hb]; subst.
      rewrite Forall_forall in Ha, Hb.
      assert (Eab : a = b).
      { destruct (proj1 (Hin a) (or_introl eq_refl)) as [E | Ha2];
          [symmetry; exact E |].
        destruct (proj2 (Hin b) (or_introl eq_refl)) as [E | Hb1];
          [exact E |].
        specialize (Ha b Hb1). specialize (Hb a Ha2). lia. }
      subst b. f_equal. apply IH; [exact Ht1 | exact Ht2 |].
      intros t. split; intros Ht.
      * destruct (proj1 (Hin t) (or_intror Ht)) as [E | Ht2'];
          [| exact Ht2'].
        specialize (Ha t Ht). lia.
      * destruct (proj2 (Hin t) (or_intror Ht)) as [E | Ht1'];
          [| exact Ht1'].
        specialize (Hb t Ht). lia.
Qed.

Lemma kept_times (l sorted : list Row) :
  sort_outcome l sorted ->
  times (keep_first [] sorted) = times (keep_first [] (sort_rows l)).
Proof.
  intros [Hp Hs]. apply increasing_unique.
  - apply keep_first_increasing. exact Hs.
  - apply keep_first_increasing. apply sort_rows_strongly_sorted.
  - intros t. rewrite !keep_first_times. unfold times.
    assert (Hp' : Permutation sorted (sort_rows l))
      by (apply perm_trans with l;
          [apply Permutation_sym; exact Hp | apply sort_rows_perm]).
    split; intros [Hin Hn]; (split; [| exact Hn]);
      apply in_map_iff in Hin; destruct Hin as (r & <- & Hr);
      apply in_map.
    + apply (Permutation_in r Hp'). exact Hr.
    + apply (Permutation_in r (Permutation_sym Hp')). exact Hr.
Qed.

End PrepareFacts.

(** ** The claim on cleaning *)

Module PrepareClaims.

Import StandardScaler SequenceFacts PrepareFacts.
Import FeatureEngineering Samples.

(** C8 (as amended).  Windowing requested on a table without a timestamp
    column does not fail for that reason: [create_sequences] guards its
    timestamp look-up and returns the windows and the targets with an
    empty timestamps array.  For tables that do have a timestamp column,
    [prepare_data] returns, whatever order the sort leaves among rows of
    equal timestamp: its rows are in strictly ascending order of
    timestamp, with exactly the timestamps of the input (the same list
    for every outcome of the sort); each kept row is a row of the input
    and the first of its timestamp in the sorted table; and every numeric
    column of the result is that column of the kept rows filled forward
    and then backward. *)
Theorem prepare_data_cleans :
  (forall self df fit_scaler,
     has_timestamp df = false ->
     well_formed df -> len df <> 0 -> feature_cols df <> [] ->
     (0 <= sequence_length self)%Z -> (0 <= forecast_horizon self)%Z ->
     (fit_scaler = true \/
      exists s, scaler self = Some s /\
                n_features_in_ s = length (feature_cols df)) ->
     exists self' X y,
       create_sequences self df fit_scaler = inr (self', (X, y, []))) /\
  (forall df sorted,
     has_timestamp df = true -> well_formed df ->
     sort_outcome (rows df) sorted ->
     exists out,
       prepare_data_from sorted df = inr out /\
       StronglySorted Z.lt (times (rows out)) /\
       (forall t, In t (times (rows out)) <-> In t (times (rows df))) /\
       times (rows out) = times (keep_first [] sorted) /\
       times (rows out) = times (deduplicated df) /\
       (forall r, In r (keep_first [] sorted) ->
          In r (rows df) /\
          exists pre post,
            sorted = pre ++ r :: post /\
            forall r', In r' pre -> row_time r' <> row_time r) /\
       columns out = columns (before_fill_from sorted df) /\
       forall j, j < length (columns out) ->
         column j (cells (rows out))
         = bfill_column
             (ffill_column nan
                (column j (cells (rows (before_fill_from sorted df)))))) /\
  (forall df,
     sort_outcome (rows df) (sort_rows (rows df)) /\
     prepare_data df = prepare_data_from (sort_rows (rows df)) df).
Proof.
  split; [| split].
  - intros self df fit_scaler Hts Hwf Hn Hk HL HH Hsc.
    destruct (SequenceClaims.scaler_available self df fit_scaler Hwf Hn Hsc)
      as (s & Hs & Hw).
    pose proof (create_sequences_closed self df fit_scaler s
                  Hwf Hn Hk HL HH Hs Hw) as Hc.
    cbv zeta in Hc. rewrite Hts in Hc.
    eexists. eexists. eexists. exact Hc.
  - intros df sorted Hts Hwf Hso.
    pose proof Hso as [Hperm Hsorted].
    eexists. split; [apply prepare_data_from_timestamp; exact Hts |].
    cbn [rows columns with_rows].
    assert (Htimes : times (bfill (ffill (rows (before_fill_from sorted df))))
                     = times (keep_first [] sorted)).
    { rewrite bfill_times. unfold ffill. rewrite ffill_from_times.
      unfold before_fill_from. rewrite add_time_features_times.
      reflexivity. }
    split.
    { rewrite Htimes. apply keep_first_increasing. exact Hsorted. }
    split.
    { intros t. rewrite Htimes.
      rewrite keep_first_times. unfold times. split.
      - intros [Hin _].
        apply in_map_iff in Hin. destruct Hin as (r & <- & Hr).
        apply in_map.
        apply (Permutation_in r (Permutation_sym Hperm)). exact Hr.
      - intros Hin. split; [| intros []].
        apply in_map_iff in Hin. destruct Hin as (r & <- & Hr).
        apply in_map. apply (Permutation_in r Hperm). exact Hr. }
    split; [exact Htimes |].
    split.
    { rewrite Htimes. unfold deduplicated. apply kept_times. exact Hso. }
    split.
    { intros r Hr.
      destruct (keep_first_first _ _ _ Hr) as (_ & pre & post & E & Hpre).
      split.
      - apply (Permutation_in r (Permutation_sym Hperm)).
        rewrite E. apply in_elt.
      - exists pre, post. auto. }
    split; [reflexivity |].
    intros j Hj. apply fill_columns.
    assert (Hwf' : well_formed (before_fill_from sorted df)).
    { unfold before_fill_from. apply add_time_features_well_formed.
      apply kept_well_formed; assumption. }
    unfold well_formed in Hwf'. rewrite Forall_forall in *.
    intros r Hr. rewrite (Hwf' r Hr). exact Hj.
  - intros df. split; [apply sort_rows_outcome | reflexivity].
Qed.

Lemma untimed20_well_formed : well_formed untimed20.
Proof. unfold well_formed, untimed20, table20. simpl. repeat constructor. Qed.

Lemma ragged_table_well_formed : well_formed ragged_table.
Proof. unfold well_formed, ragged_table. simpl. repeat constructor. Qed.

Lemma prepare_data_cleans_witness :
  has_timestamp untimed20 = false /\
  (exists self' X y,
     create_sequences engineer88 untimed20 true = inr (self', (X, y, []))) /\
  has_timestamp ragged_table = true /\ well_formed ragged_table /\
  sort_outcome (rows ragged_table) (sort_rows (rows ragged_table)) /\
  exists out,
    prepare_data ragged_table = inr out /\
    times (rows out) = [1; 2; 3]%Z /\
    column 0 (cells (rows out)) = [Some 5%R; Some 5%R; Some 5%R].
Proof.
  destruct prepare_data_cleans as (Hno & Hyes & _).
  split; [reflexivity |]. split.
  - apply Hno.
    + reflexivity.
    + exact untimed20_well_formed.
    + vm_compute. lia.
    + vm_compute. discriminate.
    + vm_compute. discriminate.
    + vm_compute. discriminate.
    + left. reflexivity.
  - split; [reflexivity |]. split; [exact ragged_table_well_formed |].
    split; [apply sort_rows_outcome |].
    destruct (Hyes ragged_table (sort_rows (rows ragged_table)) eq_refl
                ragged_table_well_formed (sort_rows_outcome _))
      as (out & Hout & _ & _ & Htimes & _ & _ & Hcols & Hfill).
    exists out. split; [exact Hout |]. split; [exact Htimes |].
    rewrite Hfill; [reflexivity |].
    rewrite Hcols. apply Nat.ltb_lt. reflexivity.
Defined.

(** C8 as stated fails on a table without a timestamp column:
    [prepare_data] itself raises, and what it raises is the [KeyError] of
    [drop_duplicates], not [DataError]; windowing such a table raises
    nothing and returns no timestamps. *)
Lemma prepare_data_without_timestamp_raises_KeyError :
  has_timestamp untimed20 = false /\
  prepare_data untimed20 = inl KeyError /\
  prepare_data untimed20 <> inl DataError /\
  exists self' X y,
    create_sequences engineer88 untimed20 true = inr (self', (X, y, [])).
Proof.
  split; [reflexivity |]. split; [reflexivity |].
  split; [discriminate |].
  assert (Hn : len untimed20 <> 0) by (vm_compute; lia).
  assert (Hk : feature_cols untimed20 <> []) by (vm_compute; discriminate).
  assert (HL : (0 <= sequence_length engineer88)%Z)
    by (vm_compute; discriminate).
  assert (HH : (0 <= forecast_horizon engineer88)%Z)
    by (vm_compute; discriminate).
  destruct (SequenceClaims.scaler_available engineer88 untimed20 true
              untimed20_well_formed Hn (or_introl eq_refl))
    as (s & Hs & Hw).
  pose proof (create_sequences_closed engineer88 untimed20 true s
                untimed20_well_formed Hn Hk HL HH Hs Hw) as Hc.
  cbv zeta in Hc.
  eexists. eexists. eexists. exact Hc.
Qed.

End PrepareClaims.

(** ** The endpoint *)

Module ApiFacts.

Import StandardScaler InferenceFacts PrepareFacts Api.

Lemma slice_from_last (A : Type) (l : list A) (k : nat) :
  k <> 0 ->
  slice_from l (- Z.of_nat k) = skipn (length l - k) l.
Proof.
  intros Hk. unfold slice_from, clamp.
  destruct (Z.ltb_spec (- Z.of_nat k) 0); [| lia].
  f_equal. lia.
Qed.

Lemma positions_cons (n : string) (t : list string) (df : DataFrame)
  (js : list nat) :
  positions (n :: t) df = inr js ->
  exists j js', column_position n df = inr j /\
                positions t df = inr js' /\ js = j :: js'.
Proof.
  simpl. intros H.
  apply bind_inr in H. destruct H as (j & Hj & H).
  apply bind_inr in H. destruct H as (js' & Hjs & H).
  injection H as <-. exists j, js'. auto.
Qed.

Lemma recent_data_closed (df : DataFrame) (js : list nat) :
  positions features df = inr js ->
  recent_data df
  = inr (map (take_cells js) (skipn (len df - 4) (rows df))).
Proof.
  intros Hjs. unfold recent_data. rewrite Hjs. cbn [bind ret].
  pose proof (slice_from_last _ (rows df) 4 (Nat.neq_succ_0 3)) as E.
  change (- Z.of_nat 4)%Z with (-4)%Z in E. rewrite E. reflexivity.
Qed.

Lemma predict_inr_nonempty (p : Inference.WeatherPredictor)
  (w : ndarray2) (res : Inference.Prediction) :
  Inference.predict p w = inr res -> w <> [].
Proof.
  unfold Inference.predict. intros H.
  apply bind_inr in H. destruct H as (scaled & Ht & _).
  apply transform_inr in Ht. destruct Ht as (s & _ & H0 & _).
  intros ->. apply H0. reflexivity.
Qed.

Lemma get_forecast_in_area (lat lon : R) (hours : Z)
  (p : Inference.WeatherPredictor) (df : DataFrame) :
  in_supported_area lat lon = true ->
  get_forecast lat lon hours (Some p) df
  = match forecast_body lat lon p df with
    | inr response => response
    | inl e => PredictionFailed e
    end.
Proof. intros H. unfold get_forecast. rewrite H. reflexivity. Qed.

End ApiFacts.

(** ** The claim on the endpoint *)

Module ApiClaims.

Import StandardScaler InferenceFacts PrepareFacts Api ApiFacts Samples.
Import FeatureEngineering.

(** C9 (as amended).  For every in-bounding-box forecast request with the
    predictor loaded, on a table with the timestamp column and the six
    feature columns after the cyclical features are recomputed, the
    endpoint builds the inference window from the last 4 rows of the
    table (all rows when there are fewer), whatever sequence length the
    model was trained with, and answers from [predict] on that window: its
    failure is returned as a failed prediction, its result as the
    forecast. *)
Theorem forecast_window_last_four (lat lon : R) (hours : Z)
  (p : Inference.WeatherPredictor) (df : DataFrame) (js : list nat) :
  in_supported_area lat lon = true ->
  has_timestamp df = true ->
  positions features (add_time_features df) = inr js ->
  let df' := add_time_features df in
  let window := map (take_cells js) (skipn (len df - 4) (rows df')) in
  prepare_features df = inr df' /\
  recent_data df' = inr window /\
  length window = Nat.min 4 (len df) /\
  (forall e, Inference.predict p window = inl e ->
             get_forecast lat lon hours (Some p) df = PredictionFailed e) /\
  (forall res, Inference.predict p window = inr res ->
     exists ct ch cts fts,
       get_forecast lat lon hours (Some p) df
       = Forecast lat lon ct ch cts
           (Inference.temperature_fahrenheit res)
           (Inference.forecast_hours res) fts
           (Inference.confidence res)).
Proof.
  intros Harea Hts Hjs df' window.
  assert (Hprep : prepare_features df = inr df')
    by (unfold prepare_features; rewrite Hts; reflexivity).
  assert (Hrecent : recent_data df' = inr window).
  { unfold window. rewrite <- (add_time_features_len df).
    apply recent_data_closed. exact Hjs. }
  assert (Hlen : length window = Nat.min 4 (len df)).
  { unfold window. rewrite length_map, length_skipn.
    fold (len df'). unfold df'. rewrite add_time_features_len. lia. }
  split; [exact Hprep |]. split; [exact Hrecent |]. split; [exact Hlen |].
  split.
  - intros e He. rewrite get_forecast_in_area by exact Harea.
    unfold forecast_body. rewrite Hprep. cbn [bind].
    rewrite Hrecent. cbn [bind]. rewrite He. reflexivity.
  - intros res Hres. rewrite get_forecast_in_area by exact Harea.
    unfold forecast_body. rewrite Hprep. cbn [bind].
    rewrite Hrecent. cbn [bind]. rewrite Hres. cbn [bind].
    assert (Hrows : rows df' <> []).
    { pose proof (predict_inr_nonempty p window res Hres) as Hne.
      intros E. apply Hne. unfold window. rewrite E.
      rewrite skipn_nil. reflexivity. }
    set (d := {| row_time := 0%Z; row_cells := [] |}).
    rewrite (SequenceFacts.index_in_range (rows df') (-1) d).
    2:{ destruct (rows df'); [contradiction | simpl length; lia]. }
    cbn [bind].
    unfold features in Hjs.
    apply positions_cons in Hjs.
    destruct Hjs as (jt & js1 & Hjt & Hjs & _).
    apply positions_cons in Hjs.
    destruct Hjs as (jh & js2 & Hjh & _ & _).
    change (add_time_features df) with df' in Hjt, Hjh.
    rewrite Hjt. cbn [bind]. rewrite Hjh. cbn [bind ret].
    eexists. eexists. eexists. eexists. reflexivity.
Qed.

Lemma atlanta_in_area : in_supported_area atlanta_lat atlanta_lon = true.
Proof.
  unfold in_supported_area, atlanta_lat, atlanta_lon.
  repeat match goal with
         | |- context [Rlt_dec ?a ?b] =>
             destruct (Rlt_dec a b); [| exfalso; lra]
         end.
  reflexivity.
Qed.

Lemma served_positions :
  positions features (add_time_features served_table)
  = inr [0; 1; 4; 5; 6; 7].
Proof. reflexivity. Qed.

Lemma forecast_window_last_four_witness :
  in_supported_area atlanta_lat atlanta_lon = true /\
  has_timestamp served_table = true /\
  positions features (add_time_features served_table)
  = inr [0; 1; 4; 5; 6; 7] /\
  exists window,
    recent_data (add_time_features served_table) = inr window /\
    length window = 4.
Proof.
  split; [exact atlanta_in_area |]. split; [reflexivity |].
  split; [exact served_positions |].
  destruct (forecast_window_last_four atlanta_lat atlanta_lon 24
              predictor6 served_table _ atlanta_in_area eq_refl
              served_positions)
    as (_ & Hrecent & Hlen & _).
  eexists. split; [exact Hrecent | exact Hlen].
Defined.

(** C9 as stated fails: the predictor's model was trained on windows of
    [sequence_length = 8] rows, the table has twenty rows, and the window
    the endpoint builds has four rows. *)
Lemma forecast_window_is_not_sequence_length :
  in_supported_area atlanta_lat atlanta_lon = true /\
  Inference.md_sequence_length (Inference.metadata predictor6) = 8%Z /\
  len served_table = 20 /\
  exists df' window,
    prepare_features served_table = inr df' /\
    recent_data df' = inr window /\
    length window = 4 /\
    Z.of_nat (length window)
    <> Inference.md_sequence_length (Inference.metadata predictor6).
Proof.
  split; [exact atlanta_in_area |]. split; [reflexivity |].
  split; [reflexivity |].
  exists (add_time_features served_table).
  eexists. split; [reflexivity |].
  split; [apply recent_data_closed; exact served_positions |].
  assert (Hlen : length
            (map (take_cells [0; 1; 4; 5; 6; 7])
               (skipn (len (add_time_features served_table) - 4)
                  (rows (add_time_features served_table)))) = 4).
  { rewrite length_map, length_skipn.
    fold (len (add_time_features served_table)).
    rewrite add_time_features_len. reflexivity. }
  split; [exact Hlen |]. rewrite Hlen. discriminate.
Qed.

End ApiClaims.

(** ** More on the epoch loop *)

Module TrainMore.

Import Train TrainFacts TrainNotions.

Section Run.

Variables Weights OptState : Type.
Variable train_epoch : Weights * OptState -> (Weights * OptState) * pyfloat.
Variable validate : Weights -> pyfloat.
Variable args : Args.
Variable metadata : Inference.Metadata.
Variable net0 : Weights * OptState.

Local Abbreviation body := (epoch_body train_epoch validate args metadata).
Local Abbreviation loop := (epoch_loop train_epoch validate args metadata).
Local Abbreviation trace := (epoch_trace train_epoch validate args metadata).
Local Abbreviation State := (LoopState Weights OptState).
Local Abbreviation v := (val_loss_at train_epoch validate net0).
Local Abbreviation at_epoch := (Train.at_epoch train_epoch validate net0).
Local Abbreviation after k := (net_after train_epoch k net0).

(** What holds of the write log when epoch [a] starts. *)
Local Abbreviation log_ok a st :=
  (best_val_loss st = loss_on_disk (written st) /\
   StronglySorted supersedes (written st) /\
   Forall (fun ck =>
             exists k, k < a /\ epoch ck = Z.of_nat k /\
                       model_state_dict ck = fst (after (S k)) /\
                       optimizer_state_dict ck = snd (after (S k)) /\
                       val_loss ck = validate (model_state_dict ck) /\
                       ck_metadata ck = metadata /\
                       cfg_input_size (model_config ck)
                       = Inference.md_n_features metadata)
          (written st)).

Lemma log_ok_body (a : nat) (st : State) :
  at_epoch a st -> log_ok a st ->
  log_ok (S a) (fst (body (Z.of_nat a) st)).
Proof.
  intros Hat (Hbest & Hsorted & Hall).
  destruct (at_epoch_val _ _ train_epoch validate net0 a st Hat) as [Ev Ei].
  destruct Hat as (Hn & _ & _).
  destruct (float_lt (validate (fst (fst (train_epoch (net st)))))
              (best_val_loss st)) eqn:E.
  - rewrite body_improving by exact E. cbn [fst written best_val_loss].
    split; [reflexivity |]. split.
    + constructor; [exact Hsorted |].
      rewrite Forall_forall in *. intros ck Hck.
      destruct (Hall ck Hck) as (k & Hk & Hek & _).
      split.
      * cbn [val_loss].
        assert (Hle : not_above (best_val_loss st) (val_loss ck)).
        { rewrite Hbest. clear - Hsorted Hck.
          destruct (written st) as [| hd tl]; [contradiction |].
          destruct Hck as [<- | Hin]; [left; reflexivity |].
          inversion Hsorted as [| ? ? _ Hf]; subst.
          rewrite Forall_forall in Hf. right. apply (Hf ck Hin). }
        destruct Hle as [Heq | Hlt].
        -- rewrite <- Heq. exact E.
        -- apply (float_lt_trans _ (best_val_loss st)); assumption.
      * cbn [epoch]. lia.
    + constructor.
      * exists a. cbn. rewrite Hn. repeat split; auto.
      * rewrite Forall_forall in *. intros ck Hck.
        destruct (Hall ck Hck) as (k & Hk & Hrest).
        exists k. split; [lia | exact Hrest].
  - rewrite body_stale by exact E. cbn [fst written best_val_loss].
    split; [exact Hbest |]. split; [exact Hsorted |].
    rewrite Forall_forall in *. intros ck Hck.
    destruct (Hall ck Hck) as (k & Hk & Hrest).
    exists k. split; [lia | exact Hrest].
Qed.

Lemma log_ok_loop (c a : nat) (st : State) :
  at_epoch a st -> log_ok a st ->
  log_ok (a + length (trace (map Z.of_nat (seq a c)) st))
         (fst (loop (map Z.of_nat (seq a c)) st)) /\
  net (fst (loop (map Z.of_nat (seq a c)) st))
  = after (a + length (trace (map Z.of_nat (seq a c)) st)).
Proof.
  revert a st. induction c as [| c IH]; intros a st Hat Hlog; simpl.
  - rewrite !Nat.add_0_r. split; [exact Hlog | apply Hat].
  - pose proof (log_ok_body a st Hat Hlog) as Hnext.
    destruct (at_epoch_body _ _ train_epoch validate args metadata net0
                a st Hat) as [Hat' _].
    destruct (snd (body (Z.of_nat a) st)); simpl.
    + replace (a + 1) with (S a) by lia.
      split; [exact Hnext | apply Hat'].
    + destruct (IH (S a) _ Hat' Hnext) as [IH1 IH2].
      replace (a + S (length (trace (map Z.of_nat (seq (S a) c))
                                (fst (body (Z.of_nat a) st)))))
        with (S a + length (trace (map Z.of_nat (seq (S a) c))
                              (fst (body (Z.of_nat a) st)))) by lia.
      split; [exact IH1 | exact IH2].
Qed.

Lemma log_ok_initial : log_ok 0 (initial net0).
Proof. repeat split; constructor. Qed.

Lemma spec_stale_bound (k : nat) : spec_stale v k <= S k.
Proof.
  induction k as [| k IH]; simpl.
  - destruct (spec_improves v 0); lia.
  - destruct (spec_improves v (S k)); lia.
Qed.

Lemma never_improving_loop (es : list Z) (st : State) :
  (forall w, float_lt (validate w) PosInf = false) ->
  best_val_loss st = PosInf ->
  written (fst (loop es st)) = written st /\
  best_val_loss (fst (loop es st)) = PosInf.
Proof.
  intros Hnever. revert st.
  induction es as [| e rest IH]; intros st Hbest; simpl.
  - auto.
  - assert (E : float_lt (validate (fst (fst (train_epoch (net st)))))
                  (best_val_loss st) = false)
      by (rewrite Hbest; apply Hnever).
    rewrite body_stale by exact E. cbn [fst snd].
    destruct (patience args <=? patience_counter st + 1)%Z; cbn [fst].
    + auto.
    + apply (IH {| net := fst (train_epoch (net st));
                   best_val_loss := best_val_loss st;
                   patience_counter := patience_counter st + 1;
                   written := written st |}).
      exact Hbest.
Qed.

Lemma never_improving_spec :
  (forall w, float_lt (validate w) PosInf = false) ->
  forall k, spec_best_before v k = PosInf /\ spec_improves v k = false /\
            spec_stale v k = S k.
Proof.
  intros Hnever.
  assert (Hb : forall k, spec_best_before v k = PosInf).
  { induction k as [| k IH]; simpl; [reflexivity |].
    rewrite IH. unfold val_loss_at. rewrite Hnever. reflexivity. }
  assert (Hi : forall k, spec_improves v k = false).
  { intros k. unfold spec_improves. rewrite Hb. apply Hnever. }
  intros k. split; [apply Hb |]. split; [apply Hi |].
  induction k as [| k IH]; simpl.
  - rewrite Hi. reflexivity.
  - rewrite Hi, IH. reflexivity.
Qed.

End Run.

Lemma find_seq_first (f : nat -> bool) (c a k : nat) :
  a <= k < a + c -> f k = true ->
  (forall j, a <= j < k -> f j = false) ->
  find f (seq a c) = Some k.
Proof.
  revert a. induction c as [| c IH]; intros a Hk Hfk Hbefore; simpl.
  - lia.
  - destruct (Nat.eq_dec a k) as [-> | NE].
    + rewrite Hfk. reflexivity.
    + rewrite (Hbefore a) by lia. apply IH; [lia | exact Hfk |].
      intros j Hj. apply Hbefore. lia.
Qed.

Lemma find_seq_none (f : nat -> bool) (c a : nat) :
  (forall j, a <= j < a + c -> f j = false) ->
  find f (seq a c) = None.
Proof.
  revert a. induction c as [| c IH]; intros a H; simpl.
  - reflexivity.
  - rewrite (H a) by lia. apply IH. intros j Hj. apply H. lia.
Qed.

End TrainMore.

(** ** Further properties of the training loop *)

Module TrainExtras.

Import Train TrainFacts TrainNotions TrainMore Samples.

(** X1.  At the end of every training run the best validation loss the
    loop holds is the loss stored in the checkpoint file (infinity when no
    checkpoint was written), and every checkpoint written is coherent: its
    loss is the validation loss of the weights it stores, and it carries
    the run's metadata and feature count. *)
Theorem checkpoint_holds_best_loss (Weights OptState : Type)
  (train_epoch : Weights * OptState -> (Weights * OptState) * pyfloat)
  (validate : Weights -> pyfloat) (args : Args)
  (metadata : Inference.Metadata) (net0 : Weights * OptState) :
  let final := fst (training_loop train_epoch validate args metadata net0) in
  best_val_loss final = loss_on_disk (written final) /\
  Forall (fun ck => val_loss ck = validate (model_state_dict ck) /\
                    ck_metadata ck = metadata /\
                    cfg_input_size (model_config ck)
                    = Inference.md_n_features metadata)
         (written final).
Proof.
  cbv zeta. unfold training_loop, range.
  destruct (log_ok_loop _ _ train_epoch validate args metadata net0
              (Z.to_nat (epochs args)) 0 (initial net0)
              (at_epoch_initial _ _ train_epoch validate net0)
              (log_ok_initial _ _ train_epoch validate metadata net0))
    as [(Hbest & _ & Hall) _].
  split; [exact Hbest |].
  rewrite Forall_forall in *. intros ck Hck.
  destruct (Hall ck Hck) as (k & _ & _ & _ & _ & H1 & H2 & H3). auto.
Qed.

(** X2.  The checkpoints written during a run, latest first, are strictly
    improving: each has a strictly smaller validation loss and a strictly
    later epoch than every checkpoint written before it. *)
Theorem write_log_strictly_improving (Weights OptState : Type)
  (train_epoch : Weights * OptState -> (Weights * OptState) * pyfloat)
  (validate : Weights -> pyfloat) (args : Args)
  (metadata : Inference.Metadata) (net0 : Weights * OptState) :
  StronglySorted supersedes
    (written (fst (training_loop train_epoch validate args metadata net0))).
Proof.
  unfold training_loop, range.
  destruct (log_ok_loop _ _ train_epoch validate args metadata net0
              (Z.to_nat (epochs args)) 0 (initial net0)
              (at_epoch_initial _ _ train_epoch validate net0)
              (log_ok_initial _ _ train_epoch validate metadata net0))
    as [(_ & Hsorted & _) _].
  exact Hsorted.
Qed.

(** X3.  Training never rolls back: the network in memory when the loop
    ends is the one after the last epoch that ran, and every checkpoint
    holds the weights and optimizer state as they were right after the
    checkpoint's own epoch, with the validation loss of that epoch. *)
Theorem no_rollback (Weights OptState : Type)
  (train_epoch : Weights * OptState -> (Weights * OptState) * pyfloat)
  (validate : Weights -> pyfloat) (args : Args)
  (metadata : Inference.Metadata) (net0 : Weights * OptState) :
  let final := fst (training_loop train_epoch validate args metadata net0) in
  let ran := length (epoch_trace train_epoch validate args metadata
                       (range (epochs args)) (initial net0)) in
  net final = net_after train_epoch ran net0 /\
  Forall (fun ck =>
            exists k, k < ran /\ epoch ck = Z.of_nat k /\
              model_state_dict ck = fst (net_after train_epoch (S k) net0) /\
              optimizer_state_dict ck
              = snd (net_after train_epoch (S k) net0) /\
              val_loss ck = val_loss_at train_epoch validate net0 k)
         (written final).
Proof.
  cbv zeta. unfold training_loop, range.
  pose proof (at_epoch_initial _ _ train_epoch validate net0) as Hat.
  destruct (log_ok_loop _ _ train_epoch validate args metadata net0
              (Z.to_nat (epochs args)) 0 (initial net0) Hat
              (log_ok_initial _ _ train_epoch validate metadata net0))
    as [(_ & _ & Hall) Hnet].
  split; [exact Hnet |].
  rewrite Forall_forall in *. intros ck Hck.
  destruct (Hall ck Hck) as (k & Hk & He & Hw & Ho & Hv & _).
  exists k. split; [exact Hk |]. split; [exact He |].
  split; [exact Hw |]. split; [exact Ho |].
  rewrite Hv, Hw. reflexivity.
Qed.

(** X4.  When no validation loss is ever below infinity (every loss is NaN
    or infinite, as after a divergence) and the patience is at least 1, no
    checkpoint is written, the best loss stays infinite, and the loop
    stops at epoch [patience - 1], or runs to the cap when the cap is
    smaller than the patience. *)
Theorem never_improving_run (Weights OptState : Type)
  (train_epoch : Weights * OptState -> (Weights * OptState) * pyfloat)
  (validate : Weights -> pyfloat) (args : Args)
  (metadata : Inference.Metadata) (net0 : Weights * OptState) :
  (forall w, float_lt (validate w) PosInf = false) ->
  (1 <= patience args)%Z ->
  let r := training_loop train_epoch validate args metadata net0 in
  written (fst r) = [] /\
  best_val_loss (fst r) = PosInf /\
  snd r = if (patience args <=? epochs args)%Z
          then Some (patience args - 1)%Z else None.
Proof.
  intros Hnever Hp. cbv zeta.
  destruct (never_improving_loop _ _ train_epoch validate args metadata
              (range (epochs args)) (initial net0) Hnever eq_refl)
    as [Hw Hb].
  split; [exact Hw |]. split; [exact Hb |].
  unfold training_loop, range.
  destruct (loop_from _ _ train_epoch validate args metadata net0
              (Z.to_nat (epochs args)) 0 (initial net0)
              (at_epoch_initial _ _ train_epoch validate net0))
    as [Hstop _].
  rewrite Hstop.
  pose proof (never_improving_spec _ _ train_epoch validate net0 Hnever)
    as Hspec.
  assert (Hex : forall k,
            spec_exhausted (val_loss_at train_epoch validate net0)
              (patience args) k
            = (patience args <=? Z.of_nat (S k))%Z).
  { intros k. unfold spec_exhausted.
    destruct (Hspec k) as (_ & -> & ->). reflexivity. }
  destruct (Z.leb_spec (patience args) (epochs args)) as [Hle | Hgt].
  - rewrite (find_seq_first _ _ 0 (Z.to_nat (patience args - 1))).
    + simpl. f_equal. lia.
    + lia.
    + rewrite Hex. apply Z.leb_le. lia.
    + intros j Hj. rewrite Hex. apply Z.leb_gt. lia.
  - rewrite find_seq_none; [reflexivity |].
    intros j Hj. rewrite Hex. apply Z.leb_gt. lia.
Qed.

Lemma never_improving_run_witness :
  (forall w : nat, float_lt ((fun _ => NaN) w) PosInf = false) /\
  (1 <= patience args_patience2)%Z /\
  let r := training_loop counting_train (fun _ => NaN) args_patience2
             metadata88 (0, tt) in
  written (fst r) = [] /\ snd r = Some 1%Z.
Proof.
  assert (H1 : forall w : nat, float_lt ((fun _ => NaN) w) PosInf = false)
    by (intros w; reflexivity).
  assert (H2 : (1 <= patience args_patience2)%Z)
    by (vm_compute; discriminate).
  split; [exact H1 |]. split; [exact H2 |].
  destruct (never_improving_run nat unit counting_train (fun _ => NaN)
              args_patience2 metadata88 (0, tt) H1 H2) as (Hw & _ & Hs).
  split; [exact Hw | exact Hs].
Defined.

(** X5.  Early stopping never fires before [patience] epochs have run:
    when the loop leaves through [break] at epoch [e], that epoch lies
    below the cap and [patience <= e + 1]. *)
Theorem no_stop_before_patience (Weights OptState : Type)
  (train_epoch : Weights * OptState -> (Weights * OptState) * pyfloat)
  (validate : Weights -> pyfloat) (args : Args)
  (metadata : Inference.Metadata) (net0 : Weights * OptState) (e : Z) :
  snd (training_loop train_epoch validate args metadata net0) = Some e ->
  (0 <= e < epochs args)%Z /\ (patience args <= e + 1)%Z.
Proof.
  unfold training_loop, range.
  destruct (loop_from _ _ train_epoch validate args metadata net0
              (Z.to_nat (epochs args)) 0 (initial net0)
              (at_epoch_initial _ _ train_epoch validate net0))
    as [Hstop _].
  rewrite Hstop.
  destruct (find _ (seq 0 (Z.to_nat (epochs args)))) as [k |] eqn:Ef;
    [| discriminate].
  intros [= <-]. apply find_some in Ef. destruct Ef as [Hin Hex].
  apply in_seq in Hin. split; [lia |].
  unfold spec_exhausted in Hex. apply andb_prop in Hex.
  destruct Hex as [_ Hle]. apply Z.leb_le in Hle.
  pose proof (spec_stale_bound _ _ train_epoch validate net0 k). lia.
Qed.

Lemma no_stop_before_patience_witness :
  snd (training_loop counting_train listed_validate args_patience2
         metadata88 (0, tt)) = Some 2%Z /\
  (0 <= 2 < epochs args_patience2)%Z /\
  (patience args_patience2 <= 2 + 1)%Z.
Proof.
  assert (H : snd (training_loop counting_train listed_validate
                     args_patience2 metadata88 (0, tt)) = Some 2%Z)
    by (vm_compute; reflexivity).
  split; [exact H |].
  exact (no_stop_before_patience nat unit counting_train listed_validate
           args_patience2 metadata88 (0, tt) 2%Z H).
Defined.

End TrainExtras.

(** ** One epoch over the batches *)

Module TrainEpochFacts.

Import TrainEpoch.

Lemma mean_between (lo hi total : R) (n : nat) :
  n <> 0 ->
  (INR n * lo <= total <= INR n * hi)%R ->
  (lo <= total / INR n <= hi)%R.
Proof.
  intros Hn [H1 H2].
  assert (Hpos : (0 < INR n)%R) by (apply lt_0_INR; lia).
  assert (Hinv : (0 < / INR n)%R) by (apply Rinv_0_lt_compat; exact Hpos).
  unfold Rdiv. split.
  - replace lo with (INR n * lo * / INR n)%R by (field; lra).
    apply Rmult_le_compat_r; lra.
  - replace hi with (INR n * hi * / INR n)%R by (field; lra).
    apply Rmult_le_compat_r; lra.
Qed.

Section BatchFacts.

Variables Weights OptState Batch : Type.
Variable train_loss_of : Weights -> Batch -> float.
Variable eval_loss_of : Weights -> Batch -> float.
Variable optimizer_step : Weights * OptState -> Batch -> Weights * OptState.

Lemma validate_batches_sum (lo hi : R) (w : Weights) (loader : list Batch) :
  (forall b, In b loader ->
     exists x, eval_loss_of w b = Some x /\ (lo <= x <= hi)%R) ->
  forall t : R,
  exists s,
    validate_batches eval_loss_of w (Some t) loader = Some (t + s)%R /\
    (INR (length loader) * lo <= s <= INR (length loader) * hi)%R.
Proof.
  induction loader as [| b rest IH]; intros Hall t.
  - exists 0%R. simpl. split; [f_equal; lra | lra].
  - destruct (Hall b (or_introl eq_refl)) as (x & Hx & Hbx).
    destruct (IH (fun b' Hb' => Hall b' (or_intror Hb')) (t + x)%R)
      as (s & Hs & Hbs).
    exists (x + s)%R. cbn [validate_batches]. rewrite Hx.
    cbn [fadd lift2]. rewrite Hs. split; [f_equal; lra |].
    change (length (b :: rest)) with (S (length rest)).
    rewrite S_INR. lra.
Qed.

Lemma train_batches_sum (lo hi : R) (loader : list Batch) :
  (forall w b, In b loader ->
     exists x, train_loss_of w b = Some x /\ (lo <= x <= hi)%R) ->
  forall (net : Weights * OptState) (t : R),
  exists s,
    train_batches train_loss_of optimizer_step net (Some t) loader
    = (fold_left optimizer_step loader net, Some (t + s)%R) /\
    (INR (length loader) * lo <= s <= INR (length loader) * hi)%R.
Proof.
  induction loader as [| b rest IH]; intros Hall net t.
  - exists 0%R. simpl. split; [do 2 f_equal; lra | lra].
  - destruct (Hall (fst net) b (or_introl eq_refl)) as (x & Hx & Hbx).
    destruct (IH (fun w b' Hb' => Hall w b' (or_intror Hb'))
                 (optimizer_step net b) (t + x)%R)
      as (s & Hs & Hbs).
    exists (x + s)%R. cbn [train_batches fold_left]. rewrite Hx.
    cbn [fadd lift2]. rewrite Hs. split; [do 2 f_equal; lra |].
    change (length (b :: rest)) with (S (length rest)).
    rewrite S_INR. lra.
Qed.

End BatchFacts.

End TrainEpochFacts.

Module TrainEpochExtras.

Import TrainEpoch TrainEpochFacts.

(** X6.  [validate] on an empty loader raises [ZeroDivisionError]; on a
    loader with at least one batch whose batch losses are numbers between
    [lo] and [hi], it returns their arithmetic mean, a number between
    [lo] and [hi]. *)
Theorem validate_mean_of_batches (Weights Batch : Type)
  (eval_loss_of : Weights -> Batch -> float) (w : Weights) :
  validate eval_loss_of w [] = inl ZeroDivisionError /\
  forall (loader : list Batch) (lo hi : R),
    loader <> [] ->
    (forall b, In b loader ->
       exists x, eval_loss_of w b = Some x /\ (lo <= x <= hi)%R) ->
    exists s,
      validate_batches eval_loss_of w (Some 0%R) loader = Some s /\
      validate eval_loss_of w loader
      = inr (Some (s / INR (length loader))%R) /\
      (lo <= s / INR (length loader) <= hi)%R.
Proof.
  split; [reflexivity |].
  intros loader lo hi Hne Hall.
  destruct (validate_batches_sum _ _ eval_loss_of lo hi w loader Hall 0%R)
    as (s & Hs & Hb).
  assert (Hn : length loader <> 0)
    by (destruct loader; [contradiction | discriminate]).
  exists (0 + s)%R. split; [exact Hs |].
  unfold validate, mean_loss. rewrite Hs.
  destruct (Nat.eqb_spec (length loader) 0) as [E | _]; [contradiction |].
  split; [reflexivity |].
  apply mean_between; [exact Hn | lra].
Qed.

Lemma validate_mean_of_batches_witness :
  [1%R; 3%R] <> [] /\
  (forall b, In b [1%R; 3%R] ->
     exists x, (fun (_ : unit) (b : R) => Some b) tt b = Some x /\
               (1 <= x <= 3)%R) /\
  exists m,
    validate (fun (_ : unit) (b : R) => Some b) tt [1%R; 3%R]
    = inr (Some m) /\ (1 <= m <= 3)%R.
Proof.
  assert (Hne : [1%R; 3%R] <> []) by discriminate.
  assert (Hall : forall b, In b [1%R; 3%R] ->
            exists x, (fun (_ : unit) (b : R) => Some b) tt b = Some x /\
                      (1 <= x <= 3)%R).
  { intros b [<- | [<- | []]]; eexists; (split; [reflexivity | lra]). }
  split; [exact Hne |]. split; [exact Hall |].
  destruct (validate_mean_of_batches unit R (fun _ b => Some b) tt)
    as [_ H].
  destruct (H [1%R; 3%R] 1%R 3%R Hne Hall) as (s & _ & Hv & Hb).
  eexists. split; [exact Hv | exact Hb].
Defined.

(** X7.  [train_epoch] on an empty loader raises [ZeroDivisionError]; on
    a loader with at least one batch it leaves the network that results
    from taking the optimizer steps batch after batch, in the order of
    the loader, and, when the batch losses are numbers between [lo] and
    [hi], returns a mean loss between [lo] and [hi]. *)
Theorem train_epoch_steps_and_mean (Weights OptState Batch : Type)
  (train_loss_of : Weights -> Batch -> float)
  (optimizer_step : Weights * OptState -> Batch -> Weights * OptState)
  (net : Weights * OptState) :
  train_epoch train_loss_of optimizer_step net [] = inl ZeroDivisionError /\
  forall (loader : list Batch) (lo hi : R),
    loader <> [] ->
    (forall w b, In b loader ->
       exists x, train_loss_of w b = Some x /\ (lo <= x <= hi)%R) ->
    exists m,
      train_epoch train_loss_of optimizer_step net loader
      = inr (fold_left optimizer_step loader net, Some m) /\
      (lo <= m <= hi)%R.
Proof.
  split; [reflexivity |].
  intros loader lo hi Hne Hall.
  destruct (train_batches_sum _ _ _ train_loss_of optimizer_step lo hi
              loader Hall net 0%R) as (s & Hs & Hb).
  assert (Hn : length loader <> 0)
    by (destruct loader; [contradiction | discriminate]).
  exists ((0 + s) / INR (length loader))%R.
  unfold train_epoch, mean_loss. rewrite Hs. cbn [fst snd].
  destruct (Nat.eqb_spec (length loader) 0) as [E | _]; [contradiction |].
  split; [reflexivity |].
  apply mean_between; [exact Hn | lra].
Qed.

Lemma train_epoch_steps_and_mean_witness :
  [1%R; 3%R] <> [] /\
  (forall (w : unit) b, In b [1%R; 3%R] ->
     exists x, (fun (_ : unit) (b : R) => Some b) w b = Some x /\
               (1 <= x <= 3)%R) /\
  exists m,
    train_epoch (fun (_ : unit) (b : R) => Some b)
      (fun (n : unit * nat) (_ : R) => (tt, S (snd n))) (tt, 0)
      [1%R; 3%R]
    = inr ((tt, 2), Some m) /\ (1 <= m <= 3)%R.
Proof.
  assert (Hne : [1%R; 3%R] <> []) by discriminate.
  assert (Hall : forall (w : unit) b, In b [1%R; 3%R] ->
            exists x, (fun (_ : unit) (b : R) => Some b) w b = Some x /\
                      (1 <= x <= 3)%R).
  { intros w b [<- | [<- | []]]; eexists; (split; [reflexivity | lra]). }
  split; [exact Hne |]. split; [exact Hall |].
  destruct (train_epoch_steps_and_mean unit nat R (fun _ b => Some b)
              (fun n _ => (tt, S (snd n))) (tt, 0)) as [_ H].
  destruct (H [1%R; 3%R] 1%R 3%R Hne Hall) as (m & Hv & Hb).
  exists m. split; [exact Hv | exact Hb].
Defined.

End TrainEpochExtras.

(** ** More on [prepare_data] *)

Module PrepareMore.

Import FeatureEngineering PrepareFacts PrepareNotions.

(** *** Columns after the assignments *)

Lemma position_bound (name : string) (cols : list (string * dtype)) (j : nat) :
  position name cols = Some j -> j < length cols.
Proof.
  revert j. induction cols as [| c t IH]; intros j; simpl; [discriminate |].
  destruct (String.eqb name (fst c)).
  - intros [= <-]. lia.
  - destruct (position name t) as [k |]; simpl; [| discriminate].
    intros [= <-]. specialize (IH k eq_refl). lia.
Qed.

Lemma set_nth_In {A : Type} (j : nat) (a : A) (l : list A) :
  j < length l -> In a (set_nth j a l).
Proof.
  revert j. induction l as [| h t IH]; intros j Hj; simpl in Hj; [lia |].
  destruct j; simpl; [left; reflexivity | right; apply IH; lia].
Qed.

Lemma set_column_In (name : string) (dt : dtype) (f : Row -> float)
  (df : DataFrame) :
  In (name, dt) (columns (set_column name dt f df)).
Proof.
  unfold set_column.
  destruct (position name (columns df)) as [j |] eqn:E; simpl.
  - apply set_nth_In. apply (position_bound name). exact E.
  - apply in_or_app. right. left. reflexivity.
Qed.

Lemma select_feature_nonempty (cols : list (string * dtype))
  (c : string * dtype) :
  In c cols -> is_feature c = true ->
  select (map is_feature cols) cols <> [].
Proof.
  induction cols as [| h t IH]; intros Hin Hc; [contradiction |].
  simpl. destruct (is_feature h) eqn:Eh; [discriminate |].
  destruct Hin as [-> | Hin]; [congruence | auto].
Qed.

Lemma add_time_features_has_feature (df : DataFrame) :
  feature_cols (add_time_features df) <> [].
Proof.
  unfold feature_cols, feature_mask. intros E.
  apply map_eq_nil in E. revert E.
  apply (select_feature_nonempty _ ("day_cos"%string, float64)).
  - unfold add_time_features. apply set_column_In.
  - reflexivity.
Qed.

(** *** The cleaned table *)

Lemma length_times (l : list Row) : length (times l) = length l.
Proof. apply length_map. Qed.

Lemma bfill_length (l : list Row) : length (bfill l) = length l.
Proof. rewrite <- length_times, bfill_times. apply length_times. Qed.

Lemma ffill_length (l : list Row) : length (ffill l) = length l.
Proof.
  unfold ffill. rewrite <- length_times, ffill_from_times.
  apply length_times.
Qed.

Lemma before_fill_well_formed (df : DataFrame) :
  well_formed df -> well_formed (before_fill df).
Proof.
  intros H. unfold before_fill. apply add_time_features_well_formed.
  apply deduplicated_well_formed. exact H.
Qed.

Lemma cleaned_well_formed (df : DataFrame) :
  well_formed df -> well_formed (cleaned df).
Proof.
  intros H. apply before_fill_well_formed in H.
  unfold well_formed, cleaned in *. cbn [rows columns with_rows].
  apply (bfill_width (fun n => n = length (columns (before_fill df)))).
  unfold ffill.
  apply (ffill_from_width (fun n => n = length (columns (before_fill df)))).
  exact H.
Qed.

Lemma cleaned_times (df : DataFrame) :
  times (rows (cleaned df)) = times (deduplicated df).
Proof.
  unfold cleaned. cbn [rows with_rows].
  rewrite bfill_times. unfold ffill. rewrite ffill_from_times.
  unfold before_fill. rewrite add_time_features_times. reflexivity.
Qed.

Lemma cleaned_len (df : DataFrame) :
  len (cleaned df) = length (deduplicated df).
Proof.
  unfold len. rewrite <- length_times, cleaned_times. apply length_times.
Qed.

Lemma cleaned_has_timestamp (df : DataFrame) :
  has_timestamp (cleaned df) = has_timestamp df.
Proof.
  unfold cleaned, before_fill. cbn [has_timestamp with_rows].
  rewrite add_time_features_has_timestamp. reflexivity.
Qed.

Lemma cleaned_has_feature (df : DataFrame) :
  feature_cols (cleaned df) <> [].
Proof. apply (add_time_features_has_feature (with_rows df (deduplicated df))). Qed.

Lemma prepare_data_cleaned (df : DataFrame) :
  has_timestamp df = true -> prepare_data df = inr (cleaned df).
Proof. apply prepare_data_timestamp. Qed.

(** *** Row counts *)

Lemma keep_first_length (l : list Row) :
  forall seen, length (keep_first seen l) <= length l.
Proof.
  induction l as [| r l IH]; intros seen; simpl; [lia |].
  destruct (existsb (Z.eqb (row_time r)) seen); simpl.
  - specialize (IH seen). lia.
  - specialize (IH (row_time r :: seen)). lia.
Qed.

Lemma keep_first_nodup (l : list Row) :
  forall seen,
    NoDup (times l) ->
    (forall t, In t (times l) -> ~ In t seen) ->
    keep_first seen l = l.
Proof.
  induction l as [| r l IH]; intros seen Hnd Hdisj; simpl; [reflexivity |].
  simpl in Hnd. inversion Hnd as [| ? ? Hnotin Hnd']; subst.
  destruct (existsb (Z.eqb (row_time r)) seen) eqn:E.
  - apply seen_spec in E. exfalso. apply (Hdisj (row_time r)); [left; reflexivity | exact E].
  - f_equal. apply IH; [exact Hnd' |].
    intros t Ht [<- | Hin].
    + contradiction.
    + apply (Hdisj t); [right; exact Ht | exact Hin].
Qed.

Lemma sort_rows_length (l : list Row) : length (sort_rows l) = length l.
Proof. symmetry. apply Permutation_length. apply sort_rows_perm. Qed.

Lemma deduplicated_nonempty (df : DataFrame) :
  rows df <> [] -> deduplicated df <> [].
Proof.
  unfold deduplicated. intros Hne.
  assert (Hs : sort_rows (rows df) <> []).
  { intros E. apply (f_equal (@length _)) in E.
    rewrite sort_rows_length in E.
    destruct (rows df); [contradiction | discriminate]. }
  destruct (sort_rows (rows df)) as [| r t]; [contradiction |].
  simpl. discriminate.
Qed.

(** *** Filling one column *)

Lemma ffill_column_known (k : R) (c : list float) :
  none_missing (ffill_column (Some k) c).
Proof.
  revert k. induction c as [| x t IH]; intros k; simpl.
  - constructor.
  - destruct x as [y |]; simpl; constructor; try discriminate; apply IH.
Qed.

Lemma bfill_column_complete (c : list float) :
  none_missing c -> bfill_column c = c.
Proof.
  induction 1 as [| x t Hx Ht IH]; simpl; [reflexivity |].
  rewrite IH. destruct x; [reflexivity | contradiction].
Qed.

Lemma bfill_column_all_missing (c : list float) :
  all_missing c -> all_missing (bfill_column c).
Proof.
  induction 1 as [| x t Hx Ht IH]; simpl; [constructor |].
  subst x. constructor; [| exact IH].
  simpl. destruct (bfill_column t) as [| y t'] eqn:E; [reflexivity |].
  inversion IH; subst. reflexivity.
Qed.

Lemma bfill_column_length (c : list float) :
  length (bfill_column c) = length c.
Proof. induction c; simpl; congruence. Qed.

Lemma hd_none_missing (c : list float) :
  none_missing c -> c <> [] -> hd nan c <> None.
Proof.
  intros H Hne. destruct c as [| x t]; [contradiction |].
  inversion H; subst. assumption.
Qed.

Lemma bfill_column_tail_complete (c : list float) :
  none_missing (bfill_column c) -> c <> [] ->
  forall pre, all_missing pre ->
  none_missing (bfill_column (pre ++ c)).
Proof.
  intros Hc Hne pre Hpre.
  induction Hpre as [| x pre Hx Hpre IH]; simpl; [exact Hc |].
  subst x. constructor; [| exact IH].
  simpl. apply hd_none_missing; [exact IH |].
  intros E. apply (f_equal (@length _)) in E.
  rewrite bfill_column_length, length_app in E.
  destruct c; [contradiction | simpl in E; lia].
Qed.

(** Forward fill leaves some leading missing entries and, after them,
    none. *)
Lemma ffill_column_shape (c : list float) :
  all_missing (ffill_column nan c) \/
  exists pre post,
    ffill_column nan c = pre ++ post /\
    all_missing pre /\ post <> [] /\ none_missing post.
Proof.
  induction c as [| x t IH]; simpl.
  - left. constructor.
  - destruct x as [y |]; simpl.
    + right. exists [], (Some y :: ffill_column (Some y) t).
      split; [reflexivity |]. split; [constructor |].
      split; [discriminate |].
      constructor; [discriminate | apply ffill_column_known].
    + destruct IH as [Hall | (pre & post & E & Hpre & Hne & Hpost)].
      * left. constructor; [reflexivity | exact Hall].
      * right. exists (None :: pre), post. rewrite E.
        split; [reflexivity |]. split; [constructor; auto |]. auto.
Qed.

Lemma filled_column_all_or_none (c : list float) :
  all_missing (bfill_column (ffill_column nan c)) \/
  none_missing (bfill_column (ffill_column nan c)).
Proof.
  destruct (ffill_column_shape c)
    as [Hall | (pre & post & E & Hpre & Hne & Hpost)].
  - left. apply bfill_column_all_missing. exact Hall.
  - right. rewrite E. apply bfill_column_tail_complete; try assumption.
    rewrite bfill_column_complete by exact Hpost. exact Hpost.
Qed.

Lemma ffill_column_all_missing_iff (c : list float) :
  all_missing (ffill_column nan c) <-> all_missing c.
Proof.
  induction c as [| x t IH]; simpl.
  - split; constructor.
  - destruct x as [y |]; simpl.
    + split; intros H; inversion H; subst; discriminate.
    + split; intros H; inversion H; subst;
        (constructor; [reflexivity | apply IH; assumption]).
Qed.

Lemma filled_column_all_missing_iff (c : list float) :
  all_missing (bfill_column (ffill_column nan c)) <-> all_missing c.
Proof.
  split.
  - intros H.
    destruct (ffill_column_shape c)
      as [Hall | (pre & post & E & Hpre & Hne & Hpost)].
    + apply ffill_column_all_missing_iff. exact Hall.
    + exfalso.
      assert (Hn : none_missing (bfill_column (ffill_column nan c))).
      { rewrite E. apply bfill_column_tail_complete; try assumption.
        rewrite bfill_column_complete by exact Hpost. exact Hpost. }
      assert (Hlen : bfill_column (ffill_column nan c) <> []).
      { intros E'. apply (f_equal (@length _)) in E'.
        rewrite bfill_column_length, E, length_app in E'.
        destruct post; [contradiction | simpl in E'; lia]. }
      destruct (bfill_column (ffill_column nan c)) as [| x t];
        [contradiction |].
      inversion H; subst. inversion Hn; subst. contradiction.
  - intros H. apply bfill_column_all_missing.
    apply ffill_column_all_missing_iff. exact H.
Qed.

(** *** Tables that are clean already *)

Lemma insert_row_least (r : Row) (l : list Row) :
  Forall (fun r' => (row_time r < row_time r')%Z) l ->
  insert_row r l = r :: l.
Proof.
  intros H. destruct l as [| h t]; [reflexivity |].
  inversion H; subst. simpl.
  destruct (Z.leb_spec (row_time r) (row_time h)); [reflexivity | lia].
Qed.

Lemma strictly_sorted_rows (l : list Row) :
  StronglySorted Z.lt (times l) ->
  StronglySorted (fun a b => (row_time a < row_time b)%Z) l.
Proof.
  induction l as [| r t IH]; simpl; intros H; [constructor |].
  inversion H as [| ? ? Ht Hall]; subst. constructor; [auto |].
  rewrite Forall_forall in *. intros r' Hr'.
  apply Hall. unfold times. apply in_map. exact Hr'.
Qed.

Lemma sort_rows_sorted_id (l : list Row) :
  StronglySorted Z.lt (times l) -> sort_rows l = l.
Proof.
  intros H. apply strictly_sorted_rows in H.
  induction H as [| r t Ht IH Hall]; simpl; [reflexivity |].
  rewrite IH. apply insert_row_least. exact Hall.
Qed.

Lemma strictly_sorted_nodup (l : list Z) :
  StronglySorted Z.lt l -> NoDup l.
Proof.
  induction 1 as [| x t Ht IH Hall]; constructor; [| exact IH].
  intros Hin. rewrite Forall_forall in Hall.
  specialize (Hall x Hin). lia.
Qed.

Lemma deduplicated_sorted_id (df : DataFrame) :
  StronglySorted Z.lt (times (rows df)) -> deduplicated df = rows df.
Proof.
  intros H. unfold deduplicated. rewrite sort_rows_sorted_id by exact H.
  apply keep_first_nodup.
  - apply strictly_sorted_nodup. exact H.
  - intros t _ [].
Qed.

Lemma fill_row_complete (prev cur : list float) :
  none_missing cur -> fill_row prev cur = cur.
Proof.
  intros H. revert prev.
  induction H as [| x t Hx Ht IH]; intros prev; simpl; [reflexivity |].
  rewrite IH. destruct x; [reflexivity | contradiction].
Qed.

Lemma with_cells_id (r : Row) : with_cells r (row_cells r) = r.
Proof. destruct r; reflexivity. Qed.

Lemma ffill_from_complete (l : list Row) :
  Forall (fun r => none_missing (row_cells r)) l ->
  forall prev, ffill_from prev l = l.
Proof.
  induction 1 as [| r t Hr Ht IH]; intros prev; simpl; [reflexivity |].
  rewrite fill_row_complete by exact Hr. rewrite with_cells_id.
  f_equal. apply IH.
Qed.

Lemma bfill_complete (l : list Row) :
  Forall (fun r => none_missing (row_cells r)) l -> bfill l = l.
Proof.
  induction 1 as [| r t Hr Ht IH]; simpl; [reflexivity |].
  rewrite IH, fill_row_complete by exact Hr. rewrite with_cells_id.
  reflexivity.
Qed.

Lemma set_nth_Forall {A : Type} (P : A -> Prop) (j : nat) (a : A)
  (l : list A) :
  P a -> Forall P l -> Forall P (set_nth j a l).
Proof.
  intros Ha H. revert j.
  induction H as [| x t Hx Ht IH]; intros j; destruct j; simpl;
    constructor; auto.
Qed.

Lemma set_column_complete (name : string) (dt : dtype) (f : Row -> float)
  (df : DataFrame) :
  (forall r, f r <> None) -> complete df ->
  complete (set_column name dt f df).
Proof.
  unfold complete, set_column. intros Hf H.
  destruct (position name (columns df)); simpl; rewrite Forall_map;
    rewrite Forall_forall in *; intros r Hr; simpl.
  - apply set_nth_Forall; [apply Hf | apply H; exact Hr].
  - unfold none_missing. apply Forall_app. split; [apply H; exact Hr |].
    constructor; [apply Hf | constructor].
Qed.

Lemma add_time_features_complete (df : DataFrame) :
  complete df -> complete (add_time_features df).
Proof.
  intros H. unfold add_time_features.
  repeat (apply set_column_complete; [intros r; discriminate |]).
  exact H.
Qed.

Lemma with_rows_id (df : DataFrame) : with_rows df (rows df) = df.
Proof. destruct df; reflexivity. Qed.

Lemma cleaned_clean_id (df : DataFrame) :
  StronglySorted Z.lt (times (rows df)) -> complete df ->
  cleaned df = add_time_features df.
Proof.
  intros Hs Hc. unfold cleaned, before_fill.
  rewrite deduplicated_sorted_id by exact Hs. rewrite with_rows_id.
  pose proof (add_time_features_complete df Hc) as Hc'.
  unfold complete in Hc'. unfold ffill.
  rewrite ffill_from_complete by exact Hc'.
  rewrite bfill_complete by exact Hc'. apply with_rows_id.
Qed.

End PrepareMore.

(** ** Further properties of [prepare_data] *)

Module PrepareExtras.

Import FeatureEngineering PrepareFacts PrepareNotions PrepareMore.
Import Samples MoreSamples.

(** X8.  After [prepare_data] on a table with timestamps, no numeric
    column is partly missing: every column of the result is without a
    missing entry, or missing throughout, and it is missing throughout
    exactly when the column had no known value before the filling. *)
Theorem cleaned_columns_all_or_none (df : DataFrame) :
  has_timestamp df = true -> well_formed df ->
  exists out,
    prepare_data df = inr out /\
    forall j, j < length (columns out) ->
      let filled := column j (cells (rows out)) in
      (all_missing filled \/ none_missing filled) /\
      (all_missing filled
       <-> all_missing (column j (cells (rows (before_fill df))))).
Proof.
  intros Hts Hwf. exists (cleaned df).
  split; [apply prepare_data_cleaned; exact Hts |].
  intros j Hj. cbv zeta.
  assert (E : column j (cells (rows (cleaned df)))
              = bfill_column
                  (ffill_column nan
                     (column j (cells (rows (before_fill df)))))).
  { unfold cleaned. cbn [rows with_rows]. apply fill_columns.
    pose proof (before_fill_well_formed df Hwf) as Hwf'.
    unfold well_formed in Hwf'. rewrite Forall_forall in *.
    intros r Hr. rewrite (Hwf' r Hr). exact Hj. }
  rewrite E. split.
  - apply filled_column_all_or_none.
  - apply filled_column_all_missing_iff.
Qed.

Lemma cleaned_columns_all_or_none_witness :
  has_timestamp ragged_table = true /\ well_formed ragged_table /\
  exists out,
    prepare_data ragged_table = inr out /\
    none_missing (column 0 (cells (rows out))).
Proof.
  assert (Hwf : well_formed ragged_table)
    by (unfold well_formed, ragged_table; simpl; repeat constructor).
  split; [reflexivity |]. split; [exact Hwf |].
  destruct (cleaned_columns_all_or_none ragged_table eq_refl Hwf)
    as (out & Hout & Hcols).
  exists out. split; [exact Hout |].
  assert (E : out = cleaned ragged_table).
  { rewrite (prepare_data_cleaned ragged_table eq_refl) in Hout.
    injection Hout as <-. reflexivity. }
  assert (Hj : 0 < length (columns out))
    by (rewrite E; apply Nat.ltb_lt; reflexivity).
  destruct (Hcols 0 Hj) as [[Hall | Hnone] _]; [| exact Hnone].
  exfalso. rewrite E in Hall.
  assert (Hc : column 0 (cells (rows (cleaned ragged_table)))
               = [Some 5%R; Some 5%R; Some 5%R]) by reflexivity.
  rewrite Hc in Hall. inversion Hall; subst. discriminate.
Defined.

(** X9.  On a table with timestamps [prepare_data] keeps one row per
    distinct timestamp: the result has as many rows as the input has
    distinct timestamps, never more rows than the input, and as many when
    no timestamp repeats. *)
Theorem cleaned_row_count (df : DataFrame) :
  has_timestamp df = true ->
  exists out,
    prepare_data df = inr out /\
    len out = length (nodup Z.eq_dec (times (rows df))) /\
    len out <= len df /\
    (NoDup (times (rows df)) -> len out = len df).
Proof.
  intros Hts. exists (cleaned df).
  split; [apply prepare_data_cleaned; exact Hts |].
  assert (Hperm : Permutation (times (deduplicated df))
                    (nodup Z.eq_dec (times (rows df)))).
  { apply NoDup_Permutation.
    - apply strictly_sorted_nodup. unfold deduplicated.
      apply keep_first_increasing. apply sort_rows_strongly_sorted.
    - apply NoDup_nodup.
    - intros t. rewrite nodup_In. unfold deduplicated.
      rewrite keep_first_times. unfold times. split.
      + intros [Hin _]. apply in_map_iff in Hin.
        destruct Hin as (r & <- & Hr). apply in_map.
        apply (Permutation_in r (Permutation_sym (sort_rows_perm _))).
        exact Hr.
      + intros Hin. split; [| intros []].
        apply in_map_iff in Hin. destruct Hin as (r & <- & Hr).
        apply in_map. apply (Permutation_in r (sort_rows_perm _)).
        exact Hr. }
  assert (Hlen : len (cleaned df)
                 = length (nodup Z.eq_dec (times (rows df)))).
  { rewrite cleaned_len, <- length_times.
    apply Permutation_length. exact Hperm. }
  split; [exact Hlen |]. split.
  - rewrite cleaned_len. unfold deduplicated, len.
    pose proof (keep_first_length (sort_rows (rows df)) []).
    rewrite sort_rows_length in H. exact H.
  - intros Hnd. rewrite Hlen, nodup_fixed_point by exact Hnd.
    apply length_times.
Qed.

Lemma cleaned_row_count_witness :
  has_timestamp ragged_table = true /\
  exists out,
    prepare_data ragged_table = inr out /\ len out = 3 /\
    len ragged_table = 4.
Proof.
  split; [reflexivity |].
  destruct (cleaned_row_count ragged_table eq_refl)
    as (out & Hout & Hlen & _).
  exists out. split; [exact Hout |]. split; [exact Hlen | reflexivity].
Defined.

(** X10.  A table that is clean already (timestamps strictly ascending,
    no entry missing) goes through [prepare_data] unchanged but for the
    time features, so that the features the endpoint recomputes on the
    stored table are the features of training. *)
Theorem clean_table_only_gains_features (df : DataFrame) :
  has_timestamp df = true ->
  StronglySorted Z.lt (times (rows df)) -> complete df ->
  prepare_data df = inr (add_time_features df) /\
  Api.prepare_features df = prepare_data df.
Proof.
  intros Hts Hs Hc.
  assert (E : prepare_data df = inr (add_time_features df)).
  { rewrite prepare_data_cleaned by exact Hts.
    rewrite cleaned_clean_id by assumption. reflexivity. }
  split; [exact E |]. rewrite E.
  unfold Api.prepare_features. rewrite Hts. reflexivity.
Qed.

Lemma clean_table_only_gains_features_witness :
  has_timestamp clean_table = true /\
  StronglySorted Z.lt (times (rows clean_table)) /\
  complete clean_table /\
  prepare_data clean_table = inr (add_time_features clean_table).
Proof.
  assert (Hs : StronglySorted Z.lt (times (rows clean_table))).
  { simpl. repeat (constructor; [| repeat constructor; lia]).
    constructor. }
  assert (Hc : complete clean_table).
  { unfold complete, none_missing. simpl.
    repeat (constructor; [repeat constructor; discriminate |]).
    constructor. }
  split; [reflexivity |]. split; [exact Hs |]. split; [exact Hc |].
  apply (clean_table_only_gains_features clean_table eq_refl Hs Hc).
Defined.

End PrepareExtras.

(** ** More on the windows *)

Module SequenceMore.

Import StandardScaler ScalerFacts SequenceFacts FeatureEngineering.
Import PrepareFacts PrepareNotions PrepareMore SequenceNotions.

Lemma slice_inside {A : Type} (l : list A) (a b : Z) :
  (0 <= a)%Z -> (a <= b)%Z -> (b <= Z.of_nat (length l))%Z ->
  slice l a b = firstn (Z.to_nat (b - a)) (skipn (Z.to_nat a) l).
Proof.
  intros Ha Hab Hb. unfold slice, clamp.
  destruct (Z.ltb_spec a 0); [lia |].
  destruct (Z.ltb_spec b 0); [lia |].
  rewrite !Z.min_l by lia. reflexivity.
Qed.

Lemma slice_inside_length {A : Type} (l : list A) (a b : Z) :
  (0 <= a)%Z -> (a <= b)%Z -> (b <= Z.of_nat (length l))%Z ->
  length (slice l a b) = Z.to_nat (b - a).
Proof.
  intros Ha Hab Hb. rewrite slice_inside by assumption.
  rewrite length_firstn, length_skipn. lia.
Qed.

Lemma slice_inside_nth {A : Type} (l : list A) (a b : Z) (j : nat) (d : A) :
  (0 <= a)%Z -> (a <= b)%Z -> (b <= Z.of_nat (length l))%Z ->
  j < Z.to_nat (b - a) ->
  nth j (slice l a b) d = nth (Z.to_nat a + j) l d.
Proof.
  intros Ha Hab Hb Hj. rewrite slice_inside by assumption.
  rewrite nth_firstn.
  destruct (Nat.ltb_spec j (Z.to_nat (b - a))); [| lia].
  apply nth_skipn.
Qed.

Lemma map_nth_suffix {A : Type} (d : A) (l : list A) :
  forall c,
    map (fun k => nth (c + k) l d) (seq 0 (length l - c)) = skipn c l.
Proof.
  induction l as [| a t IH]; intros c.
  - destruct c; reflexivity.
  - destruct c as [| c].
    + cbn [length Nat.sub seq map skipn Nat.add nth]. f_equal.
      rewrite <- seq_shift, map_map. specialize (IH 0).
      rewrite Nat.sub_0_r in IH. simpl skipn in IH.
      rewrite <- IH at 2. apply map_ext. intros k. reflexivity.
    + cbn [length Nat.sub skipn]. rewrite <- (IH c).
      apply map_ext. intros k. reflexivity.
Qed.

(** The values read at the target indices are a suffix of the column. *)
Lemma targets_suffix {A : Type} (d : A) (l : list A) (c : Z) :
  (0 <= c)%Z ->
  map (fun i => nth (Z.to_nat (i + c)) l d)
      (range (Z.of_nat (length l) - c))
  = skipn (Z.to_nat c) l.
Proof.
  intros Hc. unfold range. rewrite map_map.
  rewrite <- (map_nth_suffix d l (Z.to_nat c)).
  replace (Z.to_nat (Z.of_nat (length l) - c))
    with (length l - Z.to_nat c) by lia.
  apply map_ext. intros k. f_equal. lia.
Qed.

Lemma StronglySorted_skipn {A : Type} (R : A -> A -> Prop) (l : list A) :
  StronglySorted R l -> forall n, StronglySorted R (skipn n l).
Proof.
  induction 1 as [| a t Ht IH Hall]; intros n.
  - destruct n; constructor.
  - destruct n; simpl; [constructor; assumption | apply IH].
Qed.

Lemma In_skipn {A : Type} (l : list A) (n : nat) (x : A) :
  In x (skipn n l) -> In x l.
Proof.
  revert n. induction l as [| a t IH]; intros n; destruct n; simpl; auto.
  intros H. right. apply (IH n). exact H.
Qed.

(** *** Feature columns after the assignments *)

Lemma position_app_none (name : string) (a b : list (string * dtype)) :
  position name a = None -> position name b = None ->
  position name (a ++ b) = None.
Proof.
  induction a as [| c t IH]; simpl; intros Ha Hb; [exact Hb |].
  destruct (String.eqb name (fst c)); [discriminate |].
  destruct (position name t); [discriminate |].
  rewrite IH by auto. reflexivity.
Qed.

Lemma set_column_fresh (name : string) (dt : dtype) (f : Row -> float)
  (df : DataFrame) :
  position name (columns df) = None ->
  columns (set_column name dt f df) = columns df ++ [(name, dt)].
Proof. intros H. unfold set_column. rewrite H. reflexivity. Qed.

Lemma set_column_after (name : string) (dt : dtype) (f : Row -> float)
  (df : DataFrame) (cols added : list (string * dtype)) :
  columns df = cols ++ added ->
  position name cols = None -> position name added = None ->
  columns (set_column name dt f df) = cols ++ (added ++ [(name, dt)]).
Proof.
  intros E Hc Ha. rewrite set_column_fresh.
  - rewrite E, <- app_assoc. reflexivity.
  - rewrite E. apply position_app_none; assumption.
Qed.

Lemma add_time_features_columns (df : DataFrame) :
  time_features_fresh df ->
  columns (add_time_features df)
  = columns df
    ++ [("hour", int32); ("day_of_year", int32); ("hour_sin", float64);
        ("hour_cos", float64); ("day_sin", float64);
        ("day_cos", float64)]%string.
Proof.
  unfold time_features_fresh, time_feature_names. intros H.
  repeat match goal with
         | H : Forall _ (_ :: _) |- _ => inversion H; clear H; subst
         end.
  unfold add_time_features.
  apply (set_column_after _ _ _ _ (columns df)
           [("hour", int32); ("day_of_year", int32); ("hour_sin", float64);
            ("hour_cos", float64); ("day_sin", float64)]%string);
    [| assumption | reflexivity].
  apply (set_column_after _ _ _ _ (columns df)
           [("hour", int32); ("day_of_year", int32); ("hour_sin", float64);
            ("hour_cos", float64)]%string);
    [| assumption | reflexivity].
  apply (set_column_after _ _ _ _ (columns df)
           [("hour", int32); ("day_of_year", int32);
            ("hour_sin", float64)]%string);
    [| assumption | reflexivity].
  apply (set_column_after _ _ _ _ (columns df)
           [("hour", int32); ("day_of_year", int32)]%string);
    [| assumption | reflexivity].
  apply (set_column_after _ _ _ _ (columns df) [("hour", int32)]%string);
    [| assumption | reflexivity].
  apply (set_column_after _ _ _ _ (columns df) []);
    [| assumption | reflexivity].
  rewrite app_nil_r. reflexivity.
Qed.

Lemma select_app {A : Type} (f : A -> bool) (a b : list A) :
  select (map f (a ++ b)) (a ++ b)
  = select (map f a) a ++ select (map f b) b.
Proof.
  induction a as [| x t IH]; simpl; [reflexivity |].
  destruct (f x); simpl; rewrite IH; reflexivity.
Qed.

Lemma cleaned_columns (df : DataFrame) :
  columns (cleaned df)
  = columns (add_time_features (with_rows df (deduplicated df))).
Proof. reflexivity. Qed.

Lemma nth_map_range {A : Type} (f : Z -> A) (d : A) (n : Z) (k : nat) :
  k < Z.to_nat n -> nth k (map f (range n)) d = f (Z.of_nat k).
Proof.
  intros Hk. unfold range. rewrite map_map.
  apply (nth_map_seq (fun j => f (Z.of_nat j))). exact Hk.
Qed.

Lemma target_value_first_column (fs : ndarray2) (t : Z) :
  (0 <= t)%Z ->
  target_value fs t = nth (Z.to_nat t) (first_column fs) nan.
Proof.
  intros Ht. unfold target_value, position_of, first_column.
  destruct (Z.ltb_spec t 0); [lia |].
  exact (eq_sym (map_nth (fun r : list float => nth 0 r nan) fs []
                   (Z.to_nat t))).
Qed.

Lemma target_time_times (df : DataFrame) (t : Z) :
  (0 <= t)%Z ->
  target_time df t = nth (Z.to_nat t) (times (rows df)) 0%Z.
Proof.
  intros Ht. unfold target_time, position_of.
  destruct (Z.ltb_spec t 0); [lia | reflexivity].
Qed.

End SequenceMore.

(** ** Further properties of [create_sequences] *)

Module SequenceExtras.

Import StandardScaler ScalerFacts SequenceFacts FeatureEngineering.
Import PrepareFacts PrepareNotions PrepareMore SequenceNotions SequenceMore.
Import Samples MoreSamples.

(** X11.  On a table [create_sequences] accepts, window [i] has exactly
    [sequence_length] rows, and its row [j] is the standardised feature
    row [i + j] of the table: the windows are the runs of consecutive
    rows, each starting one row after the previous one. *)
Theorem windows_are_consecutive_rows (self : WeatherFeatureEngineer)
  (df : DataFrame) (fit_scaler : bool) :
  well_formed df -> len df <> 0 -> feature_cols df <> [] ->
  (0 <= sequence_length self)%Z -> (0 <= forecast_horizon self)%Z ->
  (fit_scaler = true \/
   exists s, scaler self = Some s /\
             n_features_in_ s = length (feature_cols df)) ->
  exists self' s X y T,
    create_sequences self df fit_scaler = inr (self', (X, y, T)) /\
    scaler self' = Some s /\
    forall i, i < length X ->
      length (nth i X []) = Z.to_nat (sequence_length self) /\
      forall j, j < Z.to_nat (sequence_length self) ->
        nth j (nth i X []) []
        = map_row standardize (stats s)
            (nth (i + j) (feature_values df) []).
Proof.
  intros Hwf Hn Hk HL HH Hsc.
  destruct (SequenceClaims.scaler_available self df fit_scaler Hwf Hn Hsc)
    as (s & Hs & Hw).
  pose proof (create_sequences_closed self df fit_scaler s
                Hwf Hn Hk HL HH Hs Hw) as Hc.
  cbv zeta in Hc.
  eexists. exists s. eexists. eexists. eexists.
  split; [exact Hc |]. split; [reflexivity |].
  intros i Hi. unfold window_indices in *.
  rewrite length_map, range_length in Hi.
  rewrite (nth_map_range
             (fun i => slice (scaled_features s df) i
                         (i + sequence_length self))) by exact Hi.
  assert (Hlen : length (scaled_features s df) = len df).
  { unfold scaled_features. rewrite length_map.
    apply feature_values_length. }
  split.
  - rewrite slice_inside_length by (rewrite ?Hlen; lia).
    f_equal. lia.
  - intros j Hj.
    rewrite slice_inside_nth by (rewrite ?Hlen; lia).
    rewrite Nat2Z.id. unfold scaled_features.
    change (@nil float)
      with (map_row standardize (stats s) []) at 1.
    apply map_nth.
Qed.

Lemma windows_are_consecutive_rows_witness :
  well_formed table20 /\ len table20 <> 0 /\ feature_cols table20 <> [] /\
  (0 <= sequence_length engineer88)%Z /\
  (0 <= forecast_horizon engineer88)%Z /\
  exists self' X y T,
    create_sequences engineer88 table20 true = inr (self', (X, y, T)) /\
    length (nth 0 X []) = 8.
Proof.
  assert (Hn : len table20 <> 0) by (vm_compute; lia).
  assert (HL : (0 <= sequence_length engineer88)%Z)
    by (vm_compute; discriminate).
  assert (HH : (0 <= forecast_horizon engineer88)%Z)
    by (vm_compute; discriminate).
  split; [exact SequenceClaims.table20_well_formed |]. split; [exact Hn |].
  split; [exact SequenceClaims.table20_features |]. split; [exact HL |].
  split; [exact HH |].
  destruct (windows_are_consecutive_rows engineer88 table20 true
              SequenceClaims.table20_well_formed Hn
              SequenceClaims.table20_features HL HH (or_introl eq_refl))
    as (self' & s & X & y & T & Hc & _ & Hall).
  exists self', X, y, T. split; [exact Hc |].
  assert (HX : 0 < length X).
  { destruct (SequenceClaims.window_count engineer88 table20 true
                SequenceClaims.table20_well_formed Hn
                SequenceClaims.table20_features HL HH (or_introl eq_refl))
      as (self2 & X2 & y2 & T2 & Hc2 & HX2 & _).
    rewrite Hc in Hc2. injection Hc2 as _ <- _ _.
    change (Z.of_nat (length X) = 5%Z) in HX2. lia. }
  destruct (Hall 0 HX) as [Hlen _]. exact Hlen.
Defined.

(** The targets and the timestamps as suffixes. *)
Lemma sequences_suffix (self : WeatherFeatureEngineer)
  (df : DataFrame) (fit_scaler : bool) :
  well_formed df -> len df <> 0 -> feature_cols df <> [] ->
  (0 <= sequence_length self)%Z -> (0 <= forecast_horizon self)%Z ->
  (0 < sequence_length self + forecast_horizon self)%Z ->
  (fit_scaler = true \/
   exists s, scaler self = Some s /\
             n_features_in_ s = length (feature_cols df)) ->
  exists self' s X y T,
    create_sequences self df fit_scaler = inr (self', (X, y, T)) /\
    scaler self' = Some s /\
    let first := Z.to_nat (sequence_length self
                           + forecast_horizon self - 1) in
    y = skipn first (first_column (scaled_features s df)) /\
    (has_timestamp df = true -> T = skipn first (times (rows df))) /\
    (has_timestamp df = false -> T = []).
Proof.
  intros Hwf Hn Hk HL HH HLH Hsc.
  destruct (SequenceClaims.scaler_available self df fit_scaler Hwf Hn Hsc)
    as (s & Hs & Hw).
  pose proof (create_sequences_closed self df fit_scaler s
                Hwf Hn Hk HL HH Hs Hw) as Hc.
  cbv zeta in Hc.
  eexists. exists s. eexists. eexists. eexists.
  split; [exact Hc |]. split; [reflexivity |]. cbv zeta.
  set (c := (sequence_length self + forecast_horizon self - 1)%Z).
  assert (Hidx : window_indices (sequence_length self)
                   (forecast_horizon self) (len df)
                 = range (Z.of_nat (len df) - c)).
  { unfold window_indices, c. f_equal. lia. }
  rewrite Hidx.
  assert (Hlen : length (first_column (scaled_features s df)) = len df).
  { unfold first_column, scaled_features. rewrite !length_map.
    apply feature_values_length. }
  split; [| split].
  - rewrite <- (targets_suffix nan (first_column (scaled_features s df)) c)
      by (unfold c; lia).
    rewrite Hlen. apply map_ext_in. intros i Hi. apply range_In in Hi.
    rewrite target_value_first_column
      by (unfold target_index, c in *; lia).
    f_equal. unfold target_index, c. f_equal. lia.
  - intros ->.
    rewrite <- (targets_suffix 0%Z (times (rows df)) c) by (unfold c; lia).
    rewrite length_times. fold (len df).
    apply map_ext_in. intros i Hi. apply range_In in Hi.
    rewrite target_time_times by (unfold target_index, c in *; lia).
    f_equal. unfold target_index, c. f_equal. lia.
  - intros ->. reflexivity.
Qed.

(** X12.  On a table [create_sequences] accepts, with window length and
    horizon not both zero, the targets are the standardised target column
    from row [sequence_length + forecast_horizon - 1] on, and the
    timestamps are the table's timestamps from that row on: nothing is
    skipped or reordered. *)
Theorem targets_are_a_suffix (self : WeatherFeatureEngineer)
  (df : DataFrame) (fit_scaler : bool) :
  well_formed df -> len df <> 0 -> feature_cols df <> [] ->
  (0 <= sequence_length self)%Z -> (0 <= forecast_horizon self)%Z ->
  (0 < sequence_length self + forecast_horizon self)%Z ->
  (fit_scaler = true \/
   exists s, scaler self = Some s /\
             n_features_in_ s = length (feature_cols df)) ->
  exists self' s X y T,
    create_sequences self df fit_scaler = inr (self', (X, y, T)) /\
    scaler self' = Some s /\
    let first := Z.to_nat (sequence_length self
                           + forecast_horizon self - 1) in
    y = skipn first (first_column (scaled_features s df)) /\
    (has_timestamp df = true -> T = skipn first (times (rows df))) /\
    (has_timestamp df = false -> T = []).
Proof. exact (sequences_suffix self df fit_scaler). Qed.

Lemma targets_are_a_suffix_witness :
  well_formed table20 /\ len table20 <> 0 /\ feature_cols table20 <> [] /\
  (0 <= sequence_length engineer88)%Z /\
  (0 <= forecast_horizon engineer88)%Z /\
  (0 < sequence_length engineer88 + forecast_horizon engineer88)%Z /\
  exists self' X y T,
    create_sequences engineer88 table20 true = inr (self', (X, y, T)) /\
    T = skipn 15 (times (rows table20)).
Proof.
  assert (Hn : len table20 <> 0) by (vm_compute; lia).
  assert (HL : (0 <= sequence_length engineer88)%Z)
    by (vm_compute; discriminate).
  assert (HH : (0 <= forecast_horizon engineer88)%Z)
    by (vm_compute; discriminate).
  assert (HLH : (0 < sequence_length engineer88
                     + forecast_horizon engineer88)%Z)
    by (vm_compute; reflexivity).
  split; [exact SequenceClaims.table20_well_formed |]. split; [exact Hn |].
  split; [exact SequenceClaims.table20_features |]. split; [exact HL |].
  split; [exact HH |]. split; [exact HLH |].
  destruct (targets_are_a_suffix engineer88 table20 true
              SequenceClaims.table20_well_formed Hn
              SequenceClaims.table20_features HL HH HLH (or_introl eq_refl))
    as (self' & s & X & y & T & Hc & _ & _ & HT & _).
  exists self', X, y, T. split; [exact Hc |]. exact (HT eq_refl).
Defined.

(** X13.  Cleaning and windowing compose: on a well-formed table with
    timestamps and at least one row, whose entries are finite or NaN,
    and with a window length and a horizon that are not negative and not
    both zero, [create_sequences] accepts what [prepare_data] returns,
    and the timestamps of the targets are the distinct timestamps of the
    input in strictly ascending order, from position
    [sequence_length + forecast_horizon - 1] on. *)
Theorem cleaned_timestamps_increasing (self : WeatherFeatureEngineer)
  (df : DataFrame) :
  has_timestamp df = true -> well_formed df -> rows df <> [] ->
  (0 <= sequence_length self)%Z -> (0 <= forecast_horizon self)%Z ->
  (0 < sequence_length self + forecast_horizon self)%Z ->
  exists out self' X y T,
    prepare_data df = inr out /\
    create_sequences self out true = inr (self', (X, y, T)) /\
    T = skipn (Z.to_nat (sequence_length self + forecast_horizon self - 1))
              (times (deduplicated df)) /\
    StronglySorted Z.lt T /\
    forall t, In t T -> In t (times (rows df)).
Proof.
  intros Hts Hwf Hne HL HH HLH.
  assert (Hn : len (cleaned df) <> 0).
  { rewrite cleaned_len. intros E.
    apply (deduplicated_nonempty df Hne).
    destruct (deduplicated df); [reflexivity | discriminate]. }
  destruct (sequences_suffix self (cleaned df) true
              (cleaned_well_formed df Hwf) Hn (cleaned_has_feature df)
              HL HH HLH (or_introl eq_refl))
    as (self' & s & X & y & T & Hc & _ & _ & HT & _).
  specialize (HT (eq_trans (cleaned_has_timestamp df) Hts)).
  rewrite cleaned_times in HT.
  exists (cleaned df), self', X, y, T.
  split; [apply prepare_data_cleaned; exact Hts |].
  split; [exact Hc |]. split; [exact HT |].
  assert (Hsorted : StronglySorted Z.lt (times (deduplicated df))).
  { unfold deduplicated. apply keep_first_increasing.
    apply sort_rows_strongly_sorted. }
  split.
  - rewrite HT. apply StronglySorted_skipn. exact Hsorted.
  - intros t Ht. rewrite HT in Ht. apply In_skipn in Ht.
    unfold deduplicated in Ht. apply keep_first_times in Ht.
    destruct Ht as [Hin _]. unfold times in *.
    apply in_map_iff in Hin. destruct Hin as (r & <- & Hr).
    apply in_map.
    apply (Permutation_in r (Permutation_sym (sort_rows_perm _))).
    exact Hr.
Qed.

Lemma cleaned_timestamps_increasing_witness :
  has_timestamp ragged_table = true /\ well_formed ragged_table /\
  rows ragged_table <> [] /\
  exists out self' X y T,
    prepare_data ragged_table = inr out /\
    create_sequences (init 1 1) out true = inr (self', (X, y, T)) /\
    T = [2; 3]%Z.
Proof.
  assert (Hwf : well_formed ragged_table)
    by (unfold well_formed, ragged_table; simpl; repeat constructor).
  assert (Hne : rows ragged_table <> []) by discriminate.
  split; [reflexivity |]. split; [exact Hwf |]. split; [exact Hne |].
  destruct (cleaned_timestamps_increasing (init 1 1) ragged_table
              eq_refl Hwf Hne)
    as (out & self' & X & y & T & Hout & Hc & HT & _);
    try (vm_compute; congruence).
  exists out, self', X, y, T. split; [exact Hout |].
  split; [exact Hc | exact HT].
Defined.



(** X15.  When the table does not yet have columns named like the time
    features, [prepare_data] appends them after the table's own columns,
    so that the feature columns of the cleaned table are the table's own
    feature columns followed by the four cyclical ones: the target
    (feature 0) is the table's first own feature column when it has
    one. *)
Theorem cleaned_feature_columns (df : DataFrame) :
  has_timestamp df = true -> time_features_fresh df ->
  exists out,
    prepare_data df = inr out /\
    columns out
    = columns df
      ++ [("hour", int32); ("day_of_year", int32); ("hour_sin", float64);
          ("hour_cos", float64); ("day_sin", float64);
          ("day_cos", float64)]%string /\
    feature_cols out = feature_cols df ++ cyclical_names.
Proof.
  intros Hts Hfresh. exists (cleaned df).
  split; [apply prepare_data_cleaned; exact Hts |].
  assert (Hcols : columns (cleaned df)
                  = columns df
                    ++ [("hour", int32); ("day_of_year", int32);
                        ("hour_sin", float64); ("hour_cos", float64);
                        ("day_sin", float64);
                        ("day_cos", float64)]%string).
  { rewrite cleaned_columns.
    apply (add_time_features_columns (with_rows df (deduplicated df))).
    exact Hfresh. }
  split; [exact Hcols |].
  unfold feature_cols, feature_mask. rewrite Hcols, select_app, map_app.
  reflexivity.
Qed.

Lemma cleaned_feature_columns_witness :
  has_timestamp table20 = true /\ time_features_fresh table20 /\
  exists out,
    prepare_data table20 = inr out /\
    feature_cols out
    = ["temperature"; "hour_sin"; "hour_cos"; "day_sin";
       "day_cos"]%string.
Proof.
  assert (Hfresh : time_features_fresh table20)
    by (unfold time_features_fresh, time_feature_names;
        repeat constructor).
  split; [reflexivity |]. split; [exact Hfresh |].
  destruct (cleaned_feature_columns table20 eq_refl Hfresh)
    as (out & Hout & _ & Hf).
  exists out. split; [exact Hout | exact Hf].
Defined.

End SequenceExtras.

(** ** feature_engineering.py: the command line entry point *)

Module MainFacts.

Import StandardScaler ScalerFacts SequenceFacts FeatureEngineering.
Import PrepareFacts PrepareNotions PrepareMore SequenceNotions SequenceMore.
Import FeatureMain.

(** *** Slices at a split index *)


Lemma slice_to_firstn {A : Type} (l : list A) (k : Z) :
  slice l 0 k = firstn (Z.to_nat (clamp (Z.of_nat (length l)) k)) l.
Proof.
  unfold slice.
  assert (E : clamp (Z.of_nat (length l)) 0 = 0%Z).
  { unfold clamp. cbn [Z.ltb Z.compare]. lia. }
  rewrite E. cbn [Z.to_nat skipn]. rewrite Z.sub_0_r. reflexivity.
Qed.

Lemma slice_partition {A : Type} (l : list A) (k : Z) :
  slice l 0 k ++ slice_from l k = l.
Proof.
  rewrite slice_to_firstn. unfold slice_from. apply firstn_skipn.
Qed.



(** *** Truncation *)



(** *** The run of [main] on a table with timestamps *)

Lemma In_firstn {A : Type} (x : A) (l : list A) :
  forall n, In x (firstn n l) -> In x l.
Proof.
  induction l as [| a t IH]; intros n; destruct n; simpl; auto.
  - contradiction.
  - intros [H | H]; [left; exact H | right; apply (IH n); exact H].
Qed.

Lemma In_slice {A : Type} (x : A) (l : list A) (a b : Z) :
  In x (slice l a b) -> In x l.
Proof.
  unfold slice. intros H. apply In_firstn in H.
  apply In_skipn in H. exact H.
Qed.

(** What [main] computes on a table with a timestamp column and at least
    one row. *)
Lemma main_closed (df : DataFrame) (args : Args.t) :
  has_timestamp df = true -> well_formed df -> rows df <> [] ->
  (0 <= Args.sequence_length args)%Z ->
  (0 <= Args.forecast_horizon args)%Z ->
  let L := Args.sequence_length args in
  let H := Args.forecast_horizon args in
  let out := cleaned df in
  let s := {| stats := fitted_stats (feature_values out) |} in
  let fs := scaled_features s out in
  let idxs := window_indices L H (len out) in
  let X := map (fun i => slice fs i (i + L)) idxs in
  let y := map (fun i => target_value fs (target_index L H i)) idxs in
  let T := map (fun i => target_time out (target_index L H i)) idxs in
  create_sequences (init L H) out true
  = inr ({| sequence_length := L;
            forecast_horizon := H;
            scaler := Some s;
            feature_columns := Some (feature_cols out) |}, (X, y, T)) /\
  n_features_in_ s = length (feature_cols out) /\
  main (Some df) args
  = if Nat.eqb (length X) 0 then inr (1%Z, None)
    else
      split_idx <-
        py_int (int_times (length X) (Args.train_split args)) ;;
      ret (0%Z,
           Some {| X_train_npy := slice X 0 split_idx;
                   y_train_npy := slice y 0 split_idx;
                   X_val_npy := slice_from X split_idx;
                   y_val_npy := slice_from y split_idx;
                   scaler_pkl := Some s;
                   metadata_json :=
                     {| Metadata.sequence_length := L;
                        Metadata.forecast_horizon := H;
                        Metadata.n_features := shape2 X;
                        Metadata.feature_columns :=
                          Some (feature_cols out);
                        Metadata.train_samples :=
                          length (slice X 0 split_idx);
                        Metadata.val_samples :=
                          length (slice_from X split_idx) |} |}).
Proof.
  intros Hts Hwf Hne HL HH L H out s fs idxs X y T.
  assert (Hn : len out <> 0).
  { unfold out. rewrite cleaned_len. intros E.
    apply (deduplicated_nonempty df Hne).
    destruct (deduplicated df); [reflexivity | discriminate]. }
  assert (Hw : n_features_in_ s = length (feature_cols out)).
  { apply (scaler_used_width (init L H) out s);
      [apply cleaned_well_formed; exact Hwf | exact Hn | reflexivity]. }
  pose proof (create_sequences_closed (init L H) out true s
                (cleaned_well_formed df Hwf) Hn (cleaned_has_feature df)
                HL HH eq_refl Hw) as Hc.
  cbv zeta in Hc. cbn [sequence_length forecast_horizon init] in Hc.
  assert (Ets : has_timestamp out = true)
    by (unfold out; rewrite cleaned_has_timestamp; exact Hts).
  rewrite Ets in Hc.
  split; [exact Hc |]. split; [exact Hw |].
  unfold main. rewrite (prepare_data_cleaned df Hts).
  cbn [bind]. fold L H out. rewrite Hc. cbn [bind fst snd].
  reflexivity.
Qed.

Lemma window_total (df : DataFrame) (L H : Z) :
  length (map (fun i => slice (scaled_features
                                 {| stats := fitted_stats
                                      (feature_values (cleaned df)) |}
                                 (cleaned df)) i (i + L))
              (window_indices L H (len (cleaned df))))
  = Z.to_nat (Z.of_nat (timesteps df) - L - H + 1).
Proof.
  rewrite length_map. unfold window_indices. rewrite range_length.
  rewrite cleaned_len. reflexivity.
Qed.

End MainFacts.

Module MainExtras.

Import StandardScaler ScalerFacts SequenceFacts FeatureEngineering.
Import PrepareFacts PrepareNotions PrepareMore SequenceNotions SequenceMore.
Import FeatureMain MainFacts Samples MoreSamples.

Lemma table20_timesteps : timesteps table20 = 20.
Proof. vm_compute. reflexivity. Qed.

Lemma table20_rows : rows table20 <> [].
Proof. discriminate. Qed.

Lemma default_L : (0 <= Args.sequence_length default_args)%Z.
Proof. discriminate. Qed.

Lemma default_H : (0 <= Args.forecast_horizon default_args)%Z.
Proof. discriminate. Qed.

Lemma table20_enough :
  (Args.sequence_length default_args + Args.forecast_horizon default_args
   <= Z.of_nat (timesteps table20))%Z.
Proof. rewrite table20_timesteps. discriminate. Qed.

(** The run of [main] when there are enough timesteps and the split is a
    number. *)
Lemma main_saves (df : DataFrame) (args : Args.t) (ts : R) :
  has_timestamp df = true -> well_formed df -> rows df <> [] ->
  (0 <= Args.sequence_length args)%Z ->
  (0 <= Args.forecast_horizon args)%Z ->
  (Args.sequence_length args + Args.forecast_horizon args
   <= Z.of_nat (timesteps df))%Z ->
  Args.train_split args = Train.Finite ts ->
  exists self' s X y T,
    create_sequences
      (init (Args.sequence_length args) (Args.forecast_horizon args))
      (cleaned df) true
    = inr (self', (X, y, T)) /\
    scaler self' = Some s /\
    feature_columns self' = Some (feature_cols (cleaned df)) /\
    n_features_in_ s = length (feature_cols (cleaned df)) /\
    Z.of_nat (length X)
    = (Z.of_nat (timesteps df) - Args.sequence_length args
       - Args.forecast_horizon args + 1)%Z /\
    length y = length X /\
    Forall (fun w =>
              length w = Z.to_nat (Args.sequence_length args) /\
              Forall (fun r => length r = n_features_in_ s) w) X /\
    let split_idx := trunc (INR (length X) * ts) in
    main (Some df) args
    = inr (0%Z,
           Some {| X_train_npy := slice X 0 split_idx;
                   y_train_npy := slice y 0 split_idx;
                   X_val_npy := slice_from X split_idx;
                   y_val_npy := slice_from y split_idx;
                   scaler_pkl := Some s;
                   metadata_json :=
                     {| Metadata.sequence_length :=
                          Args.sequence_length args;
                        Metadata.forecast_horizon :=
                          Args.forecast_horizon args;
                        Metadata.n_features := shape2 X;
                        Metadata.feature_columns :=
                          Some (feature_cols (cleaned df));
                        Metadata.train_samples :=
                          length (slice X 0 split_idx);
                        Metadata.val_samples :=
                          length (slice_from X split_idx) |} |}).
Proof.
  intros Hts Hwf Hne HL HH Hen Hsplit.
  destruct (main_closed df args Hts Hwf Hne HL HH) as (Hc & Hw & Hm).
  set (L := Args.sequence_length args) in *.
  set (H := Args.forecast_horizon args) in *.
  set (s := {| stats := fitted_stats (feature_values (cleaned df)) |}) in *.
  set (fs := scaled_features s (cleaned df)) in *.
  set (idxs := window_indices L H (len (cleaned df))) in *.
  set (X := map (fun i => slice fs i (i + L)%Z) idxs) in *.
  assert (HX : length X = Z.to_nat (Z.of_nat (timesteps df) - L - H + 1))
    by apply window_total.
  eexists. exists s, X. eexists. eexists.
  split; [exact Hc |]. split; [reflexivity |]. split; [reflexivity |].
  split; [exact Hw |]. split; [apply (eq_trans (f_equal Z.of_nat HX)); apply Z2Nat.id;
                            clear - Hen; lia |].
  split; [unfold X; rewrite !length_map; reflexivity |].
  split.
  - unfold X. rewrite Forall_map. apply Forall_forall. intros i Hi.
    unfold idxs, window_indices in Hi. apply range_In in Hi.
    assert (Hlen : length fs = len (cleaned df)).
    { unfold fs, scaled_features. rewrite length_map.
      apply feature_values_length. }
    rewrite cleaned_len in Hi, Hlen. fold (timesteps df) in Hi, Hlen.
    split.
    + rewrite slice_inside_length by lia. f_equal. lia.
    + apply Forall_forall. intros r Hr. apply In_slice in Hr.
      unfold fs, scaled_features in Hr. apply in_map_iff in Hr.
      destruct Hr as (r0 & <- & Hr0).
      pose proof (feature_values_width (cleaned df)
                    (cleaned_well_formed df Hwf)) as Hwd.
      rewrite Forall_forall in Hwd. specialize (Hwd r0 Hr0).
      rewrite map_row_length; unfold n_features_in_ in *; lia.
  - cbv zeta. rewrite Hm.
    destruct (Nat.eqb_spec (length X) 0) as [E | _]; [lia |].
    rewrite Hsplit. reflexivity.
Qed.







(** X19.  What [main] writes fits together: the scaler in [scaler.pkl] is
    fitted on as many features as [n_features] of the metadata says, which
    is the number of names in [feature_columns]; the metadata repeats the
    two arguments; and every saved window, training or validation, has
    [sequence_length] rows of [n_features] entries. *)
Theorem main_metadata_consistent (df : DataFrame) (args : Args.t) (ts : R) :
  has_timestamp df = true -> well_formed df -> rows df <> [] ->
  (0 < Args.sequence_length args)%Z ->
  (0 <= Args.forecast_horizon args)%Z ->
  (Args.sequence_length args + Args.forecast_horizon args
   <= Z.of_nat (timesteps df))%Z ->
  Args.train_split args = Train.Finite ts ->
  exists saved s names,
    main (Some df) args = inr (0%Z, Some saved) /\
    scaler_pkl saved = Some s /\
    Metadata.feature_columns (metadata_json saved) = Some names /\
    Metadata.n_features (metadata_json saved) = n_features_in_ s /\
    Metadata.n_features (metadata_json saved) = length names /\
    Metadata.n_features (metadata_json saved) <> 0 /\
    Metadata.sequence_length (metadata_json saved)
    = Args.sequence_length args /\
    Metadata.forecast_horizon (metadata_json saved)
    = Args.forecast_horizon args /\
    Forall (fun w =>
              length w = Z.to_nat (Args.sequence_length args) /\
              Forall (fun r =>
                        length r
                        = Metadata.n_features (metadata_json saved)) w)
           (X_train_npy saved ++ X_val_npy saved).
Proof.
  intros Hts Hwf Hne HL HH Hen Hsplit.
  assert (HL0 : (0 <= Args.sequence_length args)%Z) by lia.
  destruct (main_saves df args ts Hts Hwf Hne HL0 HH Hen Hsplit)
    as (self' & s & X & y & T & _ & _ & _ & Hw & HX & _ & Hshape & Hm).
  cbv zeta in Hm.
  eexists. exists s, (feature_cols (cleaned df)).
  split; [exact Hm |].
  cbn [X_train_npy X_val_npy scaler_pkl metadata_json
       Metadata.n_features Metadata.feature_columns
       Metadata.sequence_length Metadata.forecast_horizon].
  assert (Hs2 : shape2 X = n_features_in_ s).
  { destruct X as [| w X']; [simpl in HX; lia |].
    inversion Hshape as [| w' X'' [Hlw Hrw] _]; subst.
    destruct w as [| r w]; [simpl in Hlw; lia |].
    inversion Hrw; subst. assumption. }
  split; [reflexivity |]. split; [reflexivity |].
  split; [exact Hs2 |]. split; [rewrite Hs2; exact Hw |].
  split.
  { rewrite Hs2, Hw. pose proof (cleaned_has_feature df) as Hf.
    destruct (feature_cols (cleaned df)); [contradiction | discriminate]. }
  split; [reflexivity |]. split; [reflexivity |].
  rewrite slice_partition, Hs2. exact Hshape.
Qed.

Lemma main_metadata_consistent_witness :
  has_timestamp table20 = true /\ well_formed table20 /\
  rows table20 <> [] /\
  (0 < Args.sequence_length default_args)%Z /\
  (0 <= Args.forecast_horizon default_args)%Z /\
  (Args.sequence_length default_args + Args.forecast_horizon default_args
   <= Z.of_nat (timesteps table20))%Z /\
  Args.train_split default_args = Train.Finite (8 / 10)%R /\
  exists saved s,
    main (Some table20) default_args = inr (0%Z, Some saved) /\
    scaler_pkl saved = Some s /\
    Metadata.n_features (metadata_json saved) = n_features_in_ s /\
    Metadata.sequence_length (metadata_json saved) = 8%Z.
Proof.
  assert (HL : (0 < Args.sequence_length default_args)%Z) by reflexivity.
  split; [reflexivity |].
  split; [exact SequenceClaims.table20_well_formed |].
  split; [exact table20_rows |].
  split; [exact HL |]. split; [exact default_H |].
  split; [exact table20_enough |]. split; [reflexivity |].
  destruct (main_metadata_consistent table20 default_args (8 / 10)%R
              eq_refl SequenceClaims.table20_well_formed table20_rows
              HL default_H table20_enough eq_refl)
    as (saved & s & names & Hm & Hs & _ & Hn & _ & _ & HLm & _).
  exists saved, s. split; [exact Hm |]. split; [exact Hs |].
  split; [exact Hn | exact HLm].
Defined.

(** X20.  Three inputs end [main] with an exception instead of an exit
    code, and nothing is written: a table without a timestamp column
    ([KeyError], from the removal of duplicates), a table with a timestamp
    column and no row ([ValueError], from fitting the scaler: the message
    on too little data is not reached), and a [--train-split] that is NaN
    on a table with enough timesteps ([ValueError], from [int]). *)
Theorem main_uncaught_errors (df : DataFrame) (args : Args.t) :
  (has_timestamp df = false -> main (Some df) args = inl KeyError) /\
  (has_timestamp df = true -> rows df = [] ->
   main (Some df) args = inl ValueError) /\
  (has_timestamp df = true -> well_formed df -> rows df <> [] ->
   (0 <= Args.sequence_length args)%Z ->
   (0 <= Args.forecast_horizon args)%Z ->
   (Args.sequence_length args + Args.forecast_horizon args
    <= Z.of_nat (timesteps df))%Z ->
   Args.train_split args = Train.NaN ->
   main (Some df) args = inl ValueError).
Proof.
  split; [| split].
  - intros Hts. unfold main.
    rewrite (prepare_data_no_timestamp df Hts). reflexivity.
  - intros Hts Hrows. unfold main.
    rewrite (prepare_data_cleaned df Hts). cbn [bind].
    assert (E : feature_values (cleaned df) = []).
    { pose proof (feature_values_length (cleaned df)) as Hl.
      rewrite cleaned_len in Hl. unfold deduplicated in Hl.
      rewrite Hrows in Hl. simpl in Hl.
      destruct (feature_values (cleaned df));
        [reflexivity | discriminate]. }
    unfold create_sequences. rewrite E. reflexivity.
  - intros Hts Hwf Hne HL HH Hen Hnan.
    destruct (main_closed df args Hts Hwf Hne HL HH) as (_ & _ & Hm).
    rewrite Hm, window_total.
    destruct (Nat.eqb_spec
                (Z.to_nat (Z.of_nat (timesteps df)
                           - Args.sequence_length args
                           - Args.forecast_horizon args + 1)) 0)
      as [E | _]; [lia |].
    rewrite Hnan. reflexivity.
Qed.

Lemma main_uncaught_errors_witness :
  has_timestamp untimed20 = false /\
  main (Some untimed20) default_args = inl KeyError /\
  has_timestamp empty_table = true /\ rows empty_table = [] /\
  main (Some empty_table) default_args = inl ValueError.
Proof.
  split; [reflexivity |].
  split; [exact (proj1 (main_uncaught_errors untimed20
                          default_args) eq_refl) |].
  split; [reflexivity |]. split; [reflexivity |].
  exact (proj1 (proj2 (main_uncaught_errors empty_table default_args))
           eq_refl eq_refl).
Defined.

End MainExtras.

(** ** The endpoint *)

Module ApiMore.

Import StandardScaler ScalerFacts InferenceFacts SequenceFacts PrepareFacts.
Import FeatureEngineering Api ApiFacts ApiNotions.
Import PrepareNotions PrepareMore SequenceNotions SequenceMore.

Lemma in_supported_area_spec (lat lon : R) :
  in_supported_area lat lon = true <-> inside_area lat lon.
Proof.
  unfold in_supported_area, inside_area.
  destruct (Rlt_dec 33 lat), (Rlt_dec lat (345 / 10)),
    (Rlt_dec (-85) lon), (Rlt_dec lon (-835 / 10));
    cbn [andb]; split; intros H;
    try discriminate; try reflexivity; try tauto.
Qed.

Lemma predict_fields (p : Inference.WeatherPredictor) (w : ndarray2)
  (res : Inference.Prediction) :
  Inference.predict p w = inr res ->
  Inference.forecast_hours res
  = (Inference.md_forecast_horizon (Inference.metadata p) * 3)%Z /\
  Inference.confidence res = (85 / 100)%R /\
  Inference.temperature_fahrenheit res
  = Inference.to_fahrenheit (Inference.temperature_celsius res).
Proof.
  unfold Inference.predict. intros H.
  repeat (apply bind_inr in H; destruct H as (? & _ & H)).
  unfold ret in H. injection H as <-. auto.
Qed.

Lemma forecast_body_inr (lat lon : R) (p : Inference.WeatherPredictor)
  (df : DataFrame) (r : Response) :
  forecast_body lat lon p df = inr r ->
  has_timestamp df = true /\
  exists js res current jt jh,
    positions features (add_time_features df) = inr js /\
    Inference.predict p
      (map (take_cells js) (slice_from (rows (add_time_features df)) (-4)))
    = inr res /\
    index (rows (add_time_features df)) (-1) = inr current /\
    column_position "temperature" (add_time_features df) = inr jt /\
    column_position "humidity" (add_time_features df) = inr jh /\
    r = Forecast lat lon
          (Inference.to_fahrenheit (nth jt (row_cells current) nan))
          (nth jh (row_cells current) nan)
          (row_time current)
          (Inference.temperature_fahrenheit res)
          (Inference.forecast_hours res)
          (row_time current
           + Inference.forecast_hours res * ns_per_hour)%Z
          (Inference.confidence res).
Proof.
  unfold forecast_body, prepare_features.
  destruct (has_timestamp df); [| discriminate].
  cbn [bind ret]. intros H. split; [reflexivity |].
  unfold recent_data in H.
  apply bind_inr in H. destruct H as (w & Hw & H).
  apply bind_inr in Hw. destruct Hw as (js & Hjs & Hw).
  injection Hw as <-.
  apply bind_inr in H. destruct H as (res & Hres & H).
  apply bind_inr in H. destruct H as (current & Hcur & H).
  apply bind_inr in H. destruct H as (jt & Hjt & H).
  apply bind_inr in H. destruct H as (jh & Hjh & H).
  injection H as <-.
  exists js, res, current, jt, jh. auto 10.
Qed.

(** *** The last row *)




(** *** Columns other than the assigned one *)

Lemma position_app_other (n name : string) (dt : dtype)
  (cols : list (string * dtype)) :
  n <> name -> position n (cols ++ [(name, dt)]) = position n cols.
Proof.
  intros Hn. induction cols as [| c t IH]; simpl.
  - destruct (String.eqb_spec n name); [contradiction | reflexivity].
  - rewrite IH. reflexivity.
Qed.

Lemma position_set_nth_other (n name : string) (dt : dtype)
  (cols : list (string * dtype)) :
  n <> name ->
  forall j, position name cols = Some j ->
            position n (set_nth j (name, dt) cols) = position n cols.
Proof.
  intros Hn. induction cols as [| c t IH]; intros j; simpl;
    [discriminate |].
  destruct (String.eqb_spec name (fst c)) as [E | NE].
  - intros [= <-]. simpl.
    destruct (String.eqb_spec n name); [contradiction |].
    destruct (String.eqb_spec n (fst c)); [congruence | reflexivity].
  - destruct (position name t) as [k |]; simpl; [| discriminate].
    intros [= <-]. simpl. rewrite (IH k eq_refl). reflexivity.
Qed.

Lemma set_column_position_other (n name : string) (dt : dtype)
  (f : Row -> float) (df : DataFrame) :
  n <> name ->
  position n (columns (set_column name dt f df)) = position n (columns df).
Proof.
  intros Hn. unfold set_column.
  destruct (position name (columns df)) as [j |] eqn:E; cbn [columns].
  - apply position_set_nth_other; assumption.
  - apply position_app_other. exact Hn.
Qed.

Lemma position_set_nth_self (name : string) (dt : dtype)
  (cols : list (string * dtype)) :
  forall j, position name cols = Some j ->
            position name (set_nth j (name, dt) cols) = Some j.
Proof.
  induction cols as [| c t IH]; intros j; simpl; [discriminate |].
  destruct (String.eqb_spec name (fst c)) as [E | NE].
  - intros [= <-]. simpl. rewrite String.eqb_refl. reflexivity.
  - destruct (position name t) as [k |]; simpl; [| discriminate].
    intros [= <-]. simpl.
    destruct (String.eqb_spec name (fst c)); [contradiction |].
    rewrite (IH k eq_refl). reflexivity.
Qed.

Lemma position_app_self (name : string) (dt : dtype)
  (cols : list (string * dtype)) :
  position name cols = None ->
  position name (cols ++ [(name, dt)]) = Some (length cols).
Proof.
  induction cols as [| c t IH]; simpl.
  - rewrite String.eqb_refl. reflexivity.
  - destruct (String.eqb name (fst c)); [discriminate |].
    destruct (position name t); [discriminate |].
    intros _. rewrite IH by reflexivity. reflexivity.
Qed.

Lemma set_column_position_self (name : string) (dt : dtype)
  (f : Row -> float) (df : DataFrame) :
  exists j, position name (columns (set_column name dt f df)) = Some j.
Proof.
  unfold set_column.
  destruct (position name (columns df)) as [j |] eqn:E; cbn [columns].
  - exists j. apply position_set_nth_self. exact E.
  - eexists. apply position_app_self. exact E.
Qed.




Lemma add_time_features_position_other (n : string) (df : DataFrame) :
  ~ In n assigned_names ->
  position n (columns (add_time_features df)) = position n (columns df).
Proof.
  intros Hn. unfold add_time_features.
  rewrite !set_column_position_other;
    try (intros ->; apply Hn; unfold assigned_names; simpl; tauto).
  reflexivity.
Qed.



Lemma add_time_features_assigned (n : string) (df : DataFrame) :
  In n assigned_names ->
  exists j, position n (columns (add_time_features df)) = Some j.
Proof.
  unfold assigned_names, add_time_features.
  intros [<- | [<- | [<- | [<- | [<- | [<- | []]]]]]];
    rewrite ?set_column_position_other by discriminate;
    apply set_column_position_self.
Qed.

(** *** The window of the endpoint *)

Lemma positions_length (names : list string) (df : DataFrame) :
  forall js, positions names df = inr js -> length js = length names.
Proof.
  induction names as [| n t IH]; intros js; simpl.
  - intros [= <-]. reflexivity.
  - intros H. apply bind_inr in H. destruct H as (j & _ & H).
    apply bind_inr in H. destruct H as (js' & Hjs & H).
    injection H as <-. simpl. rewrite (IH js' Hjs). reflexivity.
Qed.

Lemma column_position_some (n : string) (df : DataFrame) (j : nat) :
  position n (columns df) = Some j -> column_position n df = inr j.
Proof. intros H. unfold column_position. rewrite H. reflexivity. Qed.

Lemma column_position_none (n : string) (df : DataFrame) :
  position n (columns df) = None -> column_position n df = inl KeyError.
Proof. intros H. unfold column_position. rewrite H. reflexivity. Qed.

Lemma column_position_inr (n : string) (df : DataFrame) (j : nat) :
  column_position n df = inr j -> position n (columns df) = Some j.
Proof.
  unfold column_position.
  destruct (position n (columns df)); [| discriminate].
  intros [= <-]. reflexivity.
Qed.

Lemma temperature_not_assigned : ~ In "temperature"%string assigned_names.
Proof.
  unfold assigned_names. simpl.
  intros [H | [H | [H | [H | [H | [H | []]]]]]]; discriminate.
Qed.

Lemma humidity_not_assigned : ~ In "humidity"%string assigned_names.
Proof.
  unfold assigned_names. simpl.
  intros [H | [H | [H | [H | [H | [H | []]]]]]]; discriminate.
Qed.

(** With both raw columns in the table all six features are found. *)
Lemma positions_features_found (df : DataFrame) (jt jh : nat) :
  position "temperature" (columns df) = Some jt ->
  position "humidity" (columns df) = Some jh ->
  exists js,
    positions features (add_time_features df) = inr (jt :: jh :: js) /\
    length js = 4.
Proof.
  intros Hjt Hjh.
  rewrite <- (add_time_features_position_other _ df
                temperature_not_assigned) in Hjt.
  rewrite <- (add_time_features_position_other _ df
                humidity_not_assigned) in Hjh.
  destruct (add_time_features_assigned "hour_sin" df) as [j1 H1];
    [unfold assigned_names; simpl; tauto |].
  destruct (add_time_features_assigned "hour_cos" df) as [j2 H2];
    [unfold assigned_names; simpl; tauto |].
  destruct (add_time_features_assigned "day_sin" df) as [j3 H3];
    [unfold assigned_names; simpl; tauto |].
  destruct (add_time_features_assigned "day_cos" df) as [j4 H4];
    [unfold assigned_names; simpl; tauto |].
  exists [j1; j2; j3; j4]. split; [| reflexivity].
  unfold features. cbn [positions].
  rewrite (column_position_some _ _ _ Hjt),
    (column_position_some _ _ _ Hjh), (column_position_some _ _ _ H1),
    (column_position_some _ _ _ H2), (column_position_some _ _ _ H3),
    (column_position_some _ _ _ H4).
  reflexivity.
Qed.

(** Without one of them the selection raises [KeyError]. *)
Lemma positions_features_missing (df : DataFrame) :
  position "temperature" (columns df) = None \/
  position "humidity" (columns df) = None ->
  positions features (add_time_features df) = inl KeyError.
Proof.
  intros H. unfold features. cbn [positions].
  destruct (position "temperature" (columns df)) as [jt |] eqn:Et.
  - destruct H as [H | H]; [discriminate |].
    rewrite <- (add_time_features_position_other _ df
                  temperature_not_assigned) in Et.
    rewrite <- (add_time_features_position_other _ df
                  humidity_not_assigned) in H.
    rewrite (column_position_some _ _ _ Et). cbn [bind].
    rewrite (column_position_none _ _ H). reflexivity.
  - rewrite <- (add_time_features_position_other _ df
                  temperature_not_assigned) in Et.
    rewrite (column_position_none _ _ Et). reflexivity.
Qed.

Lemma shape1_take_cells (js : list nat) (l : list Row) :
  l <> [] -> shape1 (map (take_cells js) l) = length js.
Proof.
  destruct l as [| r t]; [contradiction |]. intros _.
  simpl. unfold take_cells. apply length_map.
Qed.


Lemma recent_rows_empty (l : list Row) :
  l = [] -> slice_from l (-4) = [].
Proof. intros ->. reflexivity. Qed.

(** The window has six columns whenever it has a row. *)
Lemma window_rejected (s : StandardScaler.t) (js : list nat)
  (l : list Row) :
  length js = 6 -> n_features_in_ s <> 6 ->
  transform (Some s) (map (take_cells js) l) = inl ValueError.
Proof.
  intros Hjs Hs. destruct l as [| r t]; [reflexivity |].
  apply transform_width_mismatch.
  rewrite shape1_take_cells by discriminate. lia.
Qed.


(** The [try] block once the two raw columns have been found. *)
Lemma forecast_body_found (lat lon : R) (p : Inference.WeatherPredictor)
  (df : DataFrame) (jt jh : nat) :
  has_timestamp df = true ->
  position "temperature" (columns df) = Some jt ->
  position "humidity" (columns df) = Some jh ->
  exists js,
    length js = 4 /\
    positions features (add_time_features df) = inr (jt :: jh :: js) /\
    forecast_body lat lon p df
    = (result <-
         Inference.predict p
           (map (take_cells (jt :: jh :: js))
              (slice_from (rows (add_time_features df)) (-4))) ;;
       current <- index (rows (add_time_features df)) (-1) ;;
       ret (Forecast lat lon
              (Inference.to_fahrenheit (nth jt (row_cells current) nan))
              (nth jh (row_cells current) nan)
              (row_time current)
              (Inference.temperature_fahrenheit result)
              (Inference.forecast_hours result)
              (row_time current
               + Inference.forecast_hours result * ns_per_hour)%Z
              (Inference.confidence result))).
Proof.
  intros Hts Hjt Hjh.
  destruct (positions_features_found df jt jh Hjt Hjh) as (js & Hjs & Hl).
  exists js. split; [exact Hl |]. split; [exact Hjs |].
  unfold forecast_body, prepare_features. rewrite Hts. cbn [bind ret].
  unfold recent_data. rewrite Hjs. cbn [bind ret].
  destruct (Inference.predict p _) as [e | res]; [reflexivity |].
  cbn [bind].
  destruct (index (rows (add_time_features df)) (-1)) as [e | current];
    [reflexivity |].
  cbn [bind].
  rewrite <- (add_time_features_position_other _ df
                temperature_not_assigned) in Hjt.
  rewrite <- (add_time_features_position_other _ df
                humidity_not_assigned) in Hjh.
  rewrite (column_position_some _ _ _ Hjt). cbn [bind].
  rewrite (column_position_some _ _ _ Hjh). reflexivity.
Qed.

Lemma predict_transform_fails (p : Inference.WeatherPredictor)
  (w : ndarray2) (e : exn) :
  transform (Inference.scaler p) w = inl e -> Inference.predict p w = inl e.
Proof. intros H. unfold Inference.predict. rewrite H. reflexivity. Qed.


(** A request inside the area with a loaded predictor is answered with a
    failed prediction or with a forecast. *)
Lemma get_forecast_inside (lat lon : R) (hours : Z)
  (p : Inference.WeatherPredictor) (df : DataFrame) :
  inside_area lat lon ->
  get_forecast lat lon hours (Some p) df
  = match forecast_body lat lon p df with
    | inr response => response
    | inl e => PredictionFailed e
    end.
Proof.
  intros H. apply get_forecast_in_area.
  apply in_supported_area_spec. exact H.
Qed.

(** The table's own feature columns and the four cyclical ones. *)
Lemma cleaned_feature_count (df : DataFrame) :
  time_features_fresh df ->
  length (feature_cols (cleaned df)) = length (feature_cols df) + 4.
Proof.
  intros Hfresh. unfold feature_cols, feature_mask.
  rewrite cleaned_columns.
  rewrite (add_time_features_columns (with_rows df (deduplicated df)))
    by exact Hfresh.
  rewrite select_app, map_app, length_app. reflexivity.
Qed.

(** A predictor whose scaler was not fitted on six features never
    answers with a forecast. *)
Lemma mismatch_never_answers (lat lon : R) (hours : Z)
  (p : Inference.WeatherPredictor) (df : DataFrame) (s : StandardScaler.t) :
  inside_area lat lon -> Inference.scaler p = Some s ->
  n_features_in_ s <> 6 ->
  exists e, get_forecast lat lon hours (Some p) df = PredictionFailed e.
Proof.
  intros Hin Hs Hk. rewrite get_forecast_inside by exact Hin.
  destruct (has_timestamp df) eqn:Hts.
  - destruct (position "temperature" (columns df)) as [jt |] eqn:Et.
    + destruct (position "humidity" (columns df)) as [jh |] eqn:Eh.
      * destruct (forecast_body_found lat lon p df jt jh Hts Et Eh)
          as (js & Hl & _ & Hb).
        rewrite Hb, (predict_transform_fails _ _ ValueError).
        -- exists ValueError. reflexivity.
        -- rewrite Hs. apply window_rejected; [simpl; lia | exact Hk].
      * exists KeyError. unfold forecast_body, prepare_features.
        rewrite Hts. cbn [bind ret]. unfold recent_data.
        rewrite positions_features_missing by (right; exact Eh).
        reflexivity.
    + exists KeyError. unfold forecast_body, prepare_features.
      rewrite Hts. cbn [bind ret]. unfold recent_data.
      rewrite positions_features_missing by (left; exact Et).
      reflexivity.
  - exists KeyError. unfold forecast_body, prepare_features.
    rewrite Hts. reflexivity.
Qed.

End ApiMore.

Module ApiExtras.

Import StandardScaler ScalerFacts InferenceFacts SequenceFacts PrepareFacts.
Import FeatureEngineering Api ApiFacts ApiNotions ApiMore.
Import PrepareNotions PrepareMore SequenceNotions SequenceMore.
Import FeatureMain MainFacts Samples MoreSamples.

(** X21.  The two gates of [/forecast]: the answer is "Location not
    supported" exactly when the point is not strictly inside the box
    33 < lat < 34.5, -85 < lon < -83.5 (a point on the border is
    refused, and the location is checked before the model), and it is
    "Model not loaded" exactly when the point is inside and no predictor
    was loaded at startup. *)
Theorem forecast_gates (lat lon : R) (hours : Z)
  (predictor : option Inference.WeatherPredictor) (df : DataFrame) :
  (get_forecast lat lon hours predictor df = LocationNotSupported
   <-> ~ inside_area lat lon) /\
  (get_forecast lat lon hours predictor df = ModelNotLoaded
   <-> inside_area lat lon /\ predictor = None).
Proof.
  pose proof (in_supported_area_spec lat lon) as Hspec.
  unfold get_forecast.
  destruct (in_supported_area lat lon) eqn:E; cbn [negb].
  - assert (Hin : inside_area lat lon) by (apply Hspec; reflexivity).
    destruct predictor as [p |].
    + destruct (forecast_body lat lon p df) as [e | r] eqn:Hb.
      * split; split; intros H; try discriminate;
          [contradiction | destruct H; discriminate].
      * apply forecast_body_inr in Hb.
        destruct Hb as (_ & js & res & cur & jt & jh & _ & _ & _ & _ & _
                        & ->).
        split; split; intros H; try discriminate;
          [contradiction | destruct H; discriminate].
    + split; split; intros H; try discriminate; try contradiction; auto.
  - assert (Hout : ~ inside_area lat lon).
    { intros H. apply Hspec in H. discriminate. }
    split; split; intros H; try discriminate; auto.
    destruct H; contradiction.
Qed.

(** X22.  Inside the area and with a predictor loaded, a stored table
    without a timestamp column, or without a temperature or a humidity
    column, is answered with "Prediction failed" carrying the [KeyError]:
    nothing is predicted. *)
Theorem forecast_missing_columns (lat lon : R) (hours : Z)
  (p : Inference.WeatherPredictor) (df : DataFrame) :
  inside_area lat lon ->
  has_timestamp df = false \/
  position "temperature" (columns df) = None \/
  position "humidity" (columns df) = None ->
  get_forecast lat lon hours (Some p) df = PredictionFailed KeyError.
Proof.
  intros Hin H. rewrite get_forecast_inside by exact Hin.
  unfold forecast_body, prepare_features.
  destruct (has_timestamp df) eqn:Hts; [| reflexivity].
  destruct H as [H | H]; [discriminate |].
  cbn [bind ret]. unfold recent_data.
  rewrite positions_features_missing by exact H. reflexivity.
Qed.

Lemma forecast_missing_columns_witness :
  inside_area atlanta_lat atlanta_lon /\
  position "humidity" (columns table20) = None /\
  get_forecast atlanta_lat atlanta_lon 24 (Some predictor6) table20
  = PredictionFailed KeyError.
Proof.
  assert (Hin : inside_area atlanta_lat atlanta_lon)
    by (unfold inside_area, atlanta_lat, atlanta_lon; lra).
  split; [exact Hin |]. split; [reflexivity |].
  apply (forecast_missing_columns atlanta_lat atlanta_lon 24 predictor6
           table20 Hin).
  right. right. reflexivity.
Defined.

(** X23.  Inside the area, on a table with the timestamp, temperature and
    humidity columns, the scaler decides before the network is run: an
    unfitted scaler gives "Prediction failed" with [NotFittedError]; a
    fitted one gives [ValueError] when the table has no row, and also
    when it was fitted on a number of features other than six, since the
    window always has six columns. *)
Theorem forecast_scaler_rejects (lat lon : R) (hours : Z)
  (p : Inference.WeatherPredictor) (df : DataFrame) (jt jh : nat) :
  inside_area lat lon -> has_timestamp df = true ->
  position "temperature" (columns df) = Some jt ->
  position "humidity" (columns df) = Some jh ->
  (Inference.scaler p = None ->
   get_forecast lat lon hours (Some p) df
   = PredictionFailed NotFittedError) /\
  (forall s, Inference.scaler p = Some s ->
             rows df = [] \/ n_features_in_ s <> 6 ->
             get_forecast lat lon hours (Some p) df
             = PredictionFailed ValueError).
Proof.
  intros Hin Hts Hjt Hjh.
  destruct (forecast_body_found lat lon p df jt jh Hts Hjt Hjh)
    as (js & Hl & _ & Hb).
  rewrite get_forecast_inside by exact Hin. rewrite Hb. split.
  - intros Hs. rewrite (predict_transform_fails _ _ NotFittedError);
      [reflexivity |].
    rewrite Hs. reflexivity.
  - intros s Hs [Hrows | Hk].
    + rewrite (predict_transform_fails _ _ ValueError); [reflexivity |].
      rewrite Hs.
      assert (E : rows (add_time_features df) = []).
      { pose proof (add_time_features_len df) as El. unfold len in El.
        rewrite Hrows in El.
        destruct (rows (add_time_features df));
          [reflexivity | discriminate]. }
      rewrite E. reflexivity.
    + rewrite (predict_transform_fails _ _ ValueError); [reflexivity |].
      rewrite Hs. apply window_rejected; [simpl; lia | exact Hk].
Qed.

Lemma forecast_scaler_rejects_witness :
  inside_area atlanta_lat atlanta_lon /\
  has_timestamp served_table = true /\
  position "temperature" (columns served_table) = Some 0 /\
  position "humidity" (columns served_table) = Some 1 /\
  Inference.scaler predictor3 = Some scaler3 /\
  n_features_in_ scaler3 <> 6 /\
  get_forecast atlanta_lat atlanta_lon 24 (Some predictor3) served_table
  = PredictionFailed ValueError.
Proof.
  assert (Hin : inside_area atlanta_lat atlanta_lon)
    by (unfold inside_area, atlanta_lat, atlanta_lon; lra).
  assert (Hk : n_features_in_ scaler3 <> 6) by discriminate.
  split; [exact Hin |]. split; [reflexivity |]. split; [reflexivity |].
  split; [reflexivity |]. split; [reflexivity |]. split; [exact Hk |].
  apply (proj2 (forecast_scaler_rejects atlanta_lat atlanta_lon 24
                  predictor3 served_table 0 1 Hin eq_refl eq_refl eq_refl)
           scaler3 eq_refl).
  right. exact Hk.
Defined.



(** X25.  Training and serving fit together only for two raw features.
    When [main] of the feature engineering succeeds on a training table
    that has no time-feature columns of its own, its scaler is fitted on
    the table's own feature columns plus the four cyclical ones; unless
    the table has exactly two feature columns of its own, a predictor
    that carries this scaler never answers a request inside the area with
    a forecast, whatever table is stored. *)
Theorem endpoint_needs_two_raw_features (training : DataFrame)
  (args : Args.t) (ts : R) :
  has_timestamp training = true -> well_formed training ->
  rows training <> [] ->
  (0 <= Args.sequence_length args)%Z ->
  (0 <= Args.forecast_horizon args)%Z ->
  (Args.sequence_length args + Args.forecast_horizon args
   <= Z.of_nat (timesteps training))%Z ->
  Args.train_split args = Train.Finite ts ->
  time_features_fresh training ->
  length (feature_cols training) <> 2 ->
  exists saved s,
    main (Some training) args = inr (0%Z, Some saved) /\
    scaler_pkl saved = Some s /\
    n_features_in_ s = length (feature_cols training) + 4 /\
    forall (p : Inference.WeatherPredictor) lat lon hours df,
      Inference.scaler p = scaler_pkl saved -> inside_area lat lon ->
      exists e,
        get_forecast lat lon hours (Some p) df = PredictionFailed e.
Proof.
  intros Hts Hwf Hne HL HH Hen Hsplit Hfresh Hk.
  destruct (MainExtras.main_saves training args ts Hts Hwf Hne HL HH Hen
              Hsplit)
    as (self' & s & X & y & T & _ & _ & _ & Hw & _ & _ & _ & Hm).
  cbv zeta in Hm. rewrite cleaned_feature_count in Hw by exact Hfresh.
  eexists. exists s. split; [exact Hm |].
  cbn [scaler_pkl]. split; [reflexivity |]. split; [exact Hw |].
  intros p lat lon hours df Hs Hin.
  apply (mismatch_never_answers lat lon hours p df s Hin Hs). lia.
Qed.

Lemma endpoint_needs_two_raw_features_witness :
  has_timestamp table20 = true /\ well_formed table20 /\
  rows table20 <> [] /\
  (Args.sequence_length default_args + Args.forecast_horizon default_args
   <= Z.of_nat (timesteps table20))%Z /\
  time_features_fresh table20 /\
  length (feature_cols table20) <> 2 /\
  exists saved s,
    main (Some table20) default_args = inr (0%Z, Some saved) /\
    scaler_pkl saved = Some s /\
    n_features_in_ s = 5.
Proof.
  assert (Hfresh : time_features_fresh table20)
    by (unfold time_features_fresh, time_feature_names;
        repeat constructor).
  assert (Hk : length (feature_cols table20) <> 2) by discriminate.
  split; [reflexivity |].
  split; [exact SequenceClaims.table20_well_formed |].
  split; [exact MainExtras.table20_rows |].
  split; [exact MainExtras.table20_enough |].
  split; [exact Hfresh |]. split; [exact Hk |].
  destruct (endpoint_needs_two_raw_features table20 default_args
              (8 / 10)%R eq_refl SequenceClaims.table20_well_formed
              MainExtras.table20_rows MainExtras.default_L
              MainExtras.default_H MainExtras.table20_enough eq_refl
              Hfresh Hk)
    as (saved & s & Hm & Hs & Hn & _).
  exists saved, s. split; [exact Hm |]. split; [exact Hs | exact Hn].
Defined.

End ApiExtras.

(** ** The loop with calls that may raise *)

Module TrainRunFacts.

Import Train TrainFacts TrainRun.

Section RunFacts.

Variables Weights OptState E : Type.
Variable train_epoch
  : Weights * OptState -> E + ((Weights * OptState) * pyfloat).
Variable validate : Weights -> E + pyfloat.
Variable args : Args.
Variable metadata : Inference.Metadata.
Variable net0 : Weights * OptState.

Local Abbreviation body := (epoch_body train_epoch validate args metadata).
Local Abbreviation loop := (epoch_loop train_epoch validate args metadata).
Local Abbreviation o := (epoch_outcome train_epoch validate net0).
Local Abbreviation v := (fun k => loss_of (o k)).

Lemma run_at_epoch_initial :
  at_epoch train_epoch v net0 0 (initial net0).
Proof. repeat split. Qed.

Lemma stale_step (w : nat -> pyfloat) (a : nat) :
  spec_stale w a
  = if spec_improves w a then 0 else S (spec_stale_before w a).
Proof. destruct a; reflexivity. Qed.

(** One epoch from the loop variables of epoch [a]: the body raises what
    the epoch's outcome is, or it completes, leaves the loop variables of
    epoch [a + 1] and reaches [break] exactly when the patience is
    exhausted. *)
Lemma run_body (a : nat) (st : LoopState Weights OptState) :
  at_epoch train_epoch v net0 a st ->
  match body (Z.of_nat a) st with
  | inl x => o a = inl x
  | inr r =>
      raises (o a) = false /\
      at_epoch train_epoch v net0 (S a) (fst r) /\
      snd r = spec_exhausted v (patience args) a
  end.
Proof.
  intros (Hn & Hb & Hc).
  assert (Ho : o a = match train_epoch (net st) with
                     | inl x => inl x
                     | inr trained => validate (fst (fst trained))
                     end).
  { unfold epoch_outcome. rewrite Hn. reflexivity. }
  unfold epoch_body.
  destruct (train_epoch (net st)) as [x | trained] eqn:Et;
    [exact Ho |].
  cbv zeta.
  destruct (validate (fst (fst trained))) as [x | vl] eqn:Ev;
    [exact Ho |].
  assert (Eo : o a = inr vl) by exact Ho.
  assert (Eva : v a = vl) by (cbv beta; rewrite Eo; reflexivity).
  assert (Ei : float_lt vl (best_val_loss st) = spec_improves v a).
  { unfold spec_improves. rewrite Hb. cbv beta. rewrite Eo. reflexivity. }
  assert (Hnext : net_after train_epoch (S a) net0 = inr (fst trained)).
  { simpl. rewrite Hn, Et. reflexivity. }
  split; [rewrite Eo; reflexivity |].
  unfold spec_exhausted. rewrite stale_step.
  rewrite Ei. destruct (spec_improves v a) eqn:Eimp.
  - cbn [fst snd negb andb]. split; [| reflexivity].
    split; [exact Hnext |]. cbn [best_val_loss patience_counter].
    split.
    + simpl. fold (spec_improves v a). rewrite Eimp. symmetry. exact Eva.
    + simpl. rewrite stale_step, Eimp. reflexivity.
  - cbn [fst snd negb andb]. split.
    + split; [exact Hnext |]. cbn [best_val_loss patience_counter].
      split.
      * simpl. fold (spec_improves v a). rewrite Eimp. exact Hb.
      * simpl. rewrite stale_step, Eimp. rewrite Hc. lia.
    + rewrite Hc. f_equal. lia.
Qed.

(** The loop from epoch [a] ends as the specification's ending says. *)
Lemma run_from (c : nat) :
  forall (a : nat) (st : LoopState Weights OptState),
    at_epoch train_epoch v net0 a st ->
    snd (loop (map Z.of_nat (seq a c)) st)
    = spec_ending o (patience args) (seq a c).
Proof.
  induction c as [| c IH]; intros a st Hat; [reflexivity |].
  cbn [seq map epoch_loop spec_ending].
  pose proof (run_body a st Hat) as Hb.
  destruct (body (Z.of_nat a) st) as [x | r] eqn:Er.
  - rewrite Hb. reflexivity.
  - destruct Hb as (Hr & Hnext & Hbrk).
    destruct (o a) as [x | l] eqn:Eo; [discriminate |].
    rewrite Hbrk.
    destruct (spec_exhausted v (patience args) a); [reflexivity |].
    apply IH. exact Hnext.
Qed.

End RunFacts.

(** The ending read off the epochs. *)
Lemma quiet_from {E : Type} (o : nat -> E + pyfloat) (p : Z) (a k : nat)
  (l : pyfloat) :
  o a = inr l ->
  spec_exhausted (fun j => loss_of (o j)) p a = false ->
  (forall j, S a <= j < k -> quiet o p j) ->
  forall j, a <= j < k -> quiet o p j.
Proof.
  intros Eo Ex Hq j Hj. destruct (Nat.eq_dec j a) as [-> | NE].
  - split; [rewrite Eo; reflexivity | exact Ex].
  - apply Hq. lia.
Qed.

Lemma spec_ending_break {E : Type} (o : nat -> E + pyfloat) (p : Z) (c : nat) :
  forall (a : nat) (e : Z),
    spec_ending o p (seq a c) = Break e <->
    exists k, e = Z.of_nat k /\ a <= k < a + c /\
              raises (o k) = false /\
              spec_exhausted (fun j => loss_of (o j)) p k = true /\
              forall j, a <= j < k -> quiet o p j.
Proof.
  induction c as [| c IH]; intros a e; cbn [seq spec_ending].
  - split; [discriminate | intros (k & _ & Hk & _); lia].
  - destruct (o a) as [x | l] eqn:Eo.
    + split; [discriminate |].
      intros (k & _ & Hk & Hr & Hex & Hq).
      destruct (Nat.eq_dec k a) as [-> | NE].
      * rewrite Eo in Hr. discriminate.
      * destruct (Hq a) as [Hra _]; [lia |].
        rewrite Eo in Hra. discriminate.
    + destruct (spec_exhausted (fun j => loss_of (o j)) p a) eqn:Ex.
      * split.
        -- intros [= <-]. exists a.
           split; [reflexivity |]. split; [lia |].
           split; [rewrite Eo; reflexivity |]. split; [exact Ex |].
           intros j Hj. lia.
        -- intros (k & -> & Hk & _ & _ & Hq).
           destruct (Nat.eq_dec k a) as [-> | NE]; [reflexivity |].
           destruct (Hq a) as [_ Hxa]; [lia |]. congruence.
      * rewrite IH. split.
        -- intros (k & -> & Hk & Hr & Hex & Hq). exists k.
           split; [reflexivity |]. split; [lia |].
           split; [exact Hr |]. split; [exact Hex |].
           apply (quiet_from o p a k l Eo Ex Hq).
        -- intros (k & -> & Hk & Hr & Hex & Hq). exists k.
           assert (k <> a) by (intros ->; congruence).
           split; [reflexivity |]. split; [lia |].
           split; [exact Hr |]. split; [exact Hex |].
           intros j Hj. apply Hq. lia.
Qed.

Lemma spec_ending_raise {E : Type} (o : nat -> E + pyfloat) (p : Z) (c : nat) :
  forall (a : nat) (e : Z) (x : E),
    spec_ending o p (seq a c) = Raise e x <->
    exists k, e = Z.of_nat k /\ a <= k < a + c /\ o k = inl x /\
              forall j, a <= j < k -> quiet o p j.
Proof.
  induction c as [| c IH]; intros a e x; cbn [seq spec_ending].
  - split; [discriminate | intros (k & _ & Hk & _); lia].
  - destruct (o a) as [x' | l] eqn:Eo.
    + split.
      * intros [= <- <-]. exists a.
        split; [reflexivity |]. split; [lia |]. split; [exact Eo |].
        intros j Hj. lia.
      * intros (k & -> & Hk & Hok & Hq).
        destruct (Nat.eq_dec k a) as [-> | NE].
        -- rewrite Eo in Hok. injection Hok as ->. reflexivity.
        -- destruct (Hq a) as [Hra _]; [lia |].
           rewrite Eo in Hra. discriminate.
    + destruct (spec_exhausted (fun j => loss_of (o j)) p a) eqn:Ex.
      * split; [discriminate |].
        intros (k & -> & Hk & Hok & Hq).
        destruct (Nat.eq_dec k a) as [-> | NE]; [congruence |].
        destruct (Hq a) as [_ Hxa]; [lia |]. congruence.
      * rewrite IH. split.
        -- intros (k & -> & Hk & Hok & Hq). exists k.
           split; [reflexivity |]. split; [lia |]. split; [exact Hok |].
           apply (quiet_from o p a k l Eo Ex Hq).
        -- intros (k & -> & Hk & Hok & Hq). exists k.
           assert (k <> a) by (intros ->; congruence).
           split; [reflexivity |]. split; [lia |]. split; [exact Hok |].
           intros j Hj. apply Hq. lia.
Qed.

Lemma spec_ending_cap {E : Type} (o : nat -> E + pyfloat) (p : Z) (c : nat) :
  forall a : nat,
    spec_ending o p (seq a c) = Cap <->
    forall j, a <= j < a + c -> quiet o p j.
Proof.
  induction c as [| c IH]; intros a; cbn [seq spec_ending].
  - split; [intros _ j Hj; lia | reflexivity].
  - destruct (o a) as [x | l] eqn:Eo.
    + split; [discriminate |]. intros Hq.
      destruct (Hq a) as [Hra _]; [lia |].
      rewrite Eo in Hra. discriminate.
    + destruct (spec_exhausted (fun j => loss_of (o j)) p a) eqn:Ex.
      * split; [discriminate |]. intros Hq.
        destruct (Hq a) as [_ Hxa]; [lia |]. congruence.
      * rewrite IH. split.
        -- intros Hq. apply (quiet_from o p a (a + S c) l Eo Ex).
           intros j Hj. apply Hq. lia.
        -- intros Hq j Hj. apply Hq. lia.
Qed.

(** Without a raising epoch the ending is the first exhaustion, or the
    cap. *)
Lemma spec_ending_no_raise {E : Type} (o : nat -> E + pyfloat) (p : Z)
  (c : nat) :
  forall a : nat,
    (forall k, a <= k < a + c -> raises (o k) = false) ->
    spec_ending o p (seq a c)
    = match find (spec_exhausted (fun j => loss_of (o j)) p) (seq a c) with
      | Some e => Break (Z.of_nat e)
      | None => Cap
      end.
Proof.
  induction c as [| c IH]; intros a Hno; cbn [seq spec_ending find];
    [reflexivity |].
  destruct (o a) as [x | l] eqn:Eo.
  - specialize (Hno a). rewrite Eo in Hno. discriminate Hno. lia.
  - destruct (spec_exhausted (fun j => loss_of (o j)) p a);
      [reflexivity |].
    apply IH. intros k Hk. apply Hno. lia.
Qed.

(** For a patience of at least 1 exhaustion is the count reaching the
    patience, as the specification words it. *)
Lemma exhausted_is_worded (w : nat -> pyfloat) (p : Z) (a : nat) :
  (1 <= p)%Z -> spec_exhausted w p a = worded_exhausted w p a.
Proof.
  intros Hp. unfold spec_exhausted, worded_exhausted.
  rewrite stale_step.
  destruct (spec_improves w a); simpl; [| reflexivity].
  symmetry. apply Z.leb_gt. lia.
Qed.

(** Calls that never raise: the loop is the loop of [Train]. *)
Lemma run_total (Weights OptState E : Type)
  (train_epoch : Weights * OptState -> (Weights * OptState) * pyfloat)
  (validate : Weights -> pyfloat) (args : Args)
  (metadata : Inference.Metadata) (es : list Z) :
  forall st : LoopState Weights OptState,
    epoch_loop (E := E) (fun n => inr (train_epoch n))
      (fun w => inr (validate w)) args metadata es st
    = (fst (Train.epoch_loop train_epoch validate args metadata es st),
       match snd (Train.epoch_loop train_epoch validate args metadata es st)
       with
       | Some e => Break e
       | None => Cap
       end).
Proof.
  induction es as [| e rest IH]; intros st; [reflexivity |].
  cbn [epoch_loop Train.epoch_loop].
  assert (Eb : epoch_body (E := E) (fun n => inr (train_epoch n))
                 (fun w => inr (validate w)) args metadata e st
               = inr (Train.epoch_body train_epoch validate args metadata
                        e st)).
  { unfold epoch_body, Train.epoch_body. cbv zeta.
    destruct (float_lt _ _); reflexivity. }
  rewrite Eb.
  destruct (snd (Train.epoch_body train_epoch validate args metadata e st));
    [reflexivity | apply IH].
Qed.

Lemma outcome_total (Weights OptState E : Type)
  (train_epoch : Weights * OptState -> (Weights * OptState) * pyfloat)
  (validate : Weights -> pyfloat) (net0 : Weights * OptState) (e : nat) :
  epoch_outcome (E := E) (fun n => inr (train_epoch n))
    (fun w => inr (validate w)) net0 e
  = inr (val_loss_at train_epoch validate net0 e).
Proof.
  assert (Hn : forall k,
            net_after (E := E) (fun n => inr (train_epoch n)) k net0
            = inr (Train.net_after train_epoch k net0)).
  { induction k as [| k IH]; [reflexivity |].
    simpl. rewrite IH. reflexivity. }
  unfold epoch_outcome, val_loss_at. rewrite Hn. reflexivity.
Qed.

(** An empty loader ends the run in its first epoch. *)
Lemma empty_loader_raises (Weights OptState Batch : Type)
  (train_loss_of eval_loss_of : Weights -> Batch -> float)
  (optimizer_step : Weights * OptState -> Batch -> Weights * OptState)
  (train_loader val_loader : list Batch) (args : Args)
  (metadata : Inference.Metadata) (net0 : Weights * OptState) :
  (0 < epochs args)%Z -> train_loader = [] \/ val_loader = [] ->
  main_loop train_loss_of eval_loss_of optimizer_step train_loader
    val_loader args metadata net0
  = (initial net0, Raise 0%Z TrainEpoch.ZeroDivisionError).
Proof.
  intros Hep Hempty. unfold main_loop, training_loop, range.
  destruct (Z.to_nat (epochs args)) as [| n] eqn:En; [lia |].
  cbn [seq map epoch_loop].
  assert (Eb : epoch_body
                 (train_epoch_on train_loss_of optimizer_step train_loader)
                 (validate_on eval_loss_of val_loader) args metadata
                 (Z.of_nat 0) (initial net0)
               = inl TrainEpoch.ZeroDivisionError).
  { unfold epoch_body, train_epoch_on, validate_on.
    destruct train_loader as [| b tl].
    - reflexivity.
    - destruct Hempty as [Ht | Hv]; [discriminate |]. subst val_loader.
      unfold TrainEpoch.train_epoch, TrainEpoch.mean_loss.
      cbn [length Nat.eqb]. cbv zeta. reflexivity. }
  rewrite Eb. reflexivity.
Qed.

End TrainRunFacts.

(** ** The claim on early stopping *)

Module TrainRunClaims.

Import Train TrainFacts TrainRun TrainRunFacts Samples RunSamples.

(** C5 (as amended).  Every training run, its checkpoint writes taken to
    succeed, ends in exactly one of three ways, decided by the first
    epoch below the cap that raises or exhausts the patience.  The loop leaves through [break] exactly at
    the first epoch that does not improve on the best validation loss and
    brings the count of consecutive non-improving epochs since the most
    recent strict improvement to the patience or beyond, no call having
    raised up to it; for a patience of at least 1 this is the count
    reaching the patience.  It runs all [epochs] epochs exactly when no
    epoch below the cap raises or exhausts the patience.  And it is left
    by an exception exactly at the first epoch in which [train_epoch] or
    [validate] raises, no earlier epoch having exhausted the patience.
    When no call raises, early stopping and the epoch cap are the only
    endings. *)
Theorem early_stopping_first_exhaustion (Weights OptState E : Type)
  (train_epoch
     : Weights * OptState -> E + ((Weights * OptState) * pyfloat))
  (validate : Weights -> E + pyfloat) (args : Args)
  (metadata : Inference.Metadata) (net0 : Weights * OptState) :
  let o := epoch_outcome train_epoch validate net0 in
  let v := fun k => loss_of (o k) in
  let p := patience args in
  let cap := Z.to_nat (epochs args) in
  let ending :=
    snd (training_loop train_epoch validate args metadata net0) in
  ending = spec_ending o p (seq 0 cap) /\
  (forall e,
     ending = Break e <->
     exists k, e = Z.of_nat k /\ k < cap /\ raises (o k) = false /\
               spec_exhausted v p k = true /\
               forall j, j < k -> quiet o p j) /\
  (ending = Cap <-> forall j, j < cap -> quiet o p j) /\
  (forall e x,
     ending = Raise e x <->
     exists k, e = Z.of_nat k /\ k < cap /\ o k = inl x /\
               forall j, j < k -> quiet o p j) /\
  ((1 <= p)%Z ->
   forall k, spec_exhausted v p k = worded_exhausted v p k) /\
  ((forall k, k < cap -> raises (o k) = false) ->
   ending = match spec_stop v p (epochs args) with
            | Some e => Break e
            | None => Cap
            end).
Proof.
  cbv zeta.
  assert (Hend : snd (training_loop train_epoch validate args metadata net0)
                 = spec_ending (epoch_outcome train_epoch validate net0)
                     (patience args) (seq 0 (Z.to_nat (epochs args)))).
  { unfold training_loop, range.
    apply (run_from Weights OptState E train_epoch validate args metadata
             net0 (Z.to_nat (epochs args)) 0 (initial net0)).
    apply run_at_epoch_initial. }
  split; [exact Hend |]. rewrite Hend.
  split; [| split; [| split; [| split]]].
  - intros e. rewrite spec_ending_break. split.
    + intros (k & He & Hk & Hr & Hx & Hq). exists k.
      split; [exact He |]. split; [lia |]. split; [exact Hr |].
      split; [exact Hx |]. intros j Hj. apply Hq. lia.
    + intros (k & He & Hk & Hr & Hx & Hq). exists k.
      split; [exact He |]. split; [lia |]. split; [exact Hr |].
      split; [exact Hx |]. intros j Hj. apply Hq. lia.
  - rewrite spec_ending_cap. split; intros Hq j Hj; apply Hq; lia.
  - intros e x. rewrite spec_ending_raise. split.
    + intros (k & He & Hk & Hok & Hq). exists k.
      split; [exact He |]. split; [lia |]. split; [exact Hok |].
      intros j Hj. apply Hq. lia.
    + intros (k & He & Hk & Hok & Hq). exists k.
      split; [exact He |]. split; [lia |]. split; [exact Hok |].
      intros j Hj. apply Hq. lia.
  - intros Hp k. apply exhausted_is_worded. exact Hp.
  - intros Hno. rewrite spec_ending_no_raise
      by (intros k Hk; apply Hno; lia).
    unfold spec_stop.
    destruct (find _ (seq 0 (Z.to_nat (epochs args)))); reflexivity.
Qed.

Lemma early_stopping_first_exhaustion_witness :
  (1 <= patience args_patience2)%Z /\
  (forall k,
     k < Z.to_nat (epochs args_patience2) ->
     raises
       (epoch_outcome (E := TrainEpoch.error)
          (fun n => inr (counting_train n))
          (fun w => inr (listed_validate w)) (0, tt) k) = false) /\
  snd (training_loop (E := TrainEpoch.error)
         (fun n => inr (counting_train n))
         (fun w => inr (listed_validate w))
         args_patience2 metadata88 (0, tt))
  = Break 2%Z /\
  forall k,
    spec_exhausted
      (fun j =>
         loss_of
           (epoch_outcome (E := TrainEpoch.error)
              (fun n => inr (counting_train n))
              (fun w => inr (listed_validate w)) (0, tt) j))
      (patience args_patience2) k
    = worded_exhausted
        (fun j =>
           loss_of
             (epoch_outcome (E := TrainEpoch.error)
                (fun n => inr (counting_train n))
                (fun w => inr (listed_validate w)) (0, tt) j))
        (patience args_patience2) k.
Proof.
  assert (Hp : (1 <= patience args_patience2)%Z) by discriminate.
  assert (Hno : forall k,
            k < Z.to_nat (epochs args_patience2) ->
            raises
              (epoch_outcome (E := TrainEpoch.error)
                 (fun n => inr (counting_train n))
                 (fun w => inr (listed_validate w)) (0, tt) k) = false).
  { intros k _. rewrite outcome_total. reflexivity. }
  split; [exact Hp |]. split; [exact Hno |].
  pose proof (early_stopping_first_exhaustion nat unit TrainEpoch.error
                (fun n => inr (counting_train n))
                (fun w => inr (listed_validate w))
                args_patience2 metadata88 (0, tt)) as H.
  cbv zeta in H. destruct H as (_ & _ & _ & _ & Hw & H).
  split; [| exact (Hw Hp)].
  rewrite (H Hno). vm_compute. reflexivity.
Defined.

(** C5 as stated fails in two ways.  With patience 0 and a first epoch
    that improves, the count of non-improving epochs, 0, has reached the
    patience at epoch 0, yet the loop goes on and leaves at epoch 1, the
    first epoch that does not improve.  And on an empty validation loader
    the run ends in epoch 0 with the [ZeroDivisionError] of [validate]:
    neither early stopping nor the epoch cap. *)
Lemma early_stopping_as_worded_fails :
  (patience args_patience0 = 0%Z /\
   worded_stop (val_loss_at counting_train listed_validate (0, tt))
     (patience args_patience0) (epochs args_patience0)
   = Some 0%Z /\
   snd (Train.training_loop counting_train listed_validate
          args_patience0 metadata88 (0, tt))
   = Some 1%Z /\
   snd (training_loop (E := TrainEpoch.error)
          (fun n => inr (counting_train n))
          (fun w => inr (listed_validate w))
          args_patience0 metadata88 (0, tt))
   = Break 1%Z) /\
  snd (main_loop product_loss product_loss adding_step [1%R] []
         args_patience2 metadata88 (0%R, tt))
  = Raise 0%Z TrainEpoch.ZeroDivisionError.
Proof.
  split.
  - split; [reflexivity |].
    split; [vm_compute; reflexivity |].
    split; [vm_compute; reflexivity |].
    unfold training_loop. rewrite run_total.
    vm_compute. reflexivity.
  - rewrite empty_loader_raises; [reflexivity | reflexivity |].
    right. reflexivity.
Qed.

End TrainRunClaims.
